(** * Anomaly-map aggregation and checkpointing of [experiment_builder.py]

    A shallow embedding of the two classes of [src/experiment_builder.py]:
    [AnomalyDetectionExperiment] (sliding-window aggregation of patch scores
    into one anomaly map per image, finalisation, agreement statistics) and
    [ExperimentBuilder] (loss selection, checkpoint save and load,
    construction, the loop over the epochs and the test pass), and of the
    shapes through the layers of [CE_netG] of [src/model_architectures.py].

    Conventions.
    - A torch tensor of shape [1 x H x W] is a record of its two spatial
      extents and its index function.  Scores are exact rationals ([Q]);
      the rounding of 32-bit floats is not modelled, and [nan] appears only
      as the "undefined" agreement value ([None]).
    - The output of the network for a patch is data of the patch; the score
      map is computed from it as [calculate_anomaly_maps] does.
    - Python exceptions are values of [exn]; a computation that can raise
      returns a [result].
    - Files written by [torch.save] and rows written by [save_statistics]
      are recorded as events of a trace. *)

From stdpp Require Import gmap strings pretty.
From Stdlib Require Import ZArith QArith Qminmax Qabs List Bool Ascii Lia.
Import ListNotations.

Local Close Scope Q_scope.
Local Open Scope string_scope.
Local Open Scope list_scope.
Local Open Scope nat_scope.

(** ** Exceptions and results *)

Inductive exn : Type :=
| AssertionError
| UnboundLocalError
| IndexError
| RuntimeError
| KeyError
| ZeroDivisionError
| FileNotFoundError.

Inductive result (A : Type) : Type :=
| Ok (a : A)
| Raise (e : exn).
Arguments Ok {A} a.
Arguments Raise {A} e.

Definition bind {A B : Type} (r : result A) (k : A -> result B) : result B :=
  match r with
  | Ok a => k a
  | Raise e => Raise e
  end.

Notation "'let*' x ':=' r 'in' k" := (bind r (fun x => k))
  (at level 10, x name, r at level 100, k at level 200).

(** ** Tensors of shape [1 x H x W] *)

Record tensor : Type := mkTensor {
  t_height : nat;
  t_width : nat;
  t_val : nat -> nat -> Q
}.

(** [torch.zeros((1, H, W))] *)
Definition zeros (H W : nat) : tensor := mkTensor H W (fun _ _ => 0%Q).

(** Rows of a tensor, for display and for comparing concrete maps. *)
Definition to_rows (t : tensor) : list (list Q) :=
  map (fun i => map (fun j => Qred (t_val t i j)) (seq 0 (t_width t)))
      (seq 0 (t_height t)).

(** The tensor whose rows are the given lists (the width is that of the
    first row). *)
Definition of_rows (rows : list (list Q)) : tensor :=
  mkTensor (length rows) (length (hd [] rows))
           (fun i j => nth j (nth i rows []) 0%Q).

(** A constant tensor. *)
Definition full (H W : nat) (c : Q) : tensor := mkTensor H W (fun _ _ => c).

(** ** Python slices [start:stop] *)

Record pyslice : Type := mkSlice { sl_start : Z; sl_stop : Z }.

(** A slice bound resolved against an axis of extent [n]: a negative bound
    counts from the end, and the result is clamped to [0..n]. *)
Definition slice_index (k : Z) (n : nat) : nat :=
  Z.to_nat (if (k <? 0)%Z then Z.max (k + Z.of_nat n) 0 else Z.min k (Z.of_nat n)).

Definition slice_lo (s : pyslice) (n : nat) : nat := slice_index (sl_start s) n.
Definition slice_len (s : pyslice) (n : nat) : nat :=
  slice_index (sl_stop s) n - slice_index (sl_start s) n.

Definition in_slice (s : pyslice) (n i : nat) : bool :=
  (slice_lo s n <=? i) && (i <? slice_lo s n + slice_len s n).

(** [t[:, rs, cs]] read. *)
Definition slice_view (t : tensor) (rs cs : pyslice) : tensor :=
  mkTensor (slice_len rs (t_height t)) (slice_len cs (t_width t))
           (fun i j => t_val t (slice_lo rs (t_height t) + i)
                               (slice_lo cs (t_width t) + j)).

(** [t[:, rs, cs] = v], with [v] indexed relative to the slice. *)
Definition slice_assign (t : tensor) (rs cs : pyslice) (v : nat -> nat -> Q) : tensor :=
  mkTensor (t_height t) (t_width t)
           (fun i j =>
              if in_slice rs (t_height t) i && in_slice cs (t_width t) j
              then v (i - slice_lo rs (t_height t)) (j - slice_lo cs (t_width t))
              else t_val t i j).

(** Broadcasting of a value tensor to the shape of a slice: an axis of the
    value must have the extent of the slice or extent one. *)
Definition broadcastable (v : tensor) (h w : nat) : bool :=
  ((t_height v =? h) || (t_height v =? 1)) && ((t_width v =? w) || (t_width v =? 1)).

Definition broadcast (v : tensor) (h w : nat) : nat -> nat -> Q :=
  fun i j => t_val v (if t_height v =? h then i else 0) (if t_width v =? w then j else 0).

(** ** The per-patch update (body of the inner loop, lines 513-527) *)

(** [normalisation_map[current_slice] += 1] (line 517). *)
Definition count_patch (normalisation_map : tensor) (rs cs : pyslice) : tensor :=
  let nview := slice_view normalisation_map rs cs in
  slice_assign normalisation_map rs cs (fun i j => (t_val nview i j + 1)%Q).

(** [torch.eq(normalisation_map[current_slice], 1).type(torch.float)] at one
    pixel. *)
Definition first_time (nm : Q) : Q := if Qeq_bool nm 1 then 1%Q else 0%Q.

(** Lines 519-527; [normalisation_map] is the map after line 517.  A method
    other than the three named ones falls through the [if/elif] chain and
    leaves the anomaly map as it is. *)
Definition aggregate_patch (window_aggregation_method : string)
    (anomaly_map normalisation_map : tensor) (rs cs : pyslice) (patch_map : tensor)
  : result tensor :=
  let aview := slice_view anomaly_map rs cs in
  let nview := slice_view normalisation_map rs cs in
  let b := broadcast patch_map (t_height aview) (t_width aview) in
  let fits := broadcastable patch_map (t_height aview) (t_width aview) in
  if String.eqb window_aggregation_method "mean" then
    if fits then
      Ok (slice_assign anomaly_map rs cs (fun i j => (t_val aview i j + b i j)%Q))
    else Raise RuntimeError
  else if String.eqb window_aggregation_method "min" then
    if fits then
      Ok (slice_assign anomaly_map rs cs
            (fun i j =>
               let first_time_pixels := first_time (t_val nview i j) in
               let min_current_and_aggregated_map := Qmin (t_val aview i j) (b i j) in
               (first_time_pixels * b i j
                + (1 - first_time_pixels) * min_current_and_aggregated_map)%Q))
    else Raise RuntimeError
  else if String.eqb window_aggregation_method "max" then
    if fits then
      Ok (slice_assign anomaly_map rs cs (fun i j => Qmax (t_val aview i j) (b i j)))
    else Raise RuntimeError
  else Ok anomaly_map.

Definition update_maps (window_aggregation_method : string)
    (anomaly_map normalisation_map : tensor) (rs cs : pyslice) (patch_map : tensor)
  : result (tensor * tensor) :=
  let normalisation_map' := count_patch normalisation_map rs cs in
  let* anomaly_map' :=
    aggregate_patch window_aggregation_method anomaly_map normalisation_map'
                    rs cs patch_map in
  Ok (anomaly_map', normalisation_map').

(** [normalise_anomaly_map] (lines 576-580).  Line 578 overwrites the zero
    entries of the normalisation map in place; [fill_zero_counts] is the map
    the caller's variable refers to afterwards. *)
Definition fill_zero_counts (normalisation_map : tensor) : tensor :=
  mkTensor (t_height normalisation_map) (t_width normalisation_map)
           (fun i j => if Qeq_bool (t_val normalisation_map i j) 0
                       then 1%Q else t_val normalisation_map i j).

Definition normalise_anomaly_map (anomaly_map normalisation_map : tensor) : tensor :=
  let normalisation_map' := fill_zero_counts normalisation_map in
  mkTensor (t_height anomaly_map) (t_width anomaly_map)
           (fun i j => (t_val anomaly_map i j / t_val normalisation_map' i j)%Q).

(** ** Patches and the maps of one image *)

(** The value of [F.cross_entropy] at one pixel of one channel, the
    negative logarithm of the probability the network gives the target
    class.  The logarithm is torch's and is not computed here; its value
    is never negative and is kept as a numerator and a denominator. *)
Definition nll_value : Type := (N * positive)%type.

Definition nll_Q (v : nll_value) : Q := Z.of_N (fst v) # snd v.

(** One element of a batch: the index of the image the window was cut from,
    the placement of the window, and what [calculate_anomaly_maps] reads
    for it: the output of the network and the target, tensors of one shape
    [C x h x w] with at least one channel, and the pixel-wise negative log
    likelihood of the target under the output, channel by channel. *)
Record patch : Type := mkPatch {
  p_image_idx : Z;
  p_rows : pyslice;
  p_cols : pyslice;
  p_channels : positive;
  p_height : nat;
  p_width : nat;
  p_outputs : nat -> nat -> nat -> Q;
  p_targets : nat -> nat -> nat -> Q;
  p_cross_entropy : nat -> nat -> nat -> nll_value
}.

(** A window placed on an image together with its score map. *)
Record window : Type := mkWindow {
  w_rows : pyslice;
  w_cols : pyslice;
  w_score : tensor
}.

(** The windows of one image applied in stream order to its two maps. *)
Fixpoint accumulate (method : string) (ws : list window) (anomaly_map normalisation_map : tensor)
  : result (tensor * tensor) :=
  match ws with
  | [] => Ok (anomaly_map, normalisation_map)
  | w :: ws' =>
      let* maps := update_maps method anomaly_map normalisation_map
                               (w_rows w) (w_cols w) (w_score w) in
      accumulate method ws' (fst maps) (snd maps)
  end.

(** Does the window cover pixel [(i, j)] of an [H x W] image? *)
Definition covers (H W : nat) (w : window) (i j : nat) : bool :=
  in_slice (w_rows w) H i && in_slice (w_cols w) W j.

(** The score the window contributes at pixel [(i, j)]. *)
Definition contribution (H W : nat) (w : window) (i j : nat) : Q :=
  broadcast (w_score w) (slice_len (w_rows w) H) (slice_len (w_cols w) W)
            (i - slice_lo (w_rows w) H) (j - slice_lo (w_cols w) W).

(** The window's score map can be written into its slice. *)
Definition fits (H W : nat) (w : window) : bool :=
  broadcastable (w_score w) (slice_len (w_rows w) H) (slice_len (w_cols w) W).

(** Scores contributed at a pixel, in stream order. *)
Definition contributions (H W : nat) (ws : list window) (i j : nat) : list Q :=
  map (fun w => contribution H W w i j) (filter (fun w => covers H W w i j) ws).

Definition Qsum (l : list Q) : Q := fold_left Qplus l 0%Q.

(** ** The experiment object and its collaborators *)

(** The dataset object: the list of image file names, the list of image
    sizes [(C, H, W)], and the repository of ground-truth label images. *)
Record dataset : Type := mkDataset {
  image_list : list string;
  image_sizes : list (nat * nat * nat);
  get_label_image : Z -> result tensor
}.

(** The attributes [__init__] stores on an [AnomalyDetectionExperiment]. *)
Record experiment : Type := mkExperiment {
  measure_of_anomaly : string;
  window_aggregation_method : string;
  save_anomaly_maps : bool;
  resize_anomaly_maps : bool;
  AD_margins : option (Z * Z);
  val_dataset : dataset;
  val_data_loader : list (list patch);
  test_dataset : dataset;
  test_data_loader : list (list patch)
}.

(** [l[k]] on a Python sequence: a negative index counts from the end. *)
Definition py_index {A : Type} (l : list A) (k : Z) : result A :=
  let k' := if (k <? 0)%Z then (k + Z.of_nat (length l))%Z else k in
  if (k' <? 0)%Z then Raise IndexError
  else match nth_error l (Z.to_nat k') with
       | Some a => Ok a
       | None => Raise IndexError
       end.

Arguments py_index : simpl never.

Inductive continue_mode : Type := IfExists | ContinueTrue.

(** What a run leaves behind outside its own variables. *)
Inductive event : Type :=
| TorchSave (which_set filename : string) (saved : tensor)
| SaveStatistics (filename : string) (stats : list (option Q))
                 (current_epoch : Z) (continue_from_mode : continue_mode)
| PrintMean (key : string) (mean_value : Q)
| PrintNoImages.

(** The variables of [run_experiment] that the patch loop reads and writes,
    [self.stats_dict["aucroc"]], and the trace of events so far. *)
Record locals : Type := mkLocals {
  num_finished_images : Z;
  current_image_idx : option Z;
  anomaly_map : option tensor;
  normalisation_map : option tensor;
  label_image : option tensor;
  stats_dict : list (option Q);
  trace : list event
}.

Definition set_num_finished_images (v : Z) (s : locals) : locals :=
  mkLocals v (current_image_idx s) (anomaly_map s) (normalisation_map s)
           (label_image s) (stats_dict s) (trace s).
Definition set_current_image_idx (v : Z) (s : locals) : locals :=
  mkLocals (num_finished_images s) (Some v) (anomaly_map s) (normalisation_map s)
           (label_image s) (stats_dict s) (trace s).
Definition set_anomaly_map (v : tensor) (s : locals) : locals :=
  mkLocals (num_finished_images s) (current_image_idx s) (Some v) (normalisation_map s)
           (label_image s) (stats_dict s) (trace s).
Definition set_normalisation_map (v : tensor) (s : locals) : locals :=
  mkLocals (num_finished_images s) (current_image_idx s) (anomaly_map s) (Some v)
           (label_image s) (stats_dict s) (trace s).
Definition set_label_image (v : tensor) (s : locals) : locals :=
  mkLocals (num_finished_images s) (current_image_idx s) (anomaly_map s)
           (normalisation_map s) (Some v) (stats_dict s) (trace s).
Definition set_stats_dict (v : list (option Q)) (s : locals) : locals :=
  mkLocals (num_finished_images s) (current_image_idx s) (anomaly_map s)
           (normalisation_map s) (label_image s) v (trace s).
Definition add_event (ev : event) (s : locals) : locals :=
  mkLocals (num_finished_images s) (current_image_idx s) (anomaly_map s)
           (normalisation_map s) (label_image s) (stats_dict s) (trace s ++ [ev]).

(** ** A state-and-exception monad for the loop *)

Definition M (A : Type) : Type := locals -> result A * locals.

Definition ret {A : Type} (a : A) : M A := fun s => (Ok a, s).
Definition raise {A : Type} (e : exn) : M A := fun s => (Raise e, s).
Definition seq_M {A B : Type} (m : M A) (k : A -> M B) : M B :=
  fun s => match m s with
           | (Ok a, s') => k a s'
           | (Raise e, s') => (Raise e, s')
           end.
Definition lift {A : Type} (r : result A) : M A := fun s => (r, s).
Definition modify (f : locals -> locals) : M unit := fun s => (Ok tt, f s).
Definition gets {A : Type} (f : locals -> A) : M A := fun s => (Ok (f s), s).

(** Reading a local variable that may not have been assigned yet. *)
Definition var {A : Type} (f : locals -> option A) : M A :=
  fun s => match f s with
           | Some a => (Ok a, s)
           | None => (Raise UnboundLocalError, s)
           end.

Declare Scope prog_scope.
Delimit Scope prog_scope with prog.
Notation "'do' x <- m ; k" := (seq_M m (fun x => k))
  (at level 10, x name, m at level 89, k at level 200) : prog_scope.
Notation "m ;> k" := (seq_M m (fun _ => k))
  (at level 90, right associativity) : prog_scope.
Local Open Scope prog_scope.

Fixpoint for_each {A : Type} (body : A -> M unit) (l : list A) : M unit :=
  match l with
  | [] => ret tt
  | a :: l' => body a ;> for_each body l'
  end.

(** ** Library operations used by the finalisation *)

(** [nn.functional.interpolate(t.unsqueeze(0), size=(H, W)).squeeze(0)] in
    its default mode, nearest neighbour: output pixel [(i, j)] reads input
    pixel [(floor (i * h / H), floor (j * w / W))].  The index is computed
    here in exact arithmetic; torch multiplies by a 32-bit scale and can
    read the neighbouring pixel at some sizes, and it raises for an empty
    size.  The properties below use the shape of the result only. *)
Definition interpolate (t : tensor) (H W : nat) : tensor :=
  mkTensor H W (fun i j => t_val t (i * t_height t / H) (j * t_width t / W)).

(** Row-major flattening. *)
Definition flatten (t : tensor) : list Q :=
  concat (map (fun i => map (fun j => t_val t i j) (seq 0 (t_width t)))
              (seq 0 (t_height t))).

(** Area under the ROC curve as the rank statistic: the fraction of
    (positive, negative) pairs that the score orders correctly, ties
    counting one half. *)
Definition roc_auc_score (y_true y_score : list Q) : Q :=
  let pairs := combine y_true y_score in
  let pos := filter (fun p => negb (Qeq_bool (fst p) 0)) pairs in
  let neg := filter (fun p => Qeq_bool (fst p) 0) pairs in
  let credit (p n : Q * Q) : Q :=
    match (snd n ?= snd p)%Q with
    | Lt => 1%Q
    | Eq => (1#2)%Q
    | Gt => 0%Q
    end in
  (Qsum (flat_map (fun p => map (credit p) neg) pos)
   / inject_Z (Z.of_nat (length pos * length neg)))%Q.

(** Modelled from the spec: [misc_utils.get_aucroc] is imported at line 11
    but is not among the sources.  Section 4.2: if the flattened label
    contains only one class (all 0 or all 1) the agreement is undefined and
    a sentinel is returned instead of an error; otherwise it is the AUC-ROC
    of the scores against the label.  [None] is the sentinel ([nan]). *)
Definition get_aucroc (label_image anomaly_map : tensor) : option Q :=
  let y_true := flatten label_image in
  if forallb (fun y => Qeq_bool y 0) y_true || forallb (fun y => Qeq_bool y 1) y_true
  then None
  else Some (roc_auc_score y_true (flatten anomaly_map)).

(** ** [AnomalyDetectionExperiment]: agreement, finalisation, patch loop *)

(** [torch.sum(t, dim=1, keepdim=True)] at one pixel: the sum over the
    channels. *)
Definition channel_sum (channels : positive) (t : nat -> Q) : Q :=
  Qsum (map t (seq 0 (Pos.to_nat channels))).

(** Lines 599-600: [torch.abs(outputs - targets)], then the mean over the
    channels. *)
Definition absolute_distance (p : patch) : tensor :=
  mkTensor (p_height p) (p_width p)
           (fun i j =>
              (channel_sum (p_channels p)
                           (fun c => Qabs (p_outputs p c i j - p_targets p c i j))
               / inject_Z (Z.pos (p_channels p)))%Q).

(** Lines 604-605: the pixel-wise negative log likelihood, summed over the
    channels. *)
Definition likelihood (p : patch) : tensor :=
  mkTensor (p_height p) (p_width p)
           (fun i j => channel_sum (p_channels p)
                                   (fun c => nll_Q (p_cross_entropy p c i j))).

(** [calculate_anomaly_maps] (lines 592-607): the score map of every patch
    of the batch under the configured measure.  With any other measure the
    name [anomaly_maps] is never bound and the [return] raises. *)
Definition calculate_anomaly_maps (e : experiment) (batch : list patch) : M (list tensor) :=
  if String.eqb (measure_of_anomaly e) "absolute distance" then
    ret (map absolute_distance batch)
  else if String.eqb (measure_of_anomaly e) "likelihood" then
    ret (map likelihood batch)
  else raise UnboundLocalError.

(** [calculate_agreement_between_anomaly_score_and_labels] (lines 583-589). *)
Definition calculate_agreement_between_anomaly_score_and_labels
    (e : experiment) (anomaly_map label_image : tensor) : M unit :=
  do aucroc <- (if String.eqb (measure_of_anomaly e) "absolute distance"
                   || String.eqb (measure_of_anomaly e) "likelihood"
                then ret (get_aucroc label_image anomaly_map)
                else raise UnboundLocalError);
  modify (fun s => set_stats_dict (stats_dict s ++ [aucroc]) s).

(** The statements the two finalisation passages are made of. *)

Definition normalise_step (e : experiment) : M unit :=
  if String.eqb (window_aggregation_method e) "mean" then
    do a <- var anomaly_map;
    do n <- var normalisation_map;
    modify (set_normalisation_map (fill_zero_counts n)) ;>
    modify (set_anomaly_map (normalise_anomaly_map a n))
  else ret tt.

Definition load_label_step (ds : dataset) (image_idx : Z) : M unit :=
  do l <- lift (get_label_image ds image_idx);
  modify (set_label_image l).

Definition resize_step (e : experiment) : M unit :=
  if resize_anomaly_maps e then
    do a <- var anomaly_map;
    do l <- var label_image;
    modify (set_anomaly_map (interpolate a (t_height l) (t_width l)))
  else ret tt.

Definition save_step (e : experiment) (ds : dataset) (which_set : string) (image_idx : Z)
  : M unit :=
  if save_anomaly_maps e then
    do a <- var anomaly_map;
    do filename <- lift (py_index (image_list ds) image_idx);
    modify (add_event (TorchSave which_set filename a))
  else ret tt.

Definition margin_slices (margins : Z * Z) (a : tensor) : pyslice * pyslice :=
  (mkSlice (fst margins) (Z.of_nat (t_height a) - fst margins),
   mkSlice (snd margins) (Z.of_nat (t_width a) - snd margins)).

Definition margin_step (e : experiment) : M unit :=
  match AD_margins e with
  | Some margins =>
      do a <- var anomaly_map;
      let slice_considered_for_AD := margin_slices margins a in
      modify (set_anomaly_map
                (slice_view a (fst slice_considered_for_AD) (snd slice_considered_for_AD))) ;>
      do l <- var label_image;
      modify (set_label_image
                (slice_view l (fst slice_considered_for_AD) (snd slice_considered_for_AD)))
  | None => ret tt
  end.

Definition agreement_step (e : experiment) : M unit :=
  do a <- var anomaly_map;
  do l <- var label_image;
  calculate_agreement_between_anomaly_score_and_labels e a l.

(** [save_statistics] of [storage_utils] is not among the sources; the call
    is recorded with the arguments it receives. *)
Definition statistics_step (which_set : string) (image_idx : Z) (mode : continue_mode)
  : M unit :=
  do stats <- gets stats_dict;
  modify (add_event (SaveStatistics (which_set ++ "_summary.csv") stats image_idx mode)).

(** Lines 468-495: the image that ended when a patch of image
    [current_image_idx] arrived. *)
Definition finalise_at_boundary (e : experiment) (ds : dataset) (which_set : string)
    (current_image_idx : Z) : M unit :=
  normalise_step e ;>
  load_label_step ds (current_image_idx - 1) ;>
  resize_step e ;>
  save_step e ds which_set (current_image_idx - 1) ;>
  margin_step e ;>
  agreement_step e ;>
  statistics_step which_set (current_image_idx - 1) IfExists.

(** Lines 535-563: the last image, after the loop over the batches. *)
Definition finalise_last_image (e : experiment) (ds : dataset) (which_set : string) : M unit :=
  normalise_step e ;>
  do current_image_idx <- var current_image_idx;
  load_label_step ds current_image_idx ;>
  resize_step e ;>
  save_step e ds which_set current_image_idx ;>
  margin_step e ;>
  agreement_step e ;>
  statistics_step which_set current_image_idx ContinueTrue.

Definition supported_method (m : string) : bool :=
  String.eqb m "mean" || String.eqb m "min" || String.eqb m "max".

(** Lines 461-527: one patch of a batch with its score map. *)
Definition process_patch (e : experiment) (ds : dataset) (which_set : string)
    (item : patch * tensor) : M unit :=
  let p := fst item in
  let cur := p_image_idx p in
  modify (set_current_image_idx cur) ;>
  do finished <- gets num_finished_images;
  (if (finished <=? cur)%Z then ret tt else raise AssertionError) ;>
  (if (cur >? finished)%Z then
     modify (set_num_finished_images (finished + 1)) ;>
     (if (finished + 1 >? 0)%Z then finalise_at_boundary e ds which_set cur else ret tt) ;>
     do size <- lift (py_index (image_sizes ds) cur);
     let current_image_height := snd (fst size) in
     let current_image_width := snd size in
     modify (set_anomaly_map (zeros current_image_height current_image_width)) ;>
     modify (set_normalisation_map (zeros current_image_height current_image_width))
   else ret tt) ;>
  do n <- var normalisation_map;
  modify (set_normalisation_map (count_patch n (p_rows p) (p_cols p))) ;>
  (if supported_method (window_aggregation_method e) then
     do a <- var anomaly_map;
     do n' <- var normalisation_map;
     do a' <- lift (aggregate_patch (window_aggregation_method e) a n'
                                    (p_rows p) (p_cols p) (snd item));
     modify (set_anomaly_map a')
   else ret tt).

(** Lines 454-527: one batch. *)
Definition process_batch (e : experiment) (ds : dataset) (which_set : string)
    (batch : list patch) : M unit :=
  do anomaly_maps_current_batch <- calculate_anomaly_maps e batch;
  for_each (process_patch e ds which_set) (combine batch anomaly_maps_current_batch).

(** The defined values of a statistics column ([not np.isnan(x)]). *)
Definition non_nan (l : list (option Q)) : list Q :=
  flat_map (fun x => match x with Some v => [v] | None => [] end) l.

(** Lines 570-574. *)
Definition print_means : M unit :=
  do list_of_values <- gets stats_dict;
  let list_of_non_nan_values := non_nan list_of_values in
  if length list_of_non_nan_values =? 0 then raise ZeroDivisionError
  else modify (add_event
                 (PrintMean "aucroc"
                    (Qsum list_of_non_nan_values
                     / inject_Z (Z.of_nat (length list_of_non_nan_values)))%Q)).

Definition data_of (e : experiment) (which_set : string) : list (list patch) * dataset :=
  if String.eqb which_set "val" then (val_data_loader e, val_dataset e)
  else (test_data_loader e, test_dataset e).

(** One round of the loop over ["val"] and ["test"] (lines 434-574).  The
    result tells whether the function goes on ([false]: the early [return]
    of line 451). *)
Definition run_set (e : experiment) (which_set : string) : M bool :=
  modify (set_num_finished_images (-1)) ;>
  modify (set_stats_dict []) ;>
  let data_loader := fst (data_of e which_set) in
  let ds := snd (data_of e which_set) in
  if length (image_list ds) =? 0 then
    modify (add_event PrintNoImages) ;> ret false
  else
    for_each (process_batch e ds which_set) data_loader ;>
    finalise_last_image e ds which_set ;>
    print_means ;>
    ret true.

(** [AnomalyDetectionExperiment.run_experiment] (lines 429-574). *)
Definition run_experiment (e : experiment) : M unit :=
  do go_on <- run_set e "val";
  if go_on then (do _go_on <- run_set e "test"; ret tt) else ret tt.

(** The variables before the first statement of [run_experiment]. *)
Definition initial_locals : locals :=
  mkLocals 0 None None None None [] [].

(** ** [ExperimentBuilder]: loss selection *)

Section ForwardProp.
(** Inputs, targets, model outputs and losses, with the model and the two
    loss functions of [torch.nn.functional]. *)
Variables X Y O L : Type.
Variable forward : X -> O.
Variable cross_entropy mse_loss : O -> Y -> L.

(** What has been computed by the time a call returns or raises. *)
Inductive computed : Type :=
| ModelForward (x : X).

(** [forward_prop_and_loss] (lines 164-193).  When no branch assigns
    [loss], the [return] statement raises. *)
Definition forward_prop_and_loss (task loss : string) (x : X) (y : Y)
  : list computed * result (O * L) :=
  let out := forward x in
  ([ModelForward x],
   if String.eqb task "classification" then
     if String.eqb loss "cross_entropy" then Ok (out, cross_entropy out y)
     else Raise UnboundLocalError
   else if String.eqb task "regression" then
     if String.eqb loss "L2" then Ok (out, mse_loss out y)
     else Raise UnboundLocalError
   else Raise UnboundLocalError).
End ForwardProp.

Arguments ModelForward {X} x.
Arguments forward_prop_and_loss {X Y O L} forward cross_entropy mse_loss task loss x y.

(** The task and loss pairs for which [forward_prop_and_loss] binds a loss. *)
Definition supported_loss (task loss : string) : bool :=
  (String.eqb task "classification" && String.eqb loss "cross_entropy")
  || (String.eqb task "regression" && String.eqb loss "L2").

Definition supported_measure (m : string) : bool :=
  String.eqb m "absolute distance" || String.eqb m "likelihood".

(** ** [ExperimentBuilder]: checkpoints *)

(** [self.state_dict()]: parameter name to parameter values. *)
Abbreviation state_dict := (gmap string (list Q)).

(** Values stored in the [state] dictionary. *)
Inductive value : Type :=
| VInt (z : Z)
| VFloat (q : Q)
| VStateDict (sd : state_dict).

(** The [state] dictionary, and the files written by [torch.save]. *)
Abbreviation checkpoint := (gmap string value).
Abbreviation filesystem := (gmap string checkpoint).

Record builder : Type := mkBuilder {
  network : state_dict;
  best_val_model_idx : Z;
  best_val_model_measure : Q;
  state : checkpoint
}.

(** The index a model is saved with: an epoch number or ['latest']. *)
Inductive model_idx : Type :=
| Epoch (n : Z)
| Latest.

(** [str(model_idx)] *)
Definition str (i : model_idx) : string :=
  match i with
  | Epoch n => pretty n
  | Latest => "latest"
  end.

Definition ends_with_slash (s : string) : bool :=
  match rev (String.list_ascii_of_string s) with
  | c :: _ => Ascii.eqb c "/"%char
  | [] => false
  end.

(** [os.path.join(a, b)] on a POSIX system. *)
Definition path_join (a b : string) : string :=
  match b with
  | String c _ =>
      if Ascii.eqb c "/"%char then b
      else if String.eqb a "" || ends_with_slash a then a +:+ b
      else a +:+ "/" +:+ b
  | EmptyString =>
      if String.eqb a "" || ends_with_slash a then a else a +:+ "/"
  end.

(** ["{}_{}".format(model_save_name, str(model_idx))] under the directory. *)
Definition model_path (model_save_dir model_save_name : string) (i : model_idx) : string :=
  path_join model_save_dir (model_save_name +:+ "_" +:+ str i).

(** [save_model] (lines 197-210): returns the [state] dictionary, which the
    call has changed, and the file system. *)
Definition save_model (b : builder) (fs : filesystem)
    (model_save_dir model_save_name : string) (i : model_idx) (st : checkpoint)
  : checkpoint * filesystem :=
  let st' := <["network" := VStateDict (network b)]> st in
  (st', <[model_path model_save_dir model_save_name i := st']> fs).

(** [self.load_state_dict(state_dict=sd)] with the default [strict=True]:
    the names and shapes must be those of the module. *)
Definition load_state_dict (b : builder) (sd : value) : result builder :=
  match sd with
  | VStateDict sd =>
      if bool_decide ((length <$> sd) = (length <$> network b))
      then Ok (mkBuilder sd (best_val_model_idx b) (best_val_model_measure b) (state b))
      else Raise RuntimeError
  | _ => Raise RuntimeError
  end.

Definition dict_get (d : checkpoint) (k : string) : result value :=
  match d !! k with
  | Some v => Ok v
  | None => Raise KeyError
  end.

(** [load_model] (lines 212-222). *)
Definition load_model (b : builder) (fs : filesystem)
    (model_save_dir model_save_name : string) (i : model_idx)
  : result (builder * (value * value * checkpoint)) :=
  let* st := match fs !! model_path model_save_dir model_save_name i with
             | Some st => Ok st
             | None => Raise FileNotFoundError
             end in
  let* sd := dict_get st "network" in
  let* b' := load_state_dict b sd in
  let* idx := dict_get st "best_val_model_idx" in
  let* measure := dict_get st "best_val_model_measure" in
  Ok (b', (idx, measure, st)).

(** The end of an epoch in [ExperimentBuilder.run_experiment] (lines
    295-303): the scalars are stored in [self.state], which is then saved
    under the epoch index and under ['latest']. *)
Definition save_epoch (b : builder) (fs : filesystem) (experiment_saved_models : string)
    (epoch_idx : Z) : builder * filesystem :=
  let st1 := <["current_epoch_idx" := VInt epoch_idx]> (state b) in
  let st2 := <["best_val_model_measure" := VFloat (best_val_model_measure b)]> st1 in
  let st3 := <["best_val_model_idx" := VInt (best_val_model_idx b)]> st2 in
  let '(st4, fs1) := save_model b fs experiment_saved_models "train_model" (Epoch epoch_idx) st3 in
  let '(st5, fs2) := save_model b fs1 experiment_saved_models "train_model" Latest st4 in
  (mkBuilder (network b) (best_val_model_idx b) (best_val_model_measure b) st5, fs2).

(** ** Vocabulary of the properties: one pixel of one image *)

(** What lines 517-527 do to the score [acc] of a pixel whose count was
    [cnt] before the patch, when the patch contributes [c] there. *)
Definition pixel_step (method : string) (acc cnt c : Q) : Q :=
  if String.eqb method "mean" then (acc + c)%Q
  else if String.eqb method "min" then
    (first_time (cnt + 1) * c + (1 - first_time (cnt + 1)) * Qmin acc c)%Q
  else if String.eqb method "max" then Qmax acc c
  else acc.

Fixpoint pixel_fold (method : string) (acc cnt : Q) (cs : list Q) : Q * Q :=
  match cs with
  | [] => (acc, cnt)
  | c :: cs' => pixel_fold method (pixel_step method acc cnt c) (cnt + 1)%Q cs'
  end.

(** Every window can be written: its score map has the shape of its slice
    (or broadcasts to it). *)
Definition all_fit (H W : nat) (ws : list window) : bool := forallb (fits H W) ws.

(** ** Finalisation as a function of the maps *)

(** The three values a finalisation produces from the maps [a], [n] of an
    image and its label [l]: the map that is saved, and the map and the
    label that are handed to the agreement computation. *)
Definition mean_normalised (e : experiment) (a n : tensor) : tensor :=
  if String.eqb (window_aggregation_method e) "mean"
  then normalise_anomaly_map a n else a.

Definition resized (e : experiment) (a l : tensor) : tensor :=
  if resize_anomaly_maps e then interpolate a (t_height l) (t_width l) else a.

Definition margin_cropped (e : experiment) (a t : tensor) : tensor :=
  match AD_margins e with
  | Some margins =>
      slice_view t (fst (margin_slices margins a)) (snd (margin_slices margins a))
  | None => t
  end.

Definition saved_map (e : experiment) (a n l : tensor) : tensor :=
  resized e (mean_normalised e a n) l.

Definition evaluated_map (e : experiment) (a n l : tensor) : tensor :=
  margin_cropped e (saved_map e a n l) (saved_map e a n l).

Definition evaluated_label (e : experiment) (a n l : tensor) : tensor :=
  margin_cropped e (saved_map e a n l) l.

(** The state a finalisation of image [k] leaves, as a function of the
    state it starts in. *)
Definition finalised_state (e : experiment) (which_set : string) (k : Z)
    (mode : continue_mode) (filename : string) (a n l : tensor) (s : locals) : locals :=
  let aucroc := get_aucroc (evaluated_label e a n l) (evaluated_map e a n l) in
  mkLocals (num_finished_images s) (current_image_idx s)
    (Some (evaluated_map e a n l))
    (Some (if String.eqb (window_aggregation_method e) "mean"
           then fill_zero_counts n else n))
    (Some (evaluated_label e a n l))
    (stats_dict s ++ [aucroc])
    ((if save_anomaly_maps e
      then trace s ++ [TorchSave which_set filename (saved_map e a n l)]
      else trace s)
     ++ [SaveStatistics (which_set +:+ "_summary.csv") (stats_dict s ++ [aucroc]) k mode]).

(** ** Observing a trace *)

Definition saved_maps (tr : list event) : list (string * string * list (list Q)) :=
  flat_map (fun ev => match ev with
                      | TorchSave which_set filename t => [(which_set, filename, to_rows t)]
                      | _ => []
                      end) tr.

Definition statistics_rows (tr : list event) : list (string * Z) :=
  flat_map (fun ev => match ev with
                      | SaveStatistics filename _ k _ => [(filename, k)]
                      | _ => []
                      end) tr.

(** ** Concrete experiments *)

(** Two images of one row and two columns, with a label of both classes. *)
Definition two_image_dataset : dataset :=
  mkDataset ["a.png"; "b.png"] [(1, 1, 2); (1, 1, 2)]
            (fun k => py_index [of_rows [[0; 1]]%Q; of_rows [[0; 1]]%Q] k).

Definition no_images : dataset :=
  mkDataset [] [] (fun _ => Raise IndexError).

(** A patch of one channel with target zero whose output, and whose
    negative log likelihood, is the given map. *)
Definition scored_patch (k : Z) (rs cs : pyslice) (score : tensor) : patch :=
  mkPatch k rs cs 1 (t_height score) (t_width score)
          (fun _ i j => t_val score i j) (fun _ _ _ => 0%Q)
          (fun _ i j => (Z.to_N (Qnum (t_val score i j)), Qden (t_val score i j))).

Definition row_patch (k : Z) (x y : Q) : patch :=
  scored_patch k (mkSlice 0 1) (mkSlice 0 2) (of_rows [[x; y]]).

(** The first batch delivers a patch of image 1 before a patch of image 0. *)
Definition shuffled_experiment : experiment :=
  mkExperiment "absolute distance" "mean" true false None
               two_image_dataset [[row_patch 1 5 6; row_patch 0 7 9]]
               no_images [].

Definition margin_label : tensor :=
  of_rows [[0; 0; 0; 0]; [0; 1; 0; 0]; [0; 0; 0; 0]; [0; 0; 0; 0]]%Q.

(** One image of four rows and four columns, a margin of one pixel. *)
Definition margin_dataset : dataset :=
  mkDataset ["a.png"] [(1, 4, 4)] (fun k => py_index [margin_label] k).

Definition margin_experiment : experiment :=
  mkExperiment "absolute distance" "max" true false (Some (1, 1)%Z)
               margin_dataset
               [[scored_patch 0 (mkSlice 0 4) (mkSlice 0 4) (full 4 4 4)]]
               no_images [].

(** An aggregation method that is none of [mean], [min], [max]. *)
Definition median_experiment : experiment :=
  mkExperiment "absolute distance" "median" true false None
               two_image_dataset [[row_patch 0 5 6; row_patch 1 7 9]]
               no_images [].


(** Three windows on the one pixel of a 1 x 1 image. *)
Definition three_stacked_windows (x y z : Q) : list window :=
  [mkWindow (mkSlice 0 1) (mkSlice 0 1) (full 1 1 x);
   mkWindow (mkSlice 0 1) (mkSlice 0 1) (full 1 1 y);
   mkWindow (mkSlice 0 1) (mkSlice 0 1) (full 1 1 z)].

(** One window with a negative score on the one pixel of a 1 x 1 image. *)
Definition negative_window : list window :=
  [mkWindow (mkSlice 0 1) (mkSlice 0 1) (full 1 1 (-3))].

(** Three patches on the one pixel of a 1 x 1 image, with the distances
    [x], [y] and [z] between output and target. *)
Definition three_stacked_patches (x y z : Q) : list patch :=
  [scored_patch 0 (mkSlice 0 1) (mkSlice 0 1) (full 1 1 x);
   scored_patch 0 (mkSlice 0 1) (mkSlice 0 1) (full 1 1 y);
   scored_patch 0 (mkSlice 0 1) (mkSlice 0 1) (full 1 1 z)].

(** The maps of the image of [margin_experiment] after its patch. *)
Definition margin_state : locals :=
  mkLocals 0 (Some 0%Z) (Some (full 4 4 4)) (Some (full 4 4 1)) None [] [].

(** A statistics column with one undefined entry. *)
Definition undefined_then_defined : locals :=
  mkLocals 1 (Some 1%Z) None None None [Some (9 # 10)%Q; None; Some (7 # 10)%Q] [].

(** A model after training, and a model of the same architecture before. *)
Definition trained_builder : builder :=
  mkBuilder {["model.weight" := [1 # 2; 3 # 4]%Q]} 2 (42 # 100) ∅.

Definition fresh_builder : builder :=
  mkBuilder {["model.weight" := [0; 0]%Q]} 0 1000000000 ∅.

(** Two images, delivered in order in one batch. *)
Definition ordered_experiment : experiment :=
  mkExperiment "absolute distance" "mean" true false None
               two_image_dataset [[row_patch 0 5 6; row_patch 1 7 9]]
               no_images [].

(** ** Labels of one class *)

(** All pixels of the label are [c]. *)
Definition constant_label (l : tensor) (c : Q) : Prop :=
  forall i j, i < t_height l -> j < t_width l -> (t_val l i j == c)%Q.

(** ** Streams in image order *)

(** The score map of a patch under the configured measure. *)
Definition score_of (e : experiment) (p : patch) : tensor :=
  if String.eqb (measure_of_anomaly e) "absolute distance"
  then absolute_distance p else likelihood p.

Definition items (e : experiment) (ps : list patch) : list (patch * tensor) :=
  map (fun p => (p, score_of e p)) ps.

Definition window_of (e : experiment) (p : patch) : window :=
  mkWindow (p_rows p) (p_cols p) (score_of e p).

Definition is_ok {A : Type} (r : result A) : bool :=
  match r with Ok _ => true | Raise _ => false end.

(** The image of the patch has a size, a label and (when maps are saved) a
    file name, and the score map of the patch can be written into its
    slice. *)
Definition patch_ready (e : experiment) (ds : dataset) (p : patch) : bool :=
  is_ok (get_label_image ds (p_image_idx p))
  && (negb (save_anomaly_maps e) || is_ok (py_index (image_list ds) (p_image_idx p)))
  && match py_index (image_sizes ds) (p_image_idx p) with
     | Ok size =>
         negb (supported_method (window_aggregation_method e))
         || fits (snd (fst size)) (snd size) (window_of e p)
     | Raise _ => false
     end.

(** Every patch belongs to the image of the patch before it or to the next
    image. *)
Fixpoint consecutive (k : Z) (ps : list patch) : bool :=
  match ps with
  | [] => true
  | p :: ps' =>
      ((p_image_idx p =? k)%Z || (p_image_idx p =? k + 1)%Z)
      && consecutive (p_image_idx p) ps'
  end.

(** The stream starts with image 0 and goes through the images in order. *)
Definition in_image_order (ps : list patch) : bool :=
  match ps with
  | [] => true
  | p :: ps' => (p_image_idx p =? 0)%Z && consecutive 0 ps'
  end.

Definition last_image (k : Z) (ps : list patch) : Z := List.last (map p_image_idx ps) k.

(** The statistics rows of the images [k], ..., [last - 1]. *)
Definition rows_between (which_set : string) (k last : Z) : list (string * Z) :=
  map (fun i => (which_set +:+ "_summary.csv", i)) (seqZ k (last - k)).

(** Image [k] is in progress: it is the image counted last, its maps exist
    and have its size, and its label and file name can be fetched. *)
Definition in_progress (e : experiment) (ds : dataset) (k : Z) (s : locals) : Prop :=
  num_finished_images s = k
  /\ is_ok (get_label_image ds k) = true
  /\ (negb (save_anomaly_maps e) || is_ok (py_index (image_list ds) k)) = true
  /\ exists a n size,
      anomaly_map s = Some a /\ normalisation_map s = Some n
      /\ py_index (image_sizes ds) k = Ok size
      /\ t_height a = snd (fst size) /\ t_width a = snd size
      /\ t_height n = snd (fst size) /\ t_width n = snd size.

(** The variables at the start of a round of the loop over the sets
    (lines 434-435). *)
Definition round_start (s : locals) : locals :=
  set_stats_dict [] (set_num_finished_images (-1) s).

(** ** The aggregation image by image *)

(** The maps of image [k] computed from all its patches at once: zeros of
    the size of the image, then every window in turn. *)
Definition image_maps (e : experiment) (ds : dataset) (k : Z) (g : list patch)
  : result (tensor * tensor) :=
  let* size := py_index (image_sizes ds) k in
  accumulate (window_aggregation_method e) (map (window_of e) g)
             (zeros (snd (fst size)) (snd size)) (zeros (snd (fst size)) (snd size)).

(** The finalisation of image [k] from its maps. *)
Definition finalised_image (e : experiment) (ds : dataset) (which_set : string) (k : Z)
    (mode : continue_mode) (a n : tensor) (s : locals) : result locals :=
  let* l := get_label_image ds k in
  let* filename := (if save_anomaly_maps e then py_index (image_list ds) k else Ok "") in
  Ok (finalised_state e which_set k mode filename a n l s).

(** The state after the patches of the images [k], [k + 1], ... when the
    stream is given image by image: [a], [n] are the maps of image [k], and
    [gs] holds the patches of the images after it.  Every image but the last
    is finalised from its maps; the maps of the last are left in progress. *)
Fixpoint reference_from (e : experiment) (ds : dataset) (which_set : string) (k : Z)
    (a n : tensor) (s : locals) (gs : list (list patch)) : result locals :=
  match gs with
  | [] => Ok (mkLocals k (Some k) (Some a) (Some n)
                       (label_image s) (stats_dict s) (trace s))
  | g :: gs' =>
      let* f := finalised_image e ds which_set k IfExists a n s in
      let* m := image_maps e ds (k + 1) g in
      reference_from e ds which_set (k + 1) (fst m) (snd m) f gs'
  end.

Definition reference (e : experiment) (ds : dataset) (which_set : string)
    (g : list patch) (gs : list (list patch)) (s : locals) : result locals :=
  let* m := image_maps e ds 0 g in
  reference_from e ds which_set 0 (fst m) (snd m) s gs.

(** The groups are the patches of the images [k], [k + 1], ..., none of
    them empty. *)
Fixpoint indexed (k : Z) (gs : list (list patch)) : bool :=
  match gs with
  | [] => true
  | g :: gs' =>
      negb (length g =? 0) && forallb (fun p => (p_image_idx p =? k)%Z) g
      && indexed (k + 1) gs'
  end.

(** ** Unfolding the monad in proofs *)

Ltac run_monad :=
  unfold seq_M, modify, gets, var, lift, ret, raise,
    set_num_finished_images, set_current_image_idx, set_anomaly_map,
    set_normalisation_map, set_label_image, set_stats_dict, add_event.

Ltac run_steps :=
  unfold finalise_at_boundary, finalise_last_image, normalise_step, load_label_step,
    resize_step, save_step, margin_step, agreement_step, statistics_step,
    calculate_agreement_between_anomaly_score_and_labels;
  run_monad.

Ltac run_patch :=
  unfold process_patch; run_steps; cbn [fst snd p_image_idx].

(** ** A round of the loop, image by image *)

(** A whole round over a stream given image by image: the images but the
    last are finalised as in [reference], then the last one is finalised
    with the flag of lines 562-563. *)
Definition reference_round (e : experiment) (ds : dataset) (which_set : string)
    (g : list patch) (gs : list (list patch)) (s : locals) : result locals :=
  let* s1 := reference e ds which_set g gs (round_start s) in
  match current_image_idx s1, anomaly_map s1, normalisation_map s1 with
  | Some k, Some a, Some n => finalised_image e ds which_set k ContinueTrue a n s1
  | _, _, _ => Raise UnboundLocalError
  end.

(** A placement that starts inside an axis of extent [extent] and ends
    beyond it, for a score map of [len] rows (or columns). *)
Definition overhangs (sl : pyslice) (extent len : nat) : Prop :=
  (0 <= sl_start sl < Z.of_nat extent)%Z
  /\ (Z.of_nat extent < sl_stop sl)%Z
  /\ Z.of_nat len = (sl_stop sl - sl_start sl)%Z.

(** Only the test set has images. *)
Definition test_only_experiment : experiment :=
  mkExperiment "absolute distance" "mean" true false None
               no_images []
               two_image_dataset [[row_patch 0 5 6; row_patch 1 7 9]].

(** Images, but no batch. *)
Definition no_batches_experiment : experiment :=
  mkExperiment "absolute distance" "max" true false None
               two_image_dataset [] no_images [].

(** Two images whose labels hold one class only. *)
Definition normal_only_dataset : dataset :=
  mkDataset ["a.png"; "b.png"] [(1, 1, 2); (1, 1, 2)]
            (fun k => py_index [of_rows [[0; 0]]%Q; of_rows [[1; 1]]%Q] k).

Definition normal_only_experiment : experiment :=
  mkExperiment "absolute distance" "mean" true false None
               normal_only_dataset [[row_patch 0 5 6]; [row_patch 1 7 9]]
               no_images [].

(** Three windows of a 2 x 2 image. *)
Definition corner_windows : list window :=
  [mkWindow (mkSlice 0 1) (mkSlice 0 2) (of_rows [[3; 1]]%Q);
   mkWindow (mkSlice 0 2) (mkSlice 0 1) (of_rows [[2]; [5]]%Q);
   mkWindow (mkSlice 0 2) (mkSlice 0 2) (of_rows [[4; 4]; [1; 7]]%Q)].


(** After both images have been delivered in order, a second batch comes
    back to image 0. *)
Definition revisiting_experiment : experiment :=
  mkExperiment "absolute distance" "mean" true false None
               two_image_dataset
               [[row_patch 0 5 6; row_patch 1 7 9]; [row_patch 0 1 2]]
               no_images [].

(** Maps of half the resolution of the label, resized before the margin of
    one pixel is taken off. *)
Definition resizing_experiment : experiment :=
  mkExperiment "absolute distance" "mean" true true (Some (1, 1)%Z)
               margin_dataset
               [[scored_patch 0 (mkSlice 0 2) (mkSlice 0 2) (full 2 2 4)]]
               no_images [].

(** Three images of one row and two columns; the stream below has no patch
    of the second one. *)
Definition three_image_dataset : dataset :=
  mkDataset ["a.png"; "b.png"; "c.png"] [(1, 1, 2); (1, 1, 2); (1, 1, 2)]
            (fun k => py_index [of_rows [[0; 1]]%Q; of_rows [[1; 0]]%Q; of_rows [[0; 1]]%Q] k).

Definition skipping_experiment : experiment :=
  mkExperiment "absolute distance" "max" true false None
               three_image_dataset [[row_patch 0 5 6; row_patch 2 7 9]]
               no_images [].

(** The variables after the patch of image 0. *)
Definition first_image_in_progress : locals :=
  mkLocals 0 (Some 0%Z) (Some (of_rows [[5; 6]]%Q)) (Some (of_rows [[1; 1]]%Q)) None [] [].

(** ** [ExperimentBuilder]: construction, training, validation, test *)

Module ExperimentBuilder.

(** A computation on a state [S] that returns or raises. *)
Definition St (S A : Type) : Type := S -> result A * S.

Definition unit_St {S A : Type} (a : A) : St S A := fun s => (Ok a, s).
Definition bind_St {S A B : Type} (m : St S A) (k : A -> St S B) : St S B :=
  fun s => match m s with
           | (Ok a, s') => k a s'
           | (Raise e, s') => (Raise e, s')
           end.
Definition lift_St {S A : Type} (r : result A) : St S A := fun s => (r, s).
Definition modify_St {S : Type} (f : S -> S) : St S unit := fun s => (Ok tt, f s).
Definition gets_St {S A : Type} (f : S -> A) : St S A := fun s => (Ok (f s), s).

(** Reading a local variable that may not have been assigned yet. *)
Definition local_St {S A : Type} (f : S -> option A) : St S A :=
  fun s => match f s with
           | Some a => (Ok a, s)
           | None => (Raise UnboundLocalError, s)
           end.

Declare Scope train_scope.
Notation "'do' x <- m ; k" := (bind_St m (fun x => k))
  (at level 10, x name, m at level 89, k at level 200) : train_scope.
Notation "m ;> k" := (bind_St m (fun _ => k))
  (at level 90, right associativity) : train_scope.

(** ** Dictionaries of lists, in insertion order *)

Definition dict (V : Type) : Type := list (string * list V).

Definition dict_has {V : Type} (d : dict V) (key : string) : bool :=
  existsb (fun kv => String.eqb (fst kv) key) d.

(** [d[key].append(v)] *)
Definition dict_append {V : Type} (d : dict V) (key : string) (v : V) : result (dict V) :=
  if dict_has d key
  then Ok (map (fun kv => if String.eqb (fst kv) key then (fst kv, snd kv ++ [v]) else kv) d)
  else Raise KeyError.

(** [d[key]] *)
Definition dict_item {V : Type} (d : dict V) (key : string) : result (list V) :=
  match find (fun kv => String.eqb (fst kv) key) d with
  | Some kv => Ok (snd kv)
  | None => Raise KeyError
  end.

(** [np.mean(value)]: [nan] ([None]) on an empty list. *)
Definition np_mean (value : list Q) : option Q :=
  match value with
  | [] => None
  | _ :: _ => Some (Qsum value / inject_Z (Z.of_nat (length value)))%Q
  end.

(** An entry of [total_losses]: the mean of a metric over an epoch, or an
    epoch index (under ["curr_epoch"]). *)
Inductive stat : Type :=
| Mean (m : option Q)
| EpochIdx (epoch_idx : Z).

(** A call of [save_statistics] (of [storage_utils]). *)
Inductive summary : Type :=
| SaveSummary (filename : string) (stats_dict : dict stat) (current_epoch : Z)
              (continue_from_mode : bool).

(** [update_current_epoch_stats] (lines 343-349).  The caller of the
    regression setting passes the loss only; the other two arguments are
    read in the classification setting only. *)
Definition update_current_epoch_stats (task : string) (current_epoch_losses : dict Q)
    (current_dataset : string) (loss accuracy map_mse_range11 : Q) : result (dict Q) :=
  if String.eqb task "classification" then
    let* d1 := dict_append current_epoch_losses (current_dataset +:+ "_loss") loss in
    let* d2 := dict_append d1 (current_dataset +:+ "_accuracy") accuracy in
    dict_append d2 (current_dataset +:+ "_map_mse_range11") map_mse_range11
  else if String.eqb task "regression" then
    dict_append current_epoch_losses (current_dataset +:+ "_loss") loss
  else Ok current_epoch_losses.

(** [val_mean_performance_measure < self.best_val_model_measure]; a
    comparison with [nan] is false. *)
Definition is_better (val_mean_performance_measure : option Q) (best : Q) : bool :=
  match val_mean_performance_measure with
  | Some m => negb (Qle_bool best m)
  | None => false
  end.

(** [update_best_epoch_measure] (lines 352-367); both settings run the
    same statements. *)
Definition update_best_epoch_measure (task : string) (b : builder)
    (current_epoch_losses : dict Q) (epoch_idx : Z) : result builder :=
  let update :=
    let* val_loss := dict_item current_epoch_losses "val_loss" in
    let val_mean_performance_measure := np_mean val_loss in
    Ok (if is_better val_mean_performance_measure (best_val_model_measure b)
        then match val_mean_performance_measure with
             | Some m => mkBuilder (network b) epoch_idx m (state b)
             | None => b
             end
        else b) in
  if String.eqb task "classification" then update
  else if String.eqb task "regression" then update
  else Ok b.

(** The dictionaries of lines 230-236, 241-245 and 310-313; in another
    setting than the two the variable stays unassigned. *)
Definition new_total_losses (task : string) : option (dict stat) :=
  if String.eqb task "classification" then
    Some [("train_accuracy", []); ("train_loss", []); ("train_map_mse_range11", []);
          ("val_accuracy", []); ("val_loss", []); ("val_map_mse_range11", []);
          ("curr_epoch", [])]
  else if String.eqb task "regression" then
    Some [("train_loss", []); ("val_loss", []); ("curr_epoch", [])]
  else None.

Definition new_epoch_losses (task : string) : option (dict Q) :=
  if String.eqb task "classification" then
    Some [("train_accuracy", []); ("train_loss", []); ("train_map_mse_range11", []);
          ("val_accuracy", []); ("val_loss", []); ("val_map_mse_range11", [])]
  else if String.eqb task "regression" then
    Some [("train_loss", []); ("val_loss", [])]
  else None.

Definition new_test_losses (task : string) : option (dict Q) :=
  if String.eqb task "classification" then
    Some [("test_accuracy", []); ("test_loss", []); ("test_map_mse_range11", [])]
  else if String.eqb task "regression" then
    Some [("test_loss", [])]
  else None.

(** Lines 278-280: the mean of every metric of the epoch is appended to
    the column of the same name. *)
Fixpoint append_means (total_losses : dict stat) (items : dict Q) : result (dict stat) :=
  match items with
  | [] => Ok total_losses
  | (key, value) :: items' =>
      let* total_losses' := dict_append total_losses key (Mean (np_mean value)) in
      append_means total_losses' items'
  end.

(** [enumerate(range(start, stop))] *)
Definition enumerate_range (start stop : Z) : list (Z * Z) :=
  map (fun epoch_idx => ((epoch_idx - start)%Z, epoch_idx)) (seqZ start (stop - start)).

(** The scalars of a checkpoint are an [int] and a number (lines 295-297
    store nothing else under these keys). *)
Definition as_index (v : value) : option Z :=
  match v with
  | VInt z => Some z
  | _ => None
  end.

Definition as_number (v : value) : option Q :=
  match v with
  | VInt z => Some (inject_Z z)
  | VFloat q => Some q
  | VStateDict _ => None
  end.

(** The network and [torch], as far as the class uses them: the forward
    pass in training or evaluation mode, the buffers a forward pass in
    training mode updates, the two losses, the parameters and the optimiser
    after [zero_grad], [backward] and [step], the number of a loss, the two
    further metrics of the classification setting, the re-initialisation of
    the parameters, the optimiser at construction, and what
    [load_state_dict] leaves of the parameters when it rejects a state
    dictionary.  [X], [Y], [O], [L] and [Opt] are the inputs, the targets,
    the outputs, the losses (with their graph) and the state of the
    optimiser. *)
Class Torch (X Y O L Opt : Type) : Type := {
  forward : state_dict -> bool -> X -> O;
  running_statistics : state_dict -> X -> state_dict;
  cross_entropy : O -> Y -> L;
  mse_loss : O -> Y -> L;
  optimizer_step : state_dict -> Opt -> L -> state_dict * Opt;
  loss_value : L -> Q;
  accuracy_of : O -> Y -> Q;
  map_mse_range11_of : O -> Y -> Q;
  reset_parameters : state_dict -> state_dict;
  Adam : state_dict -> Opt;
  rejected_load : state_dict -> state_dict -> state_dict
}.

Section Training.
Context {X Y O L Opt : Type} {torch : Torch X Y O L Opt}.

(** The attributes that [__init__] sets and [run_experiment] only reads.
    A data provider delivers the batches of a pass; the training and the
    validation provider are passed over once per epoch. *)
Record settings : Type := mkSettings {
  task : string;
  loss : string;
  num_epochs : Z;
  starting_epoch : Z;
  experiment_saved_models : string;
  train_data : Z -> list (X * Y);
  val_data : Z -> list (X * Y);
  test_data : list (X * Y)
}.

(** The object, the checkpoint files, the calls of [save_statistics], and
    the local variables of [run_experiment]. *)
Record world : Type := mkWorld {
  self : builder;
  optimizer : Opt;
  files : filesystem;
  statistics : list summary;
  total_losses : option (dict stat);
  current_epoch_losses : option (dict Q)
}.

Definition set_self (b : builder) (w : world) : world :=
  mkWorld b (optimizer w) (files w) (statistics w) (total_losses w)
          (current_epoch_losses w).
Definition set_network (net : state_dict) (w : world) : world :=
  set_self (mkBuilder net (best_val_model_idx (self w)) (best_val_model_measure (self w))
                      (state (self w))) w.
Definition set_optimizer (opt : Opt) (w : world) : world :=
  mkWorld (self w) opt (files w) (statistics w) (total_losses w) (current_epoch_losses w).
Definition set_files (fs : filesystem) (w : world) : world :=
  mkWorld (self w) (optimizer w) fs (statistics w) (total_losses w)
          (current_epoch_losses w).
Definition save_statistics (call : summary) (w : world) : world :=
  mkWorld (self w) (optimizer w) (files w) (statistics w ++ [call]) (total_losses w)
          (current_epoch_losses w).
Definition set_total_losses (d : option (dict stat)) (w : world) : world :=
  mkWorld (self w) (optimizer w) (files w) (statistics w) d (current_epoch_losses w).
Definition set_current_epoch_losses (d : option (dict Q)) (w : world) : world :=
  mkWorld (self w) (optimizer w) (files w) (statistics w) (total_losses w) d.

Local Open Scope train_scope.

Definition T (A : Type) : Type := St world A.

Fixpoint for_each_St {A : Type} (body : A -> T unit) (l : list A) : T unit :=
  match l with
  | [] => unit_St tt
  | a :: l' => body a ;> for_each_St body l'
  end.

(** The three metrics of an iteration (lines 124-136, 149-161).  In the regression
    setting the source returns the loss alone, and its callers read the
    loss alone. *)
Definition metrics : Type := Q * Q * Q.

(** [run_train_iter] (lines 108-136). *)
Definition run_train_iter (c : settings) (x : X) (y : Y) : T metrics :=
  fun w =>
    let net := network (self w) in
    let w1 := set_network (running_statistics net x) w in
    match snd (forward_prop_and_loss (forward net true) cross_entropy mse_loss
                 (task c) (loss c) x y) with
    | Raise e => (Raise e, w1)
    | Ok (out, l) =>
        let stepped := optimizer_step (network (self w1)) (optimizer w1) l in
        (Ok (loss_value l, accuracy_of out y, map_mse_range11_of out y),
         set_optimizer (snd stepped) (set_network (fst stepped) w1))
    end.

(** [run_evaluation_iter] (lines 138-161). *)
Definition run_evaluation_iter (c : settings) (x : X) (y : Y) : T metrics :=
  fun w =>
    match snd (forward_prop_and_loss (forward (network (self w)) false) cross_entropy
                 mse_loss (task c) (loss c) x y) with
    | Raise e => (Raise e, w)
    | Ok (out, l) => (Ok (loss_value l, accuracy_of out y, map_mse_range11_of out y), w)
    end.

(** The body of the three loops over the batches (lines 249-259, 263-273,
    317-327): an iteration, then the update of the metrics of the epoch. *)
Definition batch_step (c : settings) (iter : settings -> X -> Y -> T metrics)
    (current_dataset : string) (xy : X * Y) : T unit :=
  let record :=
    do m <- iter c (fst xy) (snd xy);
    do d <- local_St current_epoch_losses;
    do d' <- lift_St (update_current_epoch_stats (task c) d current_dataset
                        (fst (fst m)) (snd (fst m)) (snd m));
    modify_St (set_current_epoch_losses (Some d')) in
  if String.eqb (task c) "classification" then record
  else if String.eqb (task c) "regression" then record
  else unit_St tt.

(** [load_model] as a method: the parameters are loaded into the object
    before the two scalars are read, and stay loaded when a scalar is
    missing. *)
Definition load_model_St (model_save_dir model_save_name : string) (i : model_idx)
  : T (value * value * checkpoint) :=
  fun w =>
    match load_model (self w) (files w) model_save_dir model_save_name i with
    | Ok (b', r) => (Ok r, set_self b' w)
    | Raise e =>
        (Raise e,
         match files w !! model_path model_save_dir model_save_name i with
         | Some st =>
             match st !! "network" with
             | Some (VStateDict sd) =>
                 match load_state_dict (self w) (VStateDict sd) with
                 | Ok b' => set_self b' w
                 | Raise _ => set_network (rejected_load (network (self w)) sd) w
                 end
             | _ => w
             end
         | None => w
         end)
    end.

(** [os.replace(src, dst)] *)
Definition os_replace (src dst : string) : T unit :=
  fun w =>
    match files w !! src with
    | Some f => (Ok tt, set_files (<[dst := f]> (delete src (files w))) w)
    | None => (Raise FileNotFoundError, w)
    end.

(** One epoch (lines 238-303). *)
Definition run_epoch (c : settings) (i_epoch_idx : Z * Z) : T unit :=
  let i := fst i_epoch_idx in
  let epoch_idx := snd i_epoch_idx in
  match new_epoch_losses (task c) with
  | Some d => modify_St (set_current_epoch_losses (Some d))
  | None => unit_St tt
  end ;>
  for_each_St (batch_step c run_train_iter "train") (train_data c epoch_idx) ;>
  for_each_St (batch_step c run_evaluation_iter "val") (val_data c epoch_idx) ;>
  do d <- local_St current_epoch_losses;
  do b <- gets_St self;
  do b' <- lift_St (update_best_epoch_measure (task c) b d epoch_idx);
  modify_St (set_self b') ;>
  do total <- local_St total_losses;
  do total' <- lift_St (append_means total d);
  do total'' <- lift_St (dict_append total' "curr_epoch" (EpochIdx epoch_idx));
  modify_St (set_total_losses (Some total'')) ;>
  modify_St (save_statistics
               (SaveSummary "summary.csv" total'' i
                            (negb (starting_epoch c =? 0)%Z || (0 <? i)%Z))) ;>
  modify_St (fun w =>
               let saved := save_epoch (self w) (files w) (experiment_saved_models c)
                                       epoch_idx in
               set_files (snd saved) (set_self (fst saved) w)).

(** [run_experiment] (lines 224-340); its local variables are unassigned
    when it starts. *)
Definition run_experiment (c : settings) : T (dict stat * dict stat) :=
  modify_St (set_total_losses None) ;>
  modify_St (set_current_epoch_losses None) ;>
  match new_total_losses (task c) with
  | Some d => modify_St (set_total_losses (Some d))
  | None => unit_St tt
  end ;>
  for_each_St (run_epoch c) (enumerate_range (starting_epoch c) (num_epochs c)) ;>
  do best <- gets_St (fun w => best_val_model_idx (self w));
  do _loaded <- load_model_St (experiment_saved_models c) "train_model" (Epoch best);
  match new_test_losses (task c) with
  | Some d => modify_St (set_current_epoch_losses (Some d))
  | None => unit_St tt
  end ;>
  for_each_St (batch_step c run_evaluation_iter "test") (test_data c) ;>
  do d <- local_St current_epoch_losses;
  let test_losses := map (fun kv => (fst kv, [Mean (np_mean (snd kv))])) d in
  modify_St (save_statistics (SaveSummary "test_summary.csv" test_losses 0 false)) ;>
  do best <- gets_St (fun w => best_val_model_idx (self w));
  let path_best := model_path (experiment_saved_models c) "train_model" (Epoch best) in
  os_replace path_best (path_best +:+ "_best") ;>
  do total <- local_St total_losses;
  unit_St (total, test_losses).

(** The arguments that [__init__] reads from [args]; the directory of the
    checkpoints is the absolute path of [results/<name>/saved_models]. *)
Record arguments : Type := mkArguments {
  arg_task : string;
  arg_loss : string;
  arg_num_epochs : Z;
  continue_from_epoch : Z
}.

(** The assignment of lines 81 and 92 and the read of lines 85 and 96,
    after [load_model] has returned.  [None]: the checkpoint holds a value
    of another type under one of the three keys, which this model does not
    follow. *)
Definition restored (b' : builder) (r : value * value * checkpoint)
  : option (builder * result Z) :=
  match as_index (fst (fst r)), as_number (snd (fst r)) with
  | Some idx, Some measure =>
      let b1 := mkBuilder (network b') idx measure (snd r) in
      match dict_get (snd r) "current_epoch_idx" with
      | Ok v => match as_index v with
                | Some epoch => Some (b1, Ok epoch)
                | None => None
                end
      | Raise e => Some (b1, Raise e)
      end
  | _, _ => None
  end.

(** [__init__] (lines 16-99) on one device.  The measure of the best
    epoch is set for the two settings only (lines 60-63); with another task
    the attribute is missing, and [run_experiment] fails before it reads
    it. *)
Definition init (args : arguments) (saved_models : string)
    (train val : Z -> list (X * Y)) (test : list (X * Y))
    (network_model : state_dict) (fs : filesystem)
  : option (result (settings * world)) :=
  let b0 := mkBuilder (reset_parameters network_model) 0 1000000000 ∅ in
  let w0 := mkWorld b0 (Adam (network b0)) fs [] None None in
  let start (w : world) (epoch : Z) :=
    (mkSettings (arg_task args) (arg_loss args) (arg_num_epochs args) epoch saved_models
                train val test, w) in
  let scratch (w : world) :=
    start (set_self (mkBuilder (network (self w)) (best_val_model_idx (self w))
                               (best_val_model_measure (self w)) ∅) w) 0%Z in
  if (continue_from_epoch args =? -2)%Z then
    match load_model_St saved_models "train_model" Latest w0 with
    | (Ok r, w1) =>
        match restored (self w1) r with
        | Some (b1, Ok epoch) => Some (Ok (start (set_self b1 w1) epoch))
        | Some (b1, Raise _) => Some (Ok (scratch (set_self b1 w1)))
        | None => None
        end
    | (Raise _, w1) => Some (Ok (scratch w1))
    end
  else if negb (continue_from_epoch args =? -1)%Z then
    match load_model_St saved_models "train_model" (Epoch (continue_from_epoch args)) w0 with
    | (Ok r, w1) =>
        match restored (self w1) r with
        | Some (b1, Ok epoch) => Some (Ok (start (set_self b1 w1) epoch))
        | Some (b1, Raise e) => Some (Raise e)
        | None => None
        end
    | (Raise e, _) => Some (Raise e)
    end
  else Some (Ok (scratch w0)).

End Training.

Arguments settings X Y : clear implicits.
Arguments world Opt : clear implicits.
Arguments T Opt A : clear implicits.

(** ** Vocabulary of the properties of [ExperimentBuilder] *)

(** The list under a key, empty when the key is missing. *)
Definition column {V : Type} (d : dict V) (key : string) : list V :=
  match dict_item d key with
  | Ok l => l
  | Raise _ => []
  end.

Definition keys {V : Type} (d : dict V) : list string := map fst d.

(** The dictionary has the lists that [update_current_epoch_stats] appends
    to for the data set. *)
Definition has_metrics {V : Type} (task : string) (d : dict V) (current_dataset : string)
  : bool :=
  if String.eqb task "classification" then
    dict_has d (current_dataset +:+ "_loss")
    && dict_has d (current_dataset +:+ "_accuracy")
    && dict_has d (current_dataset +:+ "_map_mse_range11")
  else if String.eqb task "regression" then dict_has d (current_dataset +:+ "_loss")
  else true.

(** The best epoch and its measure, after an epoch with the given mean
    validation loss. *)
Definition best_after (best : Z * Q) (row : Z * option Q) : Z * Q :=
  match snd row with
  | Some m => if is_better (Some m) (snd best) then (fst row, m) else best
  | None => best
  end.

(** The shapes of the parameters of a network. *)
Definition shapes (net : state_dict) : gmap string nat := length <$> net.

(** A file that [load_model] loads into a network of the given shapes. *)
Definition loadable (fs : filesystem) (path : string) (shape : gmap string nat) : Prop :=
  exists st sd,
    fs !! path = Some st
    /\ st !! "network" = Some (VStateDict sd)
    /\ shapes sd = shape
    /\ is_Some (st !! "best_val_model_idx")
    /\ is_Some (st !! "best_val_model_measure").

(** The file of epoch [best] is the checkpoint written at the end of that
    epoch, when it was the best one with the given measure. *)
Definition stamped (fs : filesystem) (dir : string) (best : Z) (measure : Q) : Prop :=
  exists st,
    fs !! model_path dir "train_model" (Epoch best) = Some st
    /\ st !! "current_epoch_idx" = Some (VInt best)
    /\ st !! "best_val_model_idx" = Some (VInt best)
    /\ st !! "best_val_model_measure" = Some (VFloat measure).

(** [w'] comes from [w] by iterations on batches: the files, the
    statistics, the columns, the best epoch and the shapes of the parameters
    are those of [w]. *)
Definition iterated {Opt : Type} (w w' : world Opt) : Prop :=
  files w' = files w
  /\ statistics w' = statistics w
  /\ total_losses w' = total_losses w
  /\ best_val_model_idx (self w') = best_val_model_idx (self w)
  /\ best_val_model_measure (self w') = best_val_model_measure (self w)
  /\ state (self w') = state (self w)
  /\ shapes (network (self w')) = shapes (network (self w)).

(** ** A linear model of one weight *)

Definition weight (net : state_dict) : Q :=
  match net !! "w" with
  | Some (w :: _) => w
  | _ => 0%Q
  end.

(** The prediction is [w * x], both losses are the squared error, a step
    of the optimiser takes one off every parameter, and the parameters are
    re-initialised to three. *)
Definition line_model : Torch Q Q Q Q unit := {|
  forward net _ x := (weight net * x)%Q;
  running_statistics net _ := net;
  cross_entropy o y := ((o - y) * (o - y))%Q;
  mse_loss o y := ((o - y) * (o - y))%Q;
  optimizer_step net opt _ := (map (fun w => Qred (w - 1)) <$> net, opt);
  loss_value l := Qred l;
  accuracy_of _ _ := 0%Q;
  map_mse_range11_of _ _ := 0%Q;
  reset_parameters net := map (fun _ => 3%Q) <$> net;
  Adam _ := tt;
  rejected_load net _ := net
|}.

(** Four epochs from scratch on one training, one validation and one test
    batch: the weight goes from three to two, one, zero and minus one, and
    the validation loss is four, one, zero and one. *)
Definition line_settings : settings Q Q :=
  mkSettings "regression" "L2" 4 0 "saved_models"
             (fun _ => [(1, 0)%Q]) (fun _ => [(1, 0)%Q]) [(1, 0)%Q].

Definition line_world : world unit :=
  mkWorld (mkBuilder {["w" := [3%Q]]} 0 1000000000 ∅) tt ∅ [] None None.

(** The same data under a task the class does not know. *)
Definition ranking_settings : settings Q Q :=
  mkSettings "ranking" "L2" 4 0 "saved_models"
             (fun _ => [(1, 0)%Q]) (fun _ => [(1, 0)%Q]) [(1, 0)%Q].

(** The object and the files after a completed run of four epochs whose
    best epoch was epoch 2 (its file has been renamed), continued for one
    more epoch from epoch 3. *)
Definition continued_settings : settings Q Q :=
  mkSettings "regression" "L2" 5 3 "saved_models"
             (fun _ => [(1, 0)%Q]) (fun _ => [(1, 0)%Q]) [(1, 0)%Q].

Definition finished_world : world unit :=
  mkWorld (mkBuilder {["w" := [(-1)%Q]]} 2 0 ∅) tt
          {["saved_models/train_model_2_best" := ∅;
            "saved_models/train_model_3" := ∅;
            "saved_models/train_model_latest" := ∅]}
          [] None None.

(** The run of [line_settings] interrupted after epoch 2 and taken up again
    from the checkpoint of that epoch, the best one so far: the restored
    weight is zero and its validation loss, the restored measure, is
    zero. *)
Definition resumed_settings : settings Q Q :=
  mkSettings "regression" "L2" 4 2 "saved_models"
             (fun _ => [(1, 0)%Q]) (fun _ => [(1, 0)%Q]) [(1, 0)%Q].

Definition resumed_world : world unit :=
  mkWorld (mkBuilder {["w" := [0%Q]]} 2 0 ∅) tt
          {["saved_models/train_model_0" := ∅;
            "saved_models/train_model_1" := ∅;
            "saved_models/train_model_2" := ∅;
            "saved_models/train_model_latest" := ∅]}
          [] None None.

(** The regression data with the loss of the classification setting. *)
Definition mismatched_settings : settings Q Q :=
  mkSettings "regression" "cross_entropy" 4 0 "saved_models"
             (fun _ => [(1, 0)%Q]) (fun _ => [(1, 0)%Q]) [(1, 0)%Q].

End ExperimentBuilder.

(** ** The context encoder of [model_architectures.py], by shapes *)

Module ContextEncoder.

(** What [torch] raises while the layers are built and applied: a
    [RuntimeError] for a kernel larger than the padded input, for a
    transposed convolution whose output would have no pixel, for an input
    with another number of channels than the layer has, and for a [view]
    to a shape with another number of elements; a [ValueError] for a batch
    normalisation in training mode on a single value per channel; and the
    [IndexError] of a list. *)
Inductive error : Type :=
| KernelTooLarge
| OutputTooSmall
| ChannelMismatch
| InvalidView
| SingleValuePerChannel
| ListIndexOutOfRange.

Inductive outcome (A : Type) : Type :=
| Built (a : A)
| Failed (e : error).
Arguments Built {A} a.
Arguments Failed {A} e.

Definition and_then {A B : Type} (r : outcome A) (k : A -> outcome B) : outcome B :=
  match r with
  | Built a => k a
  | Failed e => Failed e
  end.

Local Notation "'let+' x ':=' r 'in' k" := (and_then r (fun x => k))
  (at level 10, x name, r at level 100, k at level 200).

(** The shape of a batch of images or feature maps. *)
Record shape : Type := mkShape {
  s_batch : Z;
  s_channels : Z;
  s_height : Z;
  s_width : Z
}.

(** The layers the class creates, with the arguments it passes. *)
Inductive layer : Type :=
| Conv2d (in_channels out_channels kernel_size stride padding : Z)
| ConvTranspose2d (in_channels out_channels kernel_size stride padding : Z)
| BatchNorm2d (num_features : Z)
| LeakyReLU
| ReLU
| Tanh.

(** The extent of the output of a convolution and of a transposed
    convolution along one axis (dilation 1, no output padding). *)
Definition conv2d_size (extent kernel_size stride padding : Z) : Z :=
  ((extent + 2 * padding - kernel_size) / stride + 1)%Z.

Definition conv_transpose2d_size (extent kernel_size stride padding : Z) : Z :=
  ((extent - 1) * stride - 2 * padding + kernel_size)%Z.

(** [layer(x)], on shapes; [training] is the mode of the module. *)
Definition apply_layer (training : bool) (l : layer) (x : shape) : outcome shape :=
  match l with
  | Conv2d in_channels out_channels kernel_size stride padding =>
      if negb (s_channels x =? in_channels)%Z then Failed ChannelMismatch
      else if (s_height x + 2 * padding <? kernel_size)%Z
              || (s_width x + 2 * padding <? kernel_size)%Z
      then Failed KernelTooLarge
      else Built (mkShape (s_batch x) out_channels
                          (conv2d_size (s_height x) kernel_size stride padding)
                          (conv2d_size (s_width x) kernel_size stride padding))
  | ConvTranspose2d in_channels out_channels kernel_size stride padding =>
      if negb (s_channels x =? in_channels)%Z then Failed ChannelMismatch
      else if (conv_transpose2d_size (s_height x) kernel_size stride padding <? 1)%Z
              || (conv_transpose2d_size (s_width x) kernel_size stride padding <? 1)%Z
      then Failed OutputTooSmall
      else Built (mkShape (s_batch x) out_channels
                          (conv_transpose2d_size (s_height x) kernel_size stride padding)
                          (conv_transpose2d_size (s_width x) kernel_size stride padding))
  | BatchNorm2d num_features =>
      if negb (s_channels x =? num_features)%Z then Failed ChannelMismatch
      else if training && (s_batch x * s_height x * s_width x =? 1)%Z
      then Failed SingleValuePerChannel
      else Built x
  | LeakyReLU | ReLU | Tanh => Built x
  end.

(** What [__init__] reads from [args].  The sizes and the numbers of
    channels are positive, the numbers of layers are not negative;
    [arg_task] is [None] when [args] has no attribute [task]. *)
Record arguments : Type := mkArguments {
  batch_size : positive;
  num_image_channels : positive;
  image_height : positive;
  image_width : positive;
  kernel_size : positive;
  num_layers_enc : nat;
  num_channels_enc : positive;
  num_channels_progression_enc : list positive;
  num_channels_bottleneck : positive;
  num_layers_dec : nat;
  num_channels_dec : positive;
  num_channels_progression_dec : list positive;
  arg_task : option string
}.

Definition input_shape (a : arguments) : shape :=
  mkShape (Zpos (batch_size a)) (Zpos (num_image_channels a))
          (Zpos (image_height a)) (Zpos (image_width a)).

(** Lines 248-251. *)
Definition output_softmax (a : arguments) : bool :=
  match arg_task a with
  | Some task => String.eqb task "classification"
  | None => false
  end.

(** [self.layer_dict] in the order of insertion, and [out]. *)
Definition state : Type := list (string * layer) * shape.

(** [self.layer_dict[name] = l; out = self.layer_dict[name](out)]; the
    modules are new, hence in training mode. *)
Definition add_layer (name : string) (l : layer) (st : state) : outcome state :=
  let+ out := apply_layer true l (snd st) in
  Built (fst st ++ [(name, l)], out).

(** [progression[i]] *)
Definition list_item (progression : list positive) (i : nat) : outcome Z :=
  match nth_error progression i with
  | Some m => Built (Zpos m)
  | None => Failed ListIndexOutOfRange
  end.

Fixpoint for_range {S : Type} (body : S -> nat -> outcome S) (indices : list nat) (st : S)
  : outcome S :=
  match indices with
  | [] => Built st
  | i :: indices' => let+ st' := body st i in for_range body indices' st'
  end.

(** Lines 265-285: the layers of the encoder with index [i]. *)
Definition encoder_step (a : arguments) (st : state) (i : nat) : outcome state :=
  let out := snd st in
  let+ conv :=
    if (Z.of_nat i <? Z.of_nat (num_layers_enc a) - 1)%Z then
      let+ m := list_item (num_channels_progression_enc a) i in
      Built (Conv2d (s_channels out) (Zpos (num_channels_enc a) * m) (Zpos (kernel_size a))
                    2 1)
    else
      Built (Conv2d (s_channels out) (Zpos (num_channels_bottleneck a)) (s_height out) 1 0) in
  let+ st1 := add_layer ("conv_" +:+ pretty i) conv st in
  let+ st2 :=
    if 0 <? i
    then add_layer ("batch_norm_enc" +:+ pretty i) (BatchNorm2d (s_channels (snd st1))) st1
    else Built st1 in
  add_layer ("lReLU_" +:+ pretty i) LeakyReLU st2.

(** Lines 290-326: the layers of the decoder with index [i], counted from
    the first layer of the encoder. *)
Definition decoder_step (a : arguments) (st : state) (i : nat) : outcome state :=
  let num_layers_total := Z.of_nat (num_layers_enc a + num_layers_dec a) in
  let ind_dec := i - num_layers_enc a in
  let out := snd st in
  let+ conv :=
    if i =? num_layers_enc a then
      let+ m := list_item (num_channels_progression_dec a) ind_dec in
      Built (ConvTranspose2d (s_channels out) (Zpos (num_channels_dec a) * m)
                             (Zpos (kernel_size a)) 1 0)
    else if (Z.of_nat i <? num_layers_total - 1)%Z then
      let+ m := list_item (num_channels_progression_dec a) ind_dec in
      Built (ConvTranspose2d (s_channels out) (Zpos (num_channels_dec a) * m)
                             (Zpos (kernel_size a)) 2 1)
    else
      let out_channels :=
        if negb (output_softmax a) then Zpos (num_image_channels a)
        else (Zpos (num_image_channels a) * 256)%Z in
      Built (ConvTranspose2d (s_channels out) out_channels (Zpos (kernel_size a)) 2 1) in
  let+ st1 := add_layer ("conv_t_" +:+ pretty i) conv st in
  let+ st2 :=
    if (Z.of_nat i <? num_layers_total - 1)%Z
    then add_layer ("batch_norm_dec_" +:+ pretty i) (BatchNorm2d (s_channels (snd st1))) st1
    else Built st1 in
  if (Z.of_nat i <? num_layers_total - 1)%Z then add_layer ("ReLU_" +:+ pretty i) ReLU st2
  else if negb (output_softmax a) then add_layer ("tanh_" +:+ pretty i) Tanh st2
  else Built st2.

(** [build_module] (lines 256-327): the layers, and the shape of the
    dummy input after the last of them. *)
Definition build_module (a : arguments) : outcome state :=
  let+ encoded := for_range (encoder_step a) (seq 0 (num_layers_enc a)) ([], input_shape a) in
  for_range (decoder_step a) (seq (num_layers_enc a) (num_layers_dec a)) encoded.

(** The layers one after the other (lines 331-332). *)
Fixpoint apply_layers (training : bool) (layers : list layer) (x : shape) : outcome shape :=
  match layers with
  | [] => Built x
  | l :: layers' => let+ x' := apply_layer training l x in apply_layers training layers' x'
  end.

(** The shape [forward] returns: that of the last layer, or the view with
    the 256 classes in front of the channels. *)
Inductive output : Type :=
| Pixels (s : shape)
| Classes (batch classes channels height width : Z).

(** [forward] (lines 330-336). *)
Definition forward (a : arguments) (training : bool) (layer_dict : list (string * layer))
    (x : shape) : outcome output :=
  let+ x' := apply_layers training (map snd layer_dict) x in
  if output_softmax a then
    if (s_channels x' =? 256 * Zpos (num_image_channels a))%Z
    then Built (Classes (s_batch x') 256 (Zpos (num_image_channels a))
                        (s_height x') (s_width x'))
    else Failed InvalidView
  else Built (Pixels x').

(** The layers built so far, applied to the dummy input, give [out]. *)
Definition consistent (x0 : shape) (st : state) : Prop :=
  apply_layers true (map snd (fst st)) x0 = Built (snd st).

(** The arguments of the docstring: five layers each way, kernels of
    four, images of 128 pixels, batches of two. *)
Definition base_arguments : arguments :=
  mkArguments 2 3 128 128 4 6 64 [1; 1; 2; 4; 8]%positive 4000
              5 64 [8; 4; 2; 1]%positive None.

(** The same on single images. *)
Definition single_image_arguments : arguments :=
  mkArguments 1 3 128 128 4 6 64 [1; 1; 2; 4; 8]%positive 4000
              5 64 [8; 4; 2; 1]%positive None.

End ContextEncoder.
(** * Properties *)

(** ** The definitions on small inputs *)

Example update_mean_example :
  match update_maps "mean" (zeros 3 3) (zeros 3 3) (mkSlice 0 2) (mkSlice 1 3)
                    (full 2 2 (2#1)) with
  | Ok (a, n) => to_rows a = [[0;2;2];[0;2;2];[0;0;0]]%Q
                 /\ to_rows n = [[0;1;1];[0;1;1];[0;0;0]]%Q
  | Raise _ => False
  end.
Proof. vm_compute. split; reflexivity. Qed.

Example roc_auc_example :
  (roc_auc_score [0; 0; 1; 1] [1#10; 4#10; 35#100; 8#10] == 3#4)%Q.
Proof. vm_compute. reflexivity. Qed.

Example model_path_example :
  model_path "results/exp/saved_models" "train_model" (Epoch 3)
  = "results/exp/saved_models/train_model_3".
Proof. reflexivity. Qed.

(** ** One pixel under the per-patch update *)

Lemma in_slice_offset s n i :
  in_slice s n i = true -> slice_lo s n + (i - slice_lo s n) = i.
Proof.
  unfold in_slice. rewrite andb_true_iff, Nat.leb_le, Nat.ltb_lt. lia.
Qed.

Lemma count_patch_val n rs cs i j :
  t_val (count_patch n rs cs) i j
  = if in_slice rs (t_height n) i && in_slice cs (t_width n) j
    then (t_val n i j + 1)%Q else t_val n i j.
Proof.
  unfold count_patch; simpl.
  destruct (in_slice rs (t_height n) i) eqn:Hr; [|reflexivity].
  destruct (in_slice cs (t_width n) j) eqn:Hc; [|reflexivity].
  simpl. now rewrite (in_slice_offset _ _ _ Hr), (in_slice_offset _ _ _ Hc).
Qed.

Lemma count_patch_height n rs cs : t_height (count_patch n rs cs) = t_height n.
Proof. reflexivity. Qed.

Lemma count_patch_width n rs cs : t_width (count_patch n rs cs) = t_width n.
Proof. reflexivity. Qed.

(** The score map after lines 519-527 at one pixel; [n] is the count map
    after line 517. *)
Lemma aggregate_patch_pixel method a n rs cs p :
  supported_method method = false
  \/ broadcastable p (slice_len rs (t_height a)) (slice_len cs (t_width a)) = true ->
  exists a',
    aggregate_patch method a n rs cs p = Ok a'
    /\ t_height a' = t_height a /\ t_width a' = t_width a
    /\ forall i j,
        t_val a' i j
        = if in_slice rs (t_height a) i && in_slice cs (t_width a) j
          then
            let c := broadcast p (slice_len rs (t_height a)) (slice_len cs (t_width a))
                               (i - slice_lo rs (t_height a)) (j - slice_lo cs (t_width a)) in
            if String.eqb method "mean" then (t_val a i j + c)%Q
            else if String.eqb method "min" then
              (first_time (t_val n (slice_lo rs (t_height n) + (i - slice_lo rs (t_height a)))
                                   (slice_lo cs (t_width n) + (j - slice_lo cs (t_width a)))) * c
               + (1 - first_time
                        (t_val n (slice_lo rs (t_height n) + (i - slice_lo rs (t_height a)))
                                 (slice_lo cs (t_width n) + (j - slice_lo cs (t_width a)))))
                 * Qmin (t_val a i j) c)%Q
            else if String.eqb method "max" then Qmax (t_val a i j) c
            else t_val a i j
          else t_val a i j.
Proof.
  intros Hfit. unfold aggregate_patch, supported_method in *. simpl t_height. simpl t_width.
  destruct (String.eqb method "mean") eqn:Emean.
  { destruct Hfit as [Hfit|Hfit]; [discriminate|]. rewrite Hfit.
    eexists; split; [reflexivity|]. split; [reflexivity|]. split; [reflexivity|].
    intros i j. simpl.
    destruct (in_slice rs (t_height a) i) eqn:Hr; [|reflexivity].
    destruct (in_slice cs (t_width a) j) eqn:Hc; [|reflexivity].
    simpl. now rewrite (in_slice_offset _ _ _ Hr), (in_slice_offset _ _ _ Hc). }
  destruct (String.eqb method "min") eqn:Emin.
  { destruct Hfit as [Hfit|Hfit]; [discriminate|]. rewrite Hfit.
    eexists; split; [reflexivity|]. split; [reflexivity|]. split; [reflexivity|].
    intros i j. simpl.
    destruct (in_slice rs (t_height a) i) eqn:Hr; [|reflexivity].
    destruct (in_slice cs (t_width a) j) eqn:Hc; [|reflexivity].
    simpl. now rewrite (in_slice_offset _ _ _ Hr), (in_slice_offset _ _ _ Hc). }
  destruct (String.eqb method "max") eqn:Emax.
  { destruct Hfit as [Hfit|Hfit]; [discriminate|]. rewrite Hfit.
    eexists; split; [reflexivity|]. split; [reflexivity|]. split; [reflexivity|].
    intros i j. simpl.
    destruct (in_slice rs (t_height a) i) eqn:Hr; [|reflexivity].
    destruct (in_slice cs (t_width a) j) eqn:Hc; [|reflexivity].
    simpl. now rewrite (in_slice_offset _ _ _ Hr), (in_slice_offset _ _ _ Hc). }
  eexists; split; [reflexivity|]. split; [reflexivity|]. split; [reflexivity|].
  intros i j. now destruct (in_slice rs (t_height a) i && in_slice cs (t_width a) j).
Qed.

(** The update of both maps at one pixel. *)
Lemma update_maps_pixel method H W w a n :
  t_height a = H -> t_width a = W -> t_height n = H -> t_width n = W ->
  supported_method method = false \/ fits H W w = true ->
  exists a' n',
    update_maps method a n (w_rows w) (w_cols w) (w_score w) = Ok (a', n')
    /\ t_height a' = H /\ t_width a' = W /\ t_height n' = H /\ t_width n' = W
    /\ forall i j,
        t_val n' i j = (if covers H W w i j then (t_val n i j + 1)%Q else t_val n i j)
        /\ t_val a' i j
           = (if covers H W w i j
              then pixel_step method (t_val a i j) (t_val n i j) (contribution H W w i j)
              else t_val a i j).
Proof.
  intros Ha Wa Hn Wn Hfit.
  destruct (aggregate_patch_pixel method a (count_patch n (w_rows w) (w_cols w))
              (w_rows w) (w_cols w) (w_score w)) as (a' & Hagg & Hh & Hw & Hval).
  { unfold fits in Hfit. now rewrite Ha, Wa. }
  unfold update_maps. rewrite Hagg. simpl.
  exists a', (count_patch n (w_rows w) (w_cols w)).
  split; [reflexivity|].
  rewrite Hh, Hw, count_patch_height, count_patch_width.
  repeat (split; [assumption|]).
  intros i j. split.
  - rewrite count_patch_val, Hn, Wn. reflexivity.
  - rewrite Hval, count_patch_height, count_patch_width, Ha, Wa, Hn, Wn.
    unfold covers, contribution, pixel_step.
    destruct (in_slice (w_rows w) H i) eqn:Hr; [|reflexivity].
    destruct (in_slice (w_cols w) W j) eqn:Hc; [|reflexivity].
    cbv zeta. simpl andb. cbv iota.
    rewrite (in_slice_offset _ _ _ Hr), (in_slice_offset _ _ _ Hc).
    rewrite count_patch_val, Hn, Wn, Hr, Hc. reflexivity.
Qed.

(** ** The maps of one image, pixel by pixel *)

Lemma accumulate_pixel method H W ws : forall a n,
  t_height a = H -> t_width a = W -> t_height n = H -> t_width n = W ->
  supported_method method = false \/ all_fit H W ws = true ->
  exists a' n',
    accumulate method ws a n = Ok (a', n')
    /\ t_height a' = H /\ t_width a' = W /\ t_height n' = H /\ t_width n' = W
    /\ forall i j,
        (t_val a' i j, t_val n' i j)
        = pixel_fold method (t_val a i j) (t_val n i j) (contributions H W ws i j).
Proof.
  induction ws as [|w ws IH]; intros a n Ha Wa Hn Wn Hfit.
  - exists a, n. simpl. repeat (split; [assumption || reflexivity|]). reflexivity.
  - assert (Hw : supported_method method = false \/ fits H W w = true).
    { destruct Hfit as [Hu|Hf]; [now left|right].
      simpl in Hf. now apply andb_true_iff in Hf. }
    assert (Hws : supported_method method = false \/ all_fit H W ws = true).
    { destruct Hfit as [Hu|Hf]; [now left|right].
      simpl in Hf. now apply andb_true_iff in Hf. }
    destruct (update_maps_pixel method H W w a n Ha Wa Hn Wn Hw)
      as (a1 & n1 & Hup & Ha1 & Wa1 & Hn1 & Wn1 & Hval).
    destruct (IH a1 n1 Ha1 Wa1 Hn1 Wn1 Hws)
      as (a' & n' & Hacc & Ha' & Wa' & Hn' & Wn' & Hval').
    exists a', n'. simpl. rewrite Hup. simpl.
    split; [exact Hacc|]. repeat (split; [assumption|]).
    intros i j. rewrite Hval'. destruct (Hval i j) as [En Ea]. rewrite En, Ea.
    unfold contributions. simpl filter.
    destruct (covers H W w i j); reflexivity.
Qed.

Lemma Qsum_from acc cs : (fold_left Qplus cs acc == acc + Qsum cs)%Q.
Proof.
  unfold Qsum. revert acc. induction cs as [|c cs IH]; intros acc; simpl.
  - ring.
  - rewrite IH, (IH (0 + c)%Q). ring.
Qed.

Lemma Qsum_cons c cs : (Qsum (c :: cs) == c + Qsum cs)%Q.
Proof. unfold Qsum at 1. cbn [fold_left]. rewrite Qsum_from. ring. Qed.

Lemma pixel_fold_count method cs : forall acc cnt,
  (snd (pixel_fold method acc cnt cs) == cnt + inject_Z (Z.of_nat (length cs)))%Q.
Proof.
  induction cs as [|c cs IH]; intros acc cnt.
  - simpl. ring.
  - cbn [pixel_fold]. rewrite IH.
    change (length (c :: cs)) with (S (length cs)).
    rewrite Nat2Z.inj_succ, <- Z.add_1_l, inject_Z_plus. ring.
Qed.


Lemma pixel_fold_max cs : forall acc cnt,
  fst (pixel_fold "max" acc cnt cs) = fold_left Qmax cs acc.
Proof.
  induction cs as [|c cs IH]; intros acc cnt; [reflexivity|].
  cbn [pixel_fold fold_left]. now rewrite IH.
Qed.

Lemma fold_left_Qmin_compat cs : forall x y,
  (x == y)%Q -> (fold_left Qmin cs x == fold_left Qmin cs y)%Q.
Proof.
  induction cs as [|c cs IH]; intros x y E; simpl; [exact E|].
  apply IH. now rewrite E.
Qed.

Lemma inject_nat_pos k : ~ (inject_Z (Z.of_nat (S k)) + 1 == 1)%Q.
Proof.
  unfold Qeq, Qplus, inject_Z. cbn [Qnum Qden]. lia.
Qed.

(** Once a pixel has been touched, [min] combines by minimum. *)
Lemma pixel_fold_min_touched cs : forall acc cnt k,
  (cnt == inject_Z (Z.of_nat (S k)))%Q ->
  (fst (pixel_fold "min" acc cnt cs) == fold_left Qmin cs acc)%Q.
Proof.
  induction cs as [|c cs IH]; intros acc cnt k Hk; [reflexivity|].
  cbn [pixel_fold fold_left].
  rewrite (IH _ _ (S k)).
  - apply fold_left_Qmin_compat. unfold pixel_step, first_time. simpl.
    destruct (Qeq_bool (cnt + 1) 1) eqn:E.
    + apply Qeq_bool_iff in E. rewrite Hk in E. now apply inject_nat_pos in E.
    + ring.
  - rewrite Hk, !Nat2Z.inj_succ, <- !Z.add_1_r, !inject_Z_plus. reflexivity.
Qed.

(** The first touch copies the score. *)
Lemma pixel_fold_min_first c cs acc :
  (fst (pixel_fold "min" acc 0 (c :: cs)) == fold_left Qmin cs c)%Q.
Proof.
  cbn [pixel_fold]. rewrite (pixel_fold_min_touched cs _ _ 0).
  - apply fold_left_Qmin_compat. unfold pixel_step, first_time. simpl. ring.
  - reflexivity.
Qed.

(** [fold_left Qmin cs c] is the least element of [c :: cs]. *)
Lemma fold_left_Qmin_least cs : forall c,
  (forall x, In x (c :: cs) -> (fold_left Qmin cs c <= x)%Q)
  /\ (exists x, In x (c :: cs) /\ (fold_left Qmin cs c == x)%Q).
Proof.
  induction cs as [|d cs IH]; intros c.
  - simpl. split.
    + intros x [<-|[]]. apply Qle_refl.
    + exists c. split; [now left|reflexivity].
  - cbn [fold_left]. destruct (IH (Qmin c d)) as [Hle [x [Hin Hx]]]. split.
    + intros y [<-|[<-|Hy]].
      * eapply Qle_trans; [apply Hle; now left|apply Q.le_min_l].
      * eapply Qle_trans; [apply Hle; now left|apply Q.le_min_r].
      * apply Hle. now right.
    + destruct Hin as [<-|Hin].
      * destruct (Q.min_dec c d) as [E|E].
        -- exists c. split; [now left|]. now rewrite Hx.
        -- exists d. split; [right; now left|]. now rewrite Hx.
      * exists x. split; [right; now right|exact Hx].
Qed.

(** [fold_left Qmax cs acc] is the greatest element of [acc :: cs]. *)
Lemma fold_left_Qmax_greatest cs : forall acc,
  (forall x, In x (acc :: cs) -> (x <= fold_left Qmax cs acc)%Q)
  /\ (exists x, In x (acc :: cs) /\ (fold_left Qmax cs acc == x)%Q).
Proof.
  induction cs as [|d cs IH]; intros c.
  - simpl. split.
    + intros x [<-|[]]. apply Qle_refl.
    + exists c. split; [now left|reflexivity].
  - cbn [fold_left]. destruct (IH (Qmax c d)) as [Hle [x [Hin Hx]]]. split.
    + intros y [<-|[<-|Hy]].
      * eapply Qle_trans; [apply Q.le_max_l|apply Hle; now left].
      * eapply Qle_trans; [apply Q.le_max_r|apply Hle; now left].
      * apply Hle. now right.
    + destruct Hin as [<-|Hin].
      * destruct (Q.max_dec c d) as [E|E].
        -- exists c. split; [now left|]. now rewrite Hx.
        -- exists d. split; [right; now left|]. now rewrite Hx.
      * exists x. split; [right; now right|exact Hx].
Qed.

Lemma fold_left_Qmax_compat cs : forall x y,
  (x == y)%Q -> (fold_left Qmax cs x == fold_left Qmax cs y)%Q.
Proof.
  induction cs as [|c cs IH]; intros x y E; simpl; [exact E|].
  apply IH. now rewrite E.
Qed.

Lemma fold_left_Qmax_zero cs : forall c,
  (fold_left Qmax cs (Qmax 0 c) == Qmax 0 (fold_left Qmax cs c))%Q.
Proof.
  induction cs as [|d cs IH]; intros c; [reflexivity|].
  cbn [fold_left]. rewrite <- IH. apply fold_left_Qmax_compat.
  now rewrite Q.max_assoc.
Qed.

Lemma zeros_accumulate_pixel method H W ws :
  supported_method method = false \/ all_fit H W ws = true ->
  exists a n,
    accumulate method ws (zeros H W) (zeros H W) = Ok (a, n)
    /\ t_height a = H /\ t_width a = W
    /\ forall i j,
        (t_val a i j, t_val n i j) = pixel_fold method 0 0 (contributions H W ws i j).
Proof.
  intros Hfit.
  destruct (accumulate_pixel method H W ws (zeros H W) (zeros H W)
              eq_refl eq_refl eq_refl eq_refl Hfit)
    as (a & n & Hacc & Ha & Wa & _ & _ & Hval).
  exists a, n. repeat (split; [assumption|]). exact Hval.
Qed.

(** The count map holds the number of patches covering each pixel. *)
Lemma coverage_count method H W ws a n :
  supported_method method = false \/ all_fit H W ws = true ->
  accumulate method ws (zeros H W) (zeros H W) = Ok (a, n) ->
  forall i j,
    (t_val n i j == inject_Z (Z.of_nat (length (contributions H W ws i j))))%Q.
Proof.
  intros Hfit Hacc i j.
  destruct (zeros_accumulate_pixel method H W ws Hfit) as (a' & n' & Hacc' & _ & _ & Hval).
  rewrite Hacc in Hacc'. injection Hacc' as <- <-.
  change (t_val n i j) with (snd (t_val a i j, t_val n i j)).
  rewrite Hval, pixel_fold_count. ring.
Qed.




(** C3. With [min], a pixel covered by at least one patch of the image
    holds the minimum of the scores of the patches covering it: the first
    patch touching the pixel copies its score (the count, incremented for
    every patch, is 1 exactly then), each later one combines by minimum.
    Contributions 5, 2, 8 give 2. *)
Theorem min_pixel_is_minimum (H W : nat) (ws : list window) :
  all_fit H W ws = true ->
  exists a n,
    accumulate "min" ws (zeros H W) (zeros H W) = Ok (a, n)
    /\ forall i j,
        (t_val n i j == inject_Z (Z.of_nat (length (contributions H W ws i j))))%Q
        /\ (forall c cs, contributions H W ws i j = c :: cs ->
              (t_val a i j == fold_left Qmin cs c)%Q
              /\ (forall x, In x (c :: cs) -> (t_val a i j <= x)%Q)
              /\ (exists x, In x (c :: cs) /\ (t_val a i j == x)%Q))
        /\ (contributions H W ws i j = [5; 2; 8]%Q -> (t_val a i j == 2)%Q).
Proof.
  intros Hfit.
  destruct (zeros_accumulate_pixel "min" H W ws (or_intror Hfit))
    as (a & n & Hacc & _ & _ & Hval).
  exists a, n. split; [exact Hacc|]. intros i j.
  assert (Hmin : forall c cs, contributions H W ws i j = c :: cs ->
            (t_val a i j == fold_left Qmin cs c)%Q).
  { intros c cs Hcs.
    change (t_val a i j) with (fst (t_val a i j, t_val n i j)).
    rewrite Hval, Hcs. apply pixel_fold_min_first. }
  split; [exact (coverage_count "min" H W ws a n (or_intror Hfit) Hacc i j)|].
  split.
  - intros c cs Hcs. specialize (Hmin c cs Hcs).
    destruct (fold_left_Qmin_least cs c) as [Hle [x [Hin Hx]]].
    split; [exact Hmin|]. split.
    + intros y Hy. rewrite Hmin. now apply Hle.
    + exists x. split; [exact Hin|]. now rewrite Hmin.
  - intros Hcs. rewrite (Hmin _ _ Hcs). reflexivity.
Qed.

Lemma min_pixel_is_minimum_witness :
  all_fit 1 1 (three_stacked_windows 5 2 8) = true
  /\ exists a n,
      accumulate "min" (three_stacked_windows 5 2 8) (zeros 1 1) (zeros 1 1) = Ok (a, n)
      /\ (t_val a 0 0 == 2)%Q.
Proof.
  split; [reflexivity|].
  destruct (min_pixel_is_minimum 1 1 (three_stacked_windows 5 2 8) eq_refl)
    as (a & n & Hacc & Hpix).
  exists a, n. split; [exact Hacc|].
  destruct (Hpix 0 0) as (_ & _ & Hex). apply Hex. reflexivity.
Defined.

(** ** The scores of the two measures *)

Lemma Qsum_nonneg l : (forall x, In x l -> (0 <= x)%Q) -> (0 <= Qsum l)%Q.
Proof.
  induction l as [|c l IH]; intros Hall; [apply Qle_refl|].
  rewrite Qsum_cons. rewrite <- (Qplus_0_l 0).
  apply Qplus_le_compat; [apply Hall; now left|].
  apply IH. intros x Hx. apply Hall. now right.
Qed.

Lemma channel_sum_nonneg channels t :
  (forall c, (0 <= t c)%Q) -> (0 <= channel_sum channels t)%Q.
Proof.
  intros Ht. apply Qsum_nonneg. intros x Hx.
  apply in_map_iff in Hx as (c & <- & _). apply Ht.
Qed.

(** Lines 598-606 give no negative score: a mean of absolute values, or a
    sum of negative log likelihoods. *)
Lemma score_of_nonneg e p i j : (0 <= t_val (score_of e p) i j)%Q.
Proof.
  unfold score_of.
  destruct (String.eqb (measure_of_anomaly e) "absolute distance");
    cbn [absolute_distance likelihood t_val].
  - apply Qle_shift_div_l; [reflexivity|]. rewrite Qmult_0_l.
    apply channel_sum_nonneg. intros c. apply Qabs_nonneg.
  - apply channel_sum_nonneg. intros c. unfold nll_Q, Qle. cbn [Qnum Qden]. lia.
Qed.

Lemma contributions_nonneg e H W ps i j x :
  In x (contributions H W (map (window_of e) ps) i j) -> (0 <= x)%Q.
Proof.
  unfold contributions. intros Hx.
  apply in_map_iff in Hx as (w & <- & Hw).
  apply filter_In in Hw as [Hw _].
  apply in_map_iff in Hw as (p & <- & _).
  unfold contribution, broadcast, window_of. cbn [w_score]. apply score_of_nonneg.
Qed.

Lemma scores_of_batch e ps s :
  supported_measure (measure_of_anomaly e) = true ->
  calculate_anomaly_maps e ps s = (Ok (map w_score (map (window_of e) ps)), s).
Proof.
  rewrite map_map. cbn [window_of w_score].
  unfold supported_measure, calculate_anomaly_maps, score_of, ret, raise.
  destruct (String.eqb (measure_of_anomaly e) "absolute distance"); [reflexivity|].
  cbn [orb]. intros ->. reflexivity.
Qed.

(** With [max] the score of a pixel is [Qmax] folded over its
    contributions, starting from the 0 of line 506. *)
Lemma max_pixel_fold H W ws :
  all_fit H W ws = true ->
  exists a n,
    accumulate "max" ws (zeros H W) (zeros H W) = Ok (a, n)
    /\ forall i j, t_val a i j = fold_left Qmax (contributions H W ws i j) 0%Q.
Proof.
  intros Hfit.
  destruct (zeros_accumulate_pixel "max" H W ws (or_intror Hfit))
    as (a & n & Hacc & _ & _ & Hval).
  exists a, n. split; [exact Hacc|]. intros i j.
  change (t_val a i j) with (fst (t_val a i j, t_val n i j)).
  rewrite Hval. apply pixel_fold_max.
Qed.

(** C4. With [max], the scores of the patches are those of
    [calculate_anomaly_maps], none of them negative, the finalisation does
    not divide by the count, and the score of a pixel that at least one
    patch covers is the maximum of the scores of the patches covering it:
    it is above or equal to each of them and is one of them.
    Contributions 5, 2, 8 give 8, and a pixel no patch covers keeps the 0
    of line 506. *)
Theorem max_pixel_is_maximum_of_covering_scores
    (e : experiment) (H W : nat) (ps : list patch) :
  supported_measure (measure_of_anomaly e) = true ->
  window_aggregation_method e = "max" ->
  all_fit H W (map (window_of e) ps) = true ->
  let ws := map (window_of e) ps in
  (forall s, calculate_anomaly_maps e ps s = (Ok (map w_score ws), s))
  /\ exists a n,
      accumulate (window_aggregation_method e) ws (zeros H W) (zeros H W) = Ok (a, n)
      /\ mean_normalised e a n = a
      /\ forall i j,
          let cs := contributions H W ws i j in
          (forall c cs', cs = c :: cs' -> (t_val a i j == fold_left Qmax cs' c)%Q)
          /\ (cs <> [] ->
              (forall x, In x cs -> (x <= t_val a i j)%Q)
              /\ exists x, In x cs /\ (t_val a i j == x)%Q)
          /\ (cs = [5; 2; 8]%Q -> (t_val a i j == 8)%Q)
          /\ (cs = [] -> (t_val a i j == 0)%Q).
Proof.
  intros Hm Hmax Hfit ws.
  split; [intros s; now apply scores_of_batch|].
  unfold mean_normalised. rewrite Hmax.
  destruct (max_pixel_fold H W ws Hfit) as (a & n & Hacc & Ha).
  exists a, n. split; [exact Hacc|]. split; [reflexivity|]. intros i j.
  set (cs := contributions H W ws i j).
  assert (Hcons : forall c cs', cs = c :: cs' ->
                                (t_val a i j == fold_left Qmax cs' c)%Q).
  { intros c cs' Hcs. rewrite Ha. fold cs. rewrite Hcs. cbn [fold_left].
    apply fold_left_Qmax_compat. apply Q.max_r.
    apply (contributions_nonneg e H W ps i j). fold ws. fold cs. rewrite Hcs. now left. }
  split; [exact Hcons|]. split; [|split].
  - intros Hne. destruct cs as [|c cs'] eqn:Hcs; [congruence|].
    destruct (fold_left_Qmax_greatest cs' c) as [Hge [x [Hin Hx]]].
    split.
    + intros y Hy. rewrite (Hcons c cs' eq_refl). now apply Hge.
    + exists x. split; [exact Hin|]. now rewrite (Hcons c cs' eq_refl).
  - intros Hcs. rewrite Ha. fold cs. rewrite Hcs. reflexivity.
  - intros Hcs. rewrite Ha. fold cs. rewrite Hcs. reflexivity.
Qed.

Lemma max_pixel_is_maximum_of_covering_scores_witness :
  contributions 1 1 (map (window_of margin_experiment) (three_stacked_patches 5 2 8)) 0 0
  = [5; 2; 8]%Q
  /\ (forall s,
        calculate_anomaly_maps margin_experiment (three_stacked_patches 5 2 8) s
        = (Ok (map w_score
                   (map (window_of margin_experiment) (three_stacked_patches 5 2 8))), s))
  /\ exists a n,
      accumulate "max" (map (window_of margin_experiment) (three_stacked_patches 5 2 8))
                 (zeros 1 1) (zeros 1 1) = Ok (a, n)
      /\ (t_val a 0 0 == 8)%Q.
Proof.
  split; [reflexivity|].
  destruct (max_pixel_is_maximum_of_covering_scores
              margin_experiment 1 1 (three_stacked_patches 5 2 8)
              eq_refl eq_refl eq_refl)
    as (Hscores & a & n & Hacc & _ & Hpix).
  split; [exact Hscores|].
  exists a, n. split; [exact Hacc|].
  destruct (Hpix 0 0) as (_ & _ & Hex & _). apply Hex. reflexivity.
Defined.

(** C10. The score map starts as zeros (line 506) and [max] combines
    with what is there (line 527), so that whatever the scores of the
    patches, the score of a pixel is the maximum of 0 and the scores of the
    patches covering it: it is above or equal to 0 and to each of them, and
    it is 0 or one of them.  A pixel all of whose contributions are
    negative therefore ends at 0, strictly above the maximum of its
    contributions.  (The scores that [calculate_anomaly_maps] hands to the
    update are never negative, [score_of_nonneg].) *)
Theorem max_pixel_is_maximum_of_zero_and_scores (H W : nat) (ws : list window) :
  all_fit H W ws = true ->
  exists a n,
    accumulate "max" ws (zeros H W) (zeros H W) = Ok (a, n)
    /\ forall i j,
        let cs := contributions H W ws i j in
        t_val a i j = fold_left Qmax cs 0%Q
        /\ (forall x, In x (0%Q :: cs) -> (x <= t_val a i j)%Q)
        /\ (exists x, In x (0%Q :: cs) /\ (t_val a i j == x)%Q)
        /\ (forall c cs', cs = c :: cs' ->
              (t_val a i j == Qmax 0 (fold_left Qmax cs' c))%Q)
        /\ ((forall x, In x cs -> (x < 0)%Q) ->
            (t_val a i j == 0)%Q
            /\ forall c cs', cs = c :: cs' -> (fold_left Qmax cs' c < t_val a i j)%Q).
Proof.
  intros Hfit.
  destruct (max_pixel_fold H W ws Hfit) as (a & n & Hacc & Ha).
  exists a, n. split; [exact Hacc|]. intros i j cs.
  destruct (fold_left_Qmax_greatest cs 0%Q) as [Hge [x [Hin Hx]]].
  split; [apply Ha|].
  split; [intros y Hy; rewrite Ha; now apply Hge|].
  split; [exists x; split; [exact Hin|]; now rewrite Ha|].
  split.
  - intros c cs' Hcs. rewrite Ha. fold cs. rewrite Hcs. cbn [fold_left].
    apply fold_left_Qmax_zero.
  - intros Hneg.
    assert (Hz : (t_val a i j == 0)%Q).
    { rewrite Ha. fold cs. destruct Hin as [<-|Hin]; [exact Hx|].
      exfalso. specialize (Hneg x Hin).
      specialize (Hge 0%Q (or_introl eq_refl)). rewrite Hx in Hge.
      exact (Qlt_not_le _ _ Hneg Hge). }
    split; [exact Hz|].
    intros c cs' Hcs. rewrite Hz.
    destruct (fold_left_Qmax_greatest cs' c) as [_ [y [Hy Hmax]]].
    rewrite Hmax. apply Hneg. now rewrite Hcs.
Qed.

Lemma max_pixel_is_maximum_of_zero_and_scores_witness :
  (contributions 1 1 (three_stacked_windows 5 2 8) 0 0 = [5; 2; 8]%Q
   /\ exists a n,
       accumulate "max" (three_stacked_windows 5 2 8) (zeros 1 1) (zeros 1 1) = Ok (a, n)
       /\ (t_val a 0 0 == Qmax 0 8)%Q)
  /\ (contributions 1 1 negative_window 0 0 = [(-3)%Q]
      /\ exists a n,
          accumulate "max" negative_window (zeros 1 1) (zeros 1 1) = Ok (a, n)
          /\ (t_val a 0 0 == 0)%Q /\ (-3 < t_val a 0 0)%Q).
Proof.
  split; (split; [reflexivity|]).
  - destruct (max_pixel_is_maximum_of_zero_and_scores 1 1 (three_stacked_windows 5 2 8)
                eq_refl) as (a & n & Hacc & Hpix).
    exists a, n. split; [exact Hacc|].
    destruct (Hpix 0 0) as (_ & _ & _ & Hmax & _).
    rewrite (Hmax 5%Q [2; 8]%Q eq_refl). reflexivity.
  - destruct (max_pixel_is_maximum_of_zero_and_scores 1 1 negative_window eq_refl)
      as (a & n & Hacc & Hpix).
    exists a, n. split; [exact Hacc|].
    destruct (Hpix 0 0) as (_ & _ & _ & _ & Hneg).
    assert (Hall : forall x, In x (contributions 1 1 negative_window 0 0) -> (x < 0)%Q).
    { intros x [<-|[]]. reflexivity. }
    destruct (Hneg Hall) as (Hz & Hlt).
    split; [exact Hz|]. exact (Hlt (-3)%Q [] eq_refl).
Defined.

(** ** Finalisation of one image *)

Lemma finalise_at_boundary_spec e ds which_set cur s a n l filename :
  supported_measure (measure_of_anomaly e) = true ->
  anomaly_map s = Some a ->
  normalisation_map s = Some n ->
  get_label_image ds (cur - 1) = Ok l ->
  (save_anomaly_maps e = true -> py_index (image_list ds) (cur - 1) = Ok filename) ->
  finalise_at_boundary e ds which_set cur s
  = (Ok tt, finalised_state e which_set (cur - 1) IfExists filename a n l s).
Proof.
  intros Hm Ha Hn Hl Hf.
  unfold finalised_state, evaluated_map, evaluated_label, saved_map, margin_cropped,
    resized, mean_normalised.
  unfold supported_measure in Hm.
  run_steps.
  destruct (String.eqb (window_aggregation_method e) "mean");
    destruct (resize_anomaly_maps e);
    destruct (save_anomaly_maps e);
    destruct (AD_margins e) as [margins|];
    cbn; rewrite ?Ha, ?Hn, ?Hl; cbn; rewrite ?(Hf eq_refl); cbn; rewrite ?Hm;
    reflexivity.
Qed.

Lemma finalise_last_image_spec e ds which_set cur s a n l filename :
  supported_measure (measure_of_anomaly e) = true ->
  anomaly_map s = Some a ->
  normalisation_map s = Some n ->
  current_image_idx s = Some cur ->
  get_label_image ds cur = Ok l ->
  (save_anomaly_maps e = true -> py_index (image_list ds) cur = Ok filename) ->
  finalise_last_image e ds which_set s
  = (Ok tt, finalised_state e which_set cur ContinueTrue filename a n l s).
Proof.
  intros Hm Ha Hn Hc Hl Hf.
  unfold finalised_state, evaluated_map, evaluated_label, saved_map, margin_cropped,
    resized, mean_normalised.
  unfold supported_measure in Hm.
  run_steps.
  destruct (String.eqb (window_aggregation_method e) "mean");
    destruct (resize_anomaly_maps e);
    destruct (save_anomaly_maps e);
    destruct (AD_margins e) as [margins|];
    repeat (progress (cbn; rewrite ?Ha, ?Hn, ?Hc, ?Hl, ?(Hf eq_refl), ?Hm));
    reflexivity.
Qed.

(** ** The ordering check and the order of the finalisation steps *)

(** C1, at an input the check misses.  The first batch carries a patch of
    image 1 and then a patch of image 0.  The assertion of line 462 compares
    the index with [num_finished_images], which is 0 after the first patch
    whatever the index of that patch was, so the second patch passes it; its
    scores are added to the map begun for image 1, and the mixture is saved
    under the name of image 0. *)
Theorem decreasing_index_passes_the_assertion :
  fst (run_set shuffled_experiment "val" initial_locals) = Ok true
  /\ saved_maps (trace (snd (run_set shuffled_experiment "val" initial_locals)))
     = [("val", "a.png", [[6; 15 # 2]]%Q)]
  /\ statistics_rows (trace (snd (run_set shuffled_experiment "val" initial_locals)))
     = [("val_summary.csv", 0%Z)].
Proof. vm_compute. repeat split. Qed.

(** C5. Both finalisation passages run in this order: normalise (method
    [mean] only), load the label, resize to the label's size (if
    configured), save the map (if configured), crop the margins from map and
    label (if configured), compute the agreement on the cropped pair, write
    the statistics row.  The map that is saved is therefore the normalised
    and resized map with its margins still on. *)
Theorem finalisation_saves_before_margin_crop
    (e : experiment) (ds : dataset) (which_set : string) (k : Z) (s : locals)
    (a n l : tensor) (filename : string) :
  supported_measure (measure_of_anomaly e) = true ->
  anomaly_map s = Some a ->
  normalisation_map s = Some n ->
  get_label_image ds k = Ok l ->
  (save_anomaly_maps e = true -> py_index (image_list ds) k = Ok filename) ->
  let saved := resized e (mean_normalised e a n) l in
  let evaluated := margin_cropped e saved saved in
  let label := margin_cropped e saved l in
  let aucroc := get_aucroc label evaluated in
  let after mode :=
    mkLocals (num_finished_images s) (current_image_idx s)
      (Some evaluated)
      (Some (if String.eqb (window_aggregation_method e) "mean"
             then fill_zero_counts n else n))
      (Some label)
      (stats_dict s ++ [aucroc])
      ((if save_anomaly_maps e
        then trace s ++ [TorchSave which_set filename saved]
        else trace s)
       ++ [SaveStatistics (which_set +:+ "_summary.csv") (stats_dict s ++ [aucroc]) k mode]) in
  finalise_at_boundary e ds which_set (k + 1) s = (Ok tt, after IfExists)
  /\ (current_image_idx s = Some k ->
      finalise_last_image e ds which_set s = (Ok tt, after ContinueTrue)).
Proof.
  intros Hm Ha Hn Hl Hf. cbv zeta. split.
  - replace k with (k + 1 - 1)%Z in Hl, Hf by lia.
    rewrite (finalise_at_boundary_spec e ds which_set (k + 1) s a n l filename Hm Ha Hn Hl Hf).
    replace (k + 1 - 1)%Z with k by lia. reflexivity.
  - intros Hc.
    now rewrite (finalise_last_image_spec e ds which_set k s a n l filename Hm Ha Hn Hc Hl Hf).
Qed.

Lemma finalisation_saves_before_margin_crop_witness :
  saved_maps
    (trace (snd (finalise_last_image margin_experiment margin_dataset "val" margin_state)))
  = [("val", "a.png", [[4; 4; 4; 4]; [4; 4; 4; 4]; [4; 4; 4; 4]; [4; 4; 4; 4]]%Q)]
  /\ option_map to_rows
       (anomaly_map (snd (finalise_last_image margin_experiment margin_dataset "val"
                                              margin_state)))
     = Some [[4; 4]; [4; 4]]%Q.
Proof.
  destruct (finalisation_saves_before_margin_crop margin_experiment margin_dataset "val"
              0%Z margin_state (full 4 4 4) (full 4 4 1) margin_label "a.png"
              eq_refl eq_refl eq_refl eq_refl (fun _ => eq_refl)) as [_ Hlast].
  rewrite (Hlast eq_refl). split; reflexivity.
Defined.

(** C5 as stated fails: with a margin configured and saving enabled, the
    saved map of a 4 x 4 image has its 4 x 4 pixels, while the map handed to
    the agreement computation is the 2 x 2 map left by the crop. *)
Lemma persisted_map_is_not_margin_cropped :
  fst (run_set margin_experiment "val" initial_locals) = Ok true
  /\ saved_maps (trace (snd (run_set margin_experiment "val" initial_locals)))
     = [("val", "a.png", [[4; 4; 4; 4]; [4; 4; 4; 4]; [4; 4; 4; 4]; [4; 4; 4; 4]]%Q)]
  /\ option_map to_rows (anomaly_map (snd (run_set margin_experiment "val" initial_locals)))
     = Some [[4; 4]; [4; 4]]%Q
  /\ [[4; 4; 4; 4]; [4; 4; 4; 4]; [4; 4; 4; 4]; [4; 4; 4; 4]]%Q <> [[4; 4]; [4; 4]]%Q.
Proof.
  split; [vm_compute; reflexivity|].
  split; [vm_compute; reflexivity|].
  split; [vm_compute; reflexivity|].
  discriminate.
Qed.

(** ** Agreement and its mean *)

Lemma in_flatten t y :
  In y (flatten t) -> exists i j, i < t_height t /\ j < t_width t /\ y = t_val t i j.
Proof.
  unfold flatten. rewrite in_concat. intros (row & Hrow & Hy).
  apply in_map_iff in Hrow as (i & <- & Hi).
  apply in_map_iff in Hy as (j & <- & Hj).
  apply in_seq in Hi, Hj. exists i, j. repeat split; lia.
Qed.

Lemma constant_label_forallb l c :
  constant_label l c -> forallb (fun y => Qeq_bool y c) (flatten l) = true.
Proof.
  intros Hc. apply forallb_forall. intros y Hy.
  apply in_flatten in Hy as (i & j & Hi & Hj & ->).
  apply Qeq_bool_iff. now apply Hc.
Qed.

Lemma get_aucroc_single_class l a :
  constant_label l 0 \/ constant_label l 1 -> get_aucroc l a = None.
Proof.
  intros [H0|H1]; unfold get_aucroc.
  - now rewrite (constant_label_forallb l 0 H0).
  - rewrite (constant_label_forallb l 1 H1). now rewrite orb_true_r.
Qed.

(** C6. A label of one class (all pixels 0, or all pixels 1) makes the
    agreement undefined: [get_aucroc] returns the sentinel, the agreement
    step records it without raising, and the mean printed for a set of
    images is the sum of the defined values divided by their number, the
    undefined ones left out; the values 0.9, undefined, 0.7 give 0.8. *)
Theorem single_class_label_is_undefined_and_excluded :
  (forall l a, constant_label l 0 \/ constant_label l 1 -> get_aucroc l a = None)
  /\ (forall e a l s,
        supported_measure (measure_of_anomaly e) = true ->
        constant_label l 0 \/ constant_label l 1 ->
        calculate_agreement_between_anomaly_score_and_labels e a l s
        = (Ok tt, set_stats_dict (stats_dict s ++ [None]) s))
  /\ (forall s,
        non_nan (stats_dict s) <> [] ->
        print_means s
        = (Ok tt,
           add_event (PrintMean "aucroc"
                        (Qsum (non_nan (stats_dict s))
                         / inject_Z (Z.of_nat (length (non_nan (stats_dict s)))))%Q) s))
  /\ non_nan [Some (9 # 10); None; Some (7 # 10)]%Q = [9 # 10; 7 # 10]%Q
  /\ (Qsum (non_nan [Some (9 # 10); None; Some (7 # 10)]%Q)
      / inject_Z (Z.of_nat (length (non_nan [Some (9 # 10); None; Some (7 # 10)]%Q)))
      == 8 # 10)%Q.
Proof.
  split; [exact get_aucroc_single_class|]. split; [|split; [|split]].
  - intros e a l s Hm Hl.
    unfold calculate_agreement_between_anomaly_score_and_labels, seq_M, modify, ret.
    unfold supported_measure in Hm. rewrite Hm.
    now rewrite (get_aucroc_single_class l a Hl).
  - intros s Hs. unfold print_means, seq_M, gets, modify, raise.
    destruct (non_nan (stats_dict s)) as [|x xs] eqn:E; [congruence|]. reflexivity.
  - reflexivity.
  - vm_compute. reflexivity.
Qed.

Lemma single_class_label_is_undefined_and_excluded_witness :
  get_aucroc (full 2 2 1) (full 2 2 3) = None
  /\ fst (calculate_agreement_between_anomaly_score_and_labels
            margin_experiment (full 2 2 3) (full 2 2 0) initial_locals) = Ok tt
  /\ fst (print_means undefined_then_defined) = Ok tt.
Proof.
  destruct single_class_label_is_undefined_and_excluded as (Hget & Hagree & Hmean & _).
  assert (Hone : constant_label (full 2 2 1) 1) by (intros i j _ _; reflexivity).
  assert (Hzero : constant_label (full 2 2 0) 0) by (intros i j _ _; reflexivity).
  split; [exact (Hget _ _ (or_intror Hone))|]. split.
  - now rewrite (Hagree margin_experiment (full 2 2 3) (full 2 2 0) initial_locals
                        eq_refl (or_introl Hzero)).
  - rewrite (Hmean undefined_then_defined); [reflexivity|discriminate].
Defined.

(** When no image of the set has a defined agreement, the mean divides by
    zero. *)
Lemma print_means_all_undefined s :
  non_nan (stats_dict s) = [] -> print_means s = (Raise ZeroDivisionError, s).
Proof.
  intros E. unfold print_means, seq_M, gets, raise. now rewrite E.
Qed.

(** ** Unsupported configurations *)

Lemma forward_prop_and_loss_unsupported {X Y O L : Type}
    (forward : X -> O) (cross_entropy mse_loss : O -> Y -> L)
    (task loss : string) (x : X) (y : Y) :
  supported_loss task loss = false ->
  forward_prop_and_loss forward cross_entropy mse_loss task loss x y
  = ([ModelForward x], Raise UnboundLocalError).
Proof.
  unfold supported_loss, forward_prop_and_loss.
  destruct (String.eqb task "classification") eqn:Ec.
  - destruct (String.eqb loss "cross_entropy"); [discriminate|reflexivity].
  - destruct (String.eqb task "regression");
      destruct (String.eqb loss "L2"); try discriminate; reflexivity.
Qed.

Lemma update_maps_unsupported method a n rs cs p :
  supported_method method = false ->
  update_maps method a n rs cs p = Ok (a, count_patch n rs cs).
Proof.
  unfold supported_method, update_maps, aggregate_patch.
  destruct (String.eqb method "mean"); [discriminate|].
  destruct (String.eqb method "min"); [discriminate|].
  destruct (String.eqb method "max"); [discriminate|]. reflexivity.
Qed.

(** C8, as the code has it.  Nothing is checked when the objects are
    configured.  A task and loss that do not go together make
    [forward_prop_and_loss] raise on its [return], after the forward pass of
    the model; a measure of anomaly other than the two known ones makes
    [calculate_anomaly_maps] raise when a batch is scored; an aggregation
    method other than [mean], [min], [max] raises nothing at all: a patch
    only increments the count map and the score map stays as it is. *)
Theorem unsupported_configuration_is_not_rejected_up_front :
  (forall (X Y O L : Type) (forward : X -> O) (cross_entropy mse_loss : O -> Y -> L)
          (task loss : string) (x : X) (y : Y),
      supported_loss task loss = false ->
      forward_prop_and_loss forward cross_entropy mse_loss task loss x y
      = ([ModelForward x], Raise UnboundLocalError))
  /\ (forall e batch s,
        supported_measure (measure_of_anomaly e) = false ->
        calculate_anomaly_maps e batch s = (Raise UnboundLocalError, s))
  /\ (forall method a n rs cs p,
        supported_method method = false ->
        update_maps method a n rs cs p = Ok (a, count_patch n rs cs))
  /\ (forall method H W ws,
        supported_method method = false ->
        exists n, accumulate method ws (zeros H W) (zeros H W) = Ok (zeros H W, n)).
Proof.
  split; [intros; now apply forward_prop_and_loss_unsupported|].
  split; [|split; [exact update_maps_unsupported|]].
  - intros e batch s. unfold supported_measure, calculate_anomaly_maps, raise.
    destruct (String.eqb (measure_of_anomaly e) "absolute distance"); [discriminate|].
    destruct (String.eqb (measure_of_anomaly e) "likelihood"); [discriminate|].
    reflexivity.
  - intros method H W ws Hm. generalize (zeros H W) at 2 as n.
    induction ws as [|w ws IH]; intros n.
    + now exists n.
    + cbn [accumulate]. rewrite (update_maps_unsupported _ _ _ _ _ _ Hm). apply IH.
Qed.

Lemma unsupported_configuration_is_not_rejected_up_front_witness :
  forward_prop_and_loss (fun x : nat => x) (fun o y : nat => o + y) (fun o y : nat => o * y)
                        "classification" "L2" 1 2
  = ([ModelForward 1], Raise UnboundLocalError)
  /\ update_maps "median" (zeros 1 1) (zeros 1 1) (mkSlice 0 1) (mkSlice 0 1) (full 1 1 7)
     = Ok (zeros 1 1, count_patch (zeros 1 1) (mkSlice 0 1) (mkSlice 0 1)).
Proof.
  destruct unsupported_configuration_is_not_rejected_up_front as (Hloss & _ & Hmethod & _).
  split.
  - apply Hloss. reflexivity.
  - apply Hmethod. reflexivity.
Defined.

(** C8 as stated fails: with the aggregation method ["median"] the run
    over the validation set completes without any error, and the maps it
    saves are the zeros the maps were created with. *)
Lemma unsupported_method_runs_to_completion :
  fst (run_experiment median_experiment initial_locals) = Ok tt
  /\ saved_maps (trace (snd (run_experiment median_experiment initial_locals)))
     = [("val", "a.png", [[0; 0]]%Q); ("val", "b.png", [[0; 0]]%Q)].
Proof. split; vm_compute; reflexivity. Qed.

(** ** Checkpoints *)

Lemma load_after_save b b' fs dir name i st idx measure :
  (length <$> network b) = (length <$> network b') ->
  st !! "best_val_model_idx" = Some idx ->
  st !! "best_val_model_measure" = Some measure ->
  load_model b' (snd (save_model b fs dir name i st)) dir name i
  = Ok (mkBuilder (network b) (best_val_model_idx b') (best_val_model_measure b') (state b'),
        (idx, measure, <["network" := VStateDict (network b)]> st)).
Proof.
  intros Hshape Hidx Hmeasure. unfold load_model, save_model. cbn [snd].
  rewrite lookup_insert_eq. cbn [bind].
  unfold dict_get. rewrite lookup_insert_eq. cbn [bind].
  unfold load_state_dict. rewrite bool_decide_eq_true_2 by exact Hshape. cbn [bind].
  rewrite !lookup_insert_ne by discriminate.
  rewrite Hidx, Hmeasure. reflexivity.
Qed.

(** C9. The checkpoint written at the end of an epoch, loaded again under
    the epoch index or under ['latest'] into a model of the same
    architecture, gives back the best-epoch index and measure that were
    saved, a state holding the epoch index, and the saved parameter
    values. *)
Theorem checkpoint_round_trip (b b' : builder) (fs : filesystem) (dir : string)
    (epoch_idx : Z) (i : model_idx) :
  (length <$> network b) = (length <$> network b') ->
  i = Epoch epoch_idx \/ i = Latest ->
  exists st,
    load_model b' (snd (save_epoch b fs dir epoch_idx)) dir "train_model" i
    = Ok (mkBuilder (network b) (best_val_model_idx b') (best_val_model_measure b') (state b'),
          (VInt (best_val_model_idx b), VFloat (best_val_model_measure b), st))
    /\ st !! "current_epoch_idx" = Some (VInt epoch_idx)
    /\ st !! "best_val_model_idx" = Some (VInt (best_val_model_idx b))
    /\ st !! "best_val_model_measure" = Some (VFloat (best_val_model_measure b))
    /\ st !! "network" = Some (VStateDict (network b))
    /\ st = state (fst (save_epoch b fs dir epoch_idx)).
Proof.
  intros Hshape Hi.
  set (st3 := <["best_val_model_idx" := VInt (best_val_model_idx b)]>
                (<["best_val_model_measure" := VFloat (best_val_model_measure b)]>
                   (<["current_epoch_idx" := VInt epoch_idx]> (state b)))).
  set (st4 := <["network" := VStateDict (network b)]> st3).
  assert (Hst : <["network" := VStateDict (network b)]> st4 = st4)
    by (unfold st4; apply insert_insert_eq).
  assert (Hidx : st4 !! "best_val_model_idx" = Some (VInt (best_val_model_idx b))).
  { unfold st4, st3. rewrite lookup_insert_ne by discriminate. apply lookup_insert_eq. }
  assert (Hmeasure : st4 !! "best_val_model_measure"
                     = Some (VFloat (best_val_model_measure b))).
  { unfold st4, st3. rewrite !lookup_insert_ne by discriminate. apply lookup_insert_eq. }
  assert (Hepoch : st4 !! "current_epoch_idx" = Some (VInt epoch_idx)).
  { unfold st4, st3. rewrite !lookup_insert_ne by discriminate. apply lookup_insert_eq. }
  assert (Hnet : st4 !! "network" = Some (VStateDict (network b)))
    by (unfold st4; apply lookup_insert_eq).
  exists st4.
  assert (Hfs : snd (save_epoch b fs dir epoch_idx)
                = <[model_path dir "train_model" Latest := st4]>
                    (<[model_path dir "train_model" (Epoch epoch_idx) := st4]> fs)).
  { unfold save_epoch, save_model. fold st3. fold st4. cbn [snd]. now rewrite Hst. }
  assert (Hstate : state (fst (save_epoch b fs dir epoch_idx)) = st4).
  { unfold save_epoch, save_model. fold st3. fold st4. cbn [fst state]. exact Hst. }
  split; [|repeat (split; [assumption|]); now rewrite Hstate].
  rewrite Hfs. unfold load_model.
  assert (Hfile : (<[model_path dir "train_model" Latest := st4]>
                     (<[model_path dir "train_model" (Epoch epoch_idx) := st4]> fs))
                  !! model_path dir "train_model" i = Some st4).
  { destruct Hi as [-> | ->].
    - destruct (decide (model_path dir "train_model" Latest
                        = model_path dir "train_model" (Epoch epoch_idx))) as [E|E].
      + rewrite <- E. apply lookup_insert_eq.
      + rewrite lookup_insert_ne by exact E. apply lookup_insert_eq.
    - apply lookup_insert_eq. }
  rewrite Hfile. cbn [bind]. unfold dict_get. rewrite Hnet. cbn [bind].
  unfold load_state_dict. rewrite bool_decide_eq_true_2 by exact Hshape. cbn [bind].
  rewrite Hidx, Hmeasure. reflexivity.
Qed.

Lemma checkpoint_round_trip_witness :
  exists st,
    load_model fresh_builder (snd (save_epoch trained_builder ∅ "saved_models" 3))
               "saved_models" "train_model" (Epoch 3)
    = Ok (mkBuilder (network trained_builder) 0 1000000000 ∅,
          (VInt 2, VFloat (42 # 100), st))
    /\ st !! "current_epoch_idx" = Some (VInt 3).
Proof.
  destruct (checkpoint_round_trip trained_builder fresh_builder ∅ "saved_models" 3 (Epoch 3))
    as (st & Hload & Hepoch & _).
  - unfold trained_builder, fresh_builder. cbn [network].
    rewrite !map_fmap_singleton. reflexivity.
  - now left.
  - exists st. split; [exact Hload|exact Hepoch].
Defined.

(** ** The patch loop on a stream in image order *)

Lemma for_each_app {A : Type} (body : A -> M unit) l1 l2 s :
  for_each body (l1 ++ l2) s = (for_each body l1 ;> for_each body l2) s.
Proof.
  revert s. induction l1 as [|x l1 IH]; intros s; [reflexivity|].
  cbn [for_each app]. unfold seq_M in *.
  destruct (body x s) as [[[]|err] s1]; [apply IH|reflexivity].
Qed.

Lemma combine_map_self {A B : Type} (f : A -> B) l :
  combine l (map f l) = map (fun x => (x, f x)) l.
Proof. induction l as [|x l IH]; [reflexivity|]. cbn. now rewrite IH. Qed.

Lemma process_batch_items e ds which_set batch s :
  supported_measure (measure_of_anomaly e) = true ->
  process_batch e ds which_set batch s
  = for_each (process_patch e ds which_set) (items e batch) s.
Proof.
  unfold supported_measure, process_batch, calculate_anomaly_maps, items, score_of,
    seq_M, ret, raise.
  destruct (String.eqb (measure_of_anomaly e) "absolute distance").
  - intros _. now rewrite combine_map_self.
  - intros Hm. cbn in Hm. rewrite Hm. now rewrite combine_map_self.
Qed.

(** With a supported measure the loop over the batches is the loop over
    their patches. *)
Lemma batches_items e ds which_set batches : forall s,
  supported_measure (measure_of_anomaly e) = true ->
  for_each (process_batch e ds which_set) batches s
  = for_each (process_patch e ds which_set) (items e (concat batches)) s.
Proof.
  induction batches as [|b bs IH]; intros s Hm; [reflexivity|].
  cbn [for_each concat]. unfold items. rewrite map_app. fold (items e b).
  fold (items e (concat bs)). rewrite for_each_app. unfold seq_M.
  rewrite (process_batch_items e ds which_set b s Hm).
  destruct (for_each (process_patch e ds which_set) (items e b) s) as [[[]|err] s1];
    [now apply IH|reflexivity].
Qed.

Arguments finalise_at_boundary : simpl never.
Arguments aggregate_patch : simpl never.
Arguments count_patch : simpl never.
Arguments zeros : simpl never.

(** A patch of the image in progress only updates the two maps. *)
Lemma process_patch_same_image e ds which_set p score s a n a' n' :
  num_finished_images s = p_image_idx p ->
  anomaly_map s = Some a ->
  normalisation_map s = Some n ->
  update_maps (window_aggregation_method e) a n (p_rows p) (p_cols p) score = Ok (a', n') ->
  process_patch e ds which_set (p, score) s
  = (Ok tt,
     mkLocals (p_image_idx p) (Some (p_image_idx p)) (Some a') (Some n')
              (label_image s) (stats_dict s) (trace s)).
Proof.
  intros Hk Ha Hn Hup. run_patch. cbn. rewrite Hk, Z.leb_refl.
  rewrite Z.gtb_ltb, Z.ltb_irrefl. cbn. rewrite Hn. cbn.
  unfold update_maps in Hup.
  destruct (supported_method (window_aggregation_method e)) eqn:Hs.
  - rewrite Ha. cbn.
    destruct (aggregate_patch (window_aggregation_method e) a
                (count_patch n (p_rows p) (p_cols p)) (p_rows p) (p_cols p) score)
      as [a1|err]; [|discriminate].
    cbn in Hup. injection Hup as <- <-. reflexivity.
  - unfold supported_method in Hs. unfold aggregate_patch in Hup.
    destruct (String.eqb (window_aggregation_method e) "mean"); [discriminate|].
    destruct (String.eqb (window_aggregation_method e) "min"); [discriminate|].
    destruct (String.eqb (window_aggregation_method e) "max"); [discriminate|].
    cbn in Hup. injection Hup as <- <-. now rewrite Ha.
Qed.

Lemma update_maps_as_steps method a n rs cs score a' n' :
  update_maps method a n rs cs score = Ok (a', n') ->
  n' = count_patch n rs cs
  /\ (if supported_method method
      then aggregate_patch method a (count_patch n rs cs) rs cs score = Ok a'
      else a' = a).
Proof.
  unfold update_maps. intros Hup.
  destruct (supported_method method) eqn:Hs.
  - destruct (aggregate_patch method a (count_patch n rs cs) rs cs score) as [a1|err];
      [|discriminate].
    cbn in Hup. injection Hup as <- <-. now split.
  - unfold update_maps in *. unfold supported_method in Hs. unfold aggregate_patch in Hup.
    destruct (String.eqb method "mean"); [discriminate|].
    destruct (String.eqb method "min"); [discriminate|].
    destruct (String.eqb method "max"); [discriminate|].
    cbn in Hup. injection Hup as <- <-. now split.
Qed.

(** The first patch of the stream creates the maps of its image. *)
Lemma process_patch_first_image e ds which_set p score s size a' n' :
  num_finished_images s = (-1)%Z ->
  p_image_idx p = 0%Z ->
  py_index (image_sizes ds) 0 = Ok size ->
  update_maps (window_aggregation_method e)
              (zeros (snd (fst size)) (snd size)) (zeros (snd (fst size)) (snd size))
              (p_rows p) (p_cols p) score = Ok (a', n') ->
  process_patch e ds which_set (p, score) s
  = (Ok tt,
     mkLocals 0 (Some 0%Z) (Some a') (Some n') (label_image s) (stats_dict s) (trace s)).
Proof.
  intros Hk Hp Hsize Hup.
  apply update_maps_as_steps in Hup as [-> Hagg].
  unfold process_patch. cbn [fst snd]. rewrite Hp. run_monad. cbn.
  rewrite Hk. change (-1 + 1)%Z with 0%Z. change (0 >? 0)%Z with false.
  cbn. rewrite Hsize. cbn.
  destruct (supported_method (window_aggregation_method e)).
  - cbn. rewrite Hagg. reflexivity.
  - subst a'. reflexivity.
Qed.

(** The first patch of the next image finalises the image in progress and
    creates the maps of its own image. *)
Lemma process_patch_next_image e ds which_set p score s k a n l filename size a' n' :
  (0 <= k)%Z ->
  num_finished_images s = k ->
  p_image_idx p = (k + 1)%Z ->
  supported_measure (measure_of_anomaly e) = true ->
  anomaly_map s = Some a ->
  normalisation_map s = Some n ->
  get_label_image ds k = Ok l ->
  (save_anomaly_maps e = true -> py_index (image_list ds) k = Ok filename) ->
  py_index (image_sizes ds) (k + 1) = Ok size ->
  update_maps (window_aggregation_method e)
              (zeros (snd (fst size)) (snd size)) (zeros (snd (fst size)) (snd size))
              (p_rows p) (p_cols p) score = Ok (a', n') ->
  process_patch e ds which_set (p, score) s
  = (Ok tt,
     let f := finalised_state e which_set k IfExists filename a n l s in
     mkLocals (k + 1) (Some (k + 1)%Z) (Some a') (Some n')
              (label_image f) (stats_dict f) (trace f)).
Proof.
  intros Hk0 Hk Hp Hm Ha Hn Hl Hf Hsize Hup.
  apply update_maps_as_steps in Hup as [-> Hagg].
  unfold process_patch. cbn [fst snd]. rewrite Hp. run_monad. cbn.
  rewrite Hk.
  replace (k <=? k + 1)%Z with true by (symmetry; apply Z.leb_le; lia).
  replace (k + 1 >? k)%Z with true by (symmetry; apply Z.gtb_lt; lia).
  replace (k + 1 >? 0)%Z with true by (symmetry; apply Z.gtb_lt; lia).
  cbn.
  replace k with (k + 1 - 1)%Z in Hl, Hf by lia.
  rewrite (finalise_at_boundary_spec e ds which_set (k + 1)
             (mkLocals (k + 1) (Some (k + 1)%Z) (anomaly_map s) (normalisation_map s)
                       (label_image s) (stats_dict s) (trace s))
             a n l filename Hm Ha Hn Hl Hf).
  replace (k + 1 - 1)%Z with k by lia.
  run_monad. unfold finalised_state. cbn. rewrite Hsize. cbn.
  destruct (supported_method (window_aggregation_method e)).
  - cbn. rewrite Hagg. reflexivity.
  - subst a'. reflexivity.
Qed.

Lemma last_nonempty {A : Type} (x : A) l d d' :
  List.last (x :: l) d = List.last (x :: l) d'.
Proof.
  revert x. induction l as [|y l IH]; intros x; [reflexivity|].
  change (List.last (y :: l) d = List.last (y :: l) d'). apply IH.
Qed.

Lemma last_image_cons k p ps : last_image k (p :: ps) = last_image (p_image_idx p) ps.
Proof.
  unfold last_image. cbn [map].
  destruct (map p_image_idx ps) as [|y l]; [reflexivity|].
  change (List.last (y :: l) k = List.last (y :: l) (p_image_idx p)).
  apply last_nonempty.
Qed.

Lemma consecutive_last k ps : consecutive k ps = true -> (k <= last_image k ps)%Z.
Proof.
  revert k. induction ps as [|p ps IH]; intros k Hc; [unfold last_image; cbn; lia|].
  rewrite last_image_cons. cbn [consecutive] in Hc.
  apply andb_true_iff in Hc as [Hp Hc]. specialize (IH _ Hc).
  apply orb_true_iff in Hp as [Hp|Hp]; apply Z.eqb_eq in Hp; lia.
Qed.

Lemma statistics_rows_app tr1 tr2 :
  statistics_rows (tr1 ++ tr2) = statistics_rows tr1 ++ statistics_rows tr2.
Proof. unfold statistics_rows. now rewrite flat_map_app. Qed.

Lemma statistics_rows_finalised e which_set k mode filename a n l s :
  statistics_rows (trace (finalised_state e which_set k mode filename a n l s))
  = statistics_rows (trace s) ++ [(which_set +:+ "_summary.csv", k)].
Proof.
  unfold finalised_state. cbn [trace]. rewrite statistics_rows_app.
  destruct (save_anomaly_maps e); [rewrite statistics_rows_app|]; cbn;
    now rewrite ?app_nil_r.
Qed.

Lemma rows_between_step which_set k last :
  (k < last)%Z ->
  rows_between which_set k last
  = (which_set +:+ "_summary.csv", k) :: rows_between which_set (k + 1) last.
Proof.
  intros Hlt. unfold rows_between. rewrite seqZ_cons by lia. cbn [map].
  do 3 f_equal; lia.
Qed.

Lemma patch_ready_parts e ds p :
  patch_ready e ds p = true ->
  is_ok (get_label_image ds (p_image_idx p)) = true
  /\ (negb (save_anomaly_maps e) || is_ok (py_index (image_list ds) (p_image_idx p))) = true
  /\ exists size,
      py_index (image_sizes ds) (p_image_idx p) = Ok size
      /\ (supported_method (window_aggregation_method e) = false
          \/ fits (snd (fst size)) (snd size) (window_of e p) = true).
Proof.
  unfold patch_ready. rewrite !andb_true_iff. intros [[Hl Hf] Hs].
  split; [exact Hl|]. split; [exact Hf|].
  destruct (py_index (image_sizes ds) (p_image_idx p)) as [size|]; [|discriminate].
  exists size. split; [reflexivity|].
  apply orb_true_iff in Hs as [Hs|Hs]; [left; now apply negb_true_iff|now right].
Qed.

Lemma is_ok_get {A : Type} (r : result A) : is_ok r = true -> exists a, r = Ok a.
Proof. destruct r as [a|]; [now exists a|discriminate]. Qed.

Lemma file_name_available e ds k :
  (negb (save_anomaly_maps e) || is_ok (py_index (image_list ds) k)) = true ->
  exists filename,
    save_anomaly_maps e = true -> py_index (image_list ds) k = Ok filename.
Proof.
  destruct (save_anomaly_maps e); cbn.
  - intros H. apply is_ok_get in H as [f Hf]. now exists f.
  - intros _. exists "". discriminate.
Qed.

(** The loop over a stretch of patches that continues image [k] in image
    order: it completes, the last image of the stretch is in progress
    afterwards, and one statistics row has been written for every image
    that ended on the way. *)
Lemma patch_loop_in_order e ds which_set :
  supported_measure (measure_of_anomaly e) = true ->
  forall ps k s,
    (0 <= k)%Z ->
    in_progress e ds k s ->
    consecutive k ps = true ->
    forallb (patch_ready e ds) ps = true ->
    exists s',
      for_each (process_patch e ds which_set) (items e ps) s = (Ok tt, s')
      /\ in_progress e ds (last_image k ps) s'
      /\ (ps = [] -> s' = s)
      /\ (ps <> [] -> current_image_idx s' = Some (last_image k ps))
      /\ statistics_rows (trace s')
         = statistics_rows (trace s) ++ rows_between which_set k (last_image k ps).
Proof.
  intros Hm. induction ps as [|p ps IH]; intros k s Hk Hin Hcons Hready.
  - exists s. split; [reflexivity|]. split; [exact Hin|]. split; [reflexivity|].
    split; [congruence|].
    unfold rows_between, last_image. cbn [map List.last]. rewrite seqZ_nil by lia.
    cbn [map]. now rewrite app_nil_r.
  - cbn [consecutive] in Hcons. apply andb_true_iff in Hcons as [Hp Hcons].
    cbn [forallb] in Hready. apply andb_true_iff in Hready as [Hrp Hready].
    apply patch_ready_parts in Hrp as (Hlp & Hfp & size_p & Hsize_p & Hfit).
    destruct Hin as (Hnfi & Hl & Hf & a & n & size & Ha & Hn & Hsize & Hha & Hwa & Hhn & Hwn).
    rewrite last_image_cons.
    assert (Hstep : exists s1,
      process_patch e ds which_set (p, score_of e p) s = (Ok tt, s1)
      /\ in_progress e ds (p_image_idx p) s1
      /\ current_image_idx s1 = Some (p_image_idx p)
      /\ statistics_rows (trace s1)
         = statistics_rows (trace s) ++ rows_between which_set k (p_image_idx p)).
    { apply orb_true_iff in Hp as [Hp|Hp]; apply Z.eqb_eq in Hp.
      - (* a further patch of image k *)
        rewrite Hp in Hsize_p. rewrite Hsize_p in Hsize. injection Hsize as ->.
        destruct (update_maps_pixel (window_aggregation_method e) _ _ (window_of e p)
                    a n Hha Hwa Hhn Hwn Hfit)
          as (a' & n' & Hup & Hha' & Hwa' & Hhn' & Hwn' & _).
        cbn [window_of w_rows w_cols w_score] in Hup.
        eexists. split.
        + apply (process_patch_same_image e ds which_set p (score_of e p) s a n a' n');
            [now rewrite Hp|assumption|assumption|exact Hup].
        + split; [|split].
          * unfold in_progress. cbn. split; [reflexivity|]. split; [exact Hlp|].
            split; [exact Hfp|]. exists a', n', size.
            rewrite Hp. repeat split; assumption.
          * reflexivity.
          * cbn. rewrite Hp. unfold rows_between. rewrite seqZ_nil by lia.
            now rewrite app_nil_r.
      - (* the first patch of image k + 1 *)
        apply is_ok_get in Hl as [l Hl].
        destruct (file_name_available e ds k Hf) as [filename Hfile].
        destruct (update_maps_pixel (window_aggregation_method e) _ _ (window_of e p)
                    (zeros (snd (fst size_p)) (snd size_p))
                    (zeros (snd (fst size_p)) (snd size_p))
                    eq_refl eq_refl eq_refl eq_refl Hfit)
          as (a' & n' & Hup & Hha' & Hwa' & Hhn' & Hwn' & _).
        cbn [window_of w_rows w_cols w_score] in Hup.
        rewrite Hp in Hsize_p.
        eexists. split.
        + apply (process_patch_next_image e ds which_set p (score_of e p) s k a n l
                   filename size_p a' n'); assumption.
        + split; [|split].
          * unfold in_progress. cbn. split; [now rewrite Hp|]. split; [exact Hlp|].
            split; [exact Hfp|]. exists a', n', size_p.
            rewrite Hp. repeat split; assumption.
          * cbn. now rewrite Hp.
          * cbv zeta. cbn [trace]. rewrite statistics_rows_finalised.
            rewrite Hp, (rows_between_step which_set k (k + 1)) by lia.
            unfold rows_between. rewrite seqZ_nil by lia. reflexivity. }
    destruct Hstep as (s1 & Hs1 & Hin1 & Hcur1 & Hrows1).
    assert (Hk1 : (0 <= p_image_idx p)%Z).
    { apply orb_true_iff in Hp as [Hp|Hp]; apply Z.eqb_eq in Hp; lia. }
    destruct (IH (p_image_idx p) s1 Hk1 Hin1 Hcons Hready)
      as (s' & Hloop & Hin' & Hnil & Hcur' & Hrows').
    exists s'. cbn [items map for_each]. unfold seq_M. rewrite Hs1.
    split; [exact Hloop|]. split; [exact Hin'|]. split; [discriminate|]. split.
    + intros _. destruct ps as [|q ps'].
      * rewrite (Hnil eq_refl). unfold last_image. cbn. exact Hcur1.
      * apply Hcur'. discriminate.
    + rewrite Hrows', Hrows1, <- app_assoc. f_equal.
      pose proof (consecutive_last _ _ Hcons) as Hle.
      unfold rows_between. rewrite <- map_app. f_equal.
      assert (Hkp : (k <= p_image_idx p)%Z).
      { apply orb_true_iff in Hp as [Hp|Hp]; apply Z.eqb_eq in Hp; lia. }
      replace (last_image (p_image_idx p) ps - k)%Z
        with ((p_image_idx p - k) + (last_image (p_image_idx p) ps - p_image_idx p))%Z
        by lia.
      rewrite seqZ_app by lia. do 2 f_equal. lia.
Qed.

Lemma rows_between_snoc which_set k last :
  (k <= last)%Z ->
  rows_between which_set k (last + 1)
  = rows_between which_set k last ++ [(which_set +:+ "_summary.csv", last)].
Proof.
  intros Hle. unfold rows_between.
  replace (last + 1 - k)%Z with ((last - k) + 1)%Z by lia.
  rewrite seqZ_app by lia. rewrite map_app. f_equal.
  rewrite seqZ_cons by lia. rewrite seqZ_nil by lia. cbn [map]. do 2 f_equal. lia.
Qed.

Lemma statistics_rows_print_means s :
  statistics_rows (trace (snd (print_means s))) = statistics_rows (trace s).
Proof.
  unfold print_means. run_monad.
  destruct (length (non_nan (stats_dict s)) =? 0); cbn; [reflexivity|].
  rewrite statistics_rows_app. cbn. now rewrite app_nil_r.
Qed.

(** C7. On a non-empty stream in image order whose patches can be
    processed, the loop over the batches completes with the last image of
    the stream still in progress: a statistics row has been written for
    every earlier image and none for the last.  The passage after the loop
    then finalises the last image, once, with the steps a boundary would
    have applied had a patch of a further image arrived (the two results
    differ only in the continuation flag handed to [save_statistics]), so
    that in the end every image of the stream has exactly one row. *)
Theorem last_image_is_finalised_after_the_stream
    (e : experiment) (which_set : string) (s : locals) :
  let ds := snd (data_of e which_set) in
  let ps := concat (fst (data_of e which_set)) in
  let last := last_image 0 ps in
  supported_measure (measure_of_anomaly e) = true ->
  image_list ds <> [] ->
  ps <> [] ->
  in_image_order ps = true ->
  forallb (patch_ready e ds) ps = true ->
  exists s1 a n l filename,
    for_each (process_batch e ds which_set) (fst (data_of e which_set)) (round_start s)
    = (Ok tt, s1)
    /\ num_finished_images s1 = last
    /\ current_image_idx s1 = Some last
    /\ anomaly_map s1 = Some a
    /\ normalisation_map s1 = Some n
    /\ get_label_image ds last = Ok l
    /\ (save_anomaly_maps e = true -> py_index (image_list ds) last = Ok filename)
    /\ statistics_rows (trace s1)
       = statistics_rows (trace s) ++ rows_between which_set 0 last
    /\ finalise_last_image e ds which_set s1
       = (Ok tt, finalised_state e which_set last ContinueTrue filename a n l s1)
    /\ finalise_at_boundary e ds which_set (last + 1) s1
       = (Ok tt, finalised_state e which_set last IfExists filename a n l s1)
    /\ run_set e which_set s
       = (print_means ;> ret true)
           (finalised_state e which_set last ContinueTrue filename a n l s1)
    /\ statistics_rows (trace (snd (run_set e which_set s)))
       = statistics_rows (trace s) ++ rows_between which_set 0 (last + 1).
Proof.
  intros ds ps last Hm Himages Hps Horder Hready.
  destruct ps as [|p ps'] eqn:Eps; [congruence|]. clear Hps.
  cbn [in_image_order] in Horder. apply andb_true_iff in Horder as [Hp Hcons].
  apply Z.eqb_eq in Hp.
  cbn [forallb] in Hready. apply andb_true_iff in Hready as [Hrp Hready].
  apply patch_ready_parts in Hrp as (Hlp & Hfp & size & Hsize & Hfit).
  rewrite Hp in Hlp, Hfp, Hsize.
  destruct (update_maps_pixel (window_aggregation_method e) _ _ (window_of e p)
              (zeros (snd (fst size)) (snd size)) (zeros (snd (fst size)) (snd size))
              eq_refl eq_refl eq_refl eq_refl Hfit)
    as (a0 & n0 & Hup & Hha & Hwa & Hhn & Hwn & _).
  cbn [window_of w_rows w_cols w_score] in Hup.
  pose proof (process_patch_first_image e ds which_set p (score_of e p) (round_start s)
                size a0 n0 eq_refl Hp Hsize Hup) as Hfirst.
  set (s0 := mkLocals 0 (Some 0%Z) (Some a0) (Some n0) (label_image (round_start s))
                      (stats_dict (round_start s)) (trace (round_start s))) in Hfirst.
  assert (Hin0 : in_progress e ds 0 s0).
  { unfold in_progress. split; [reflexivity|]. split; [exact Hlp|]. split; [exact Hfp|].
    exists a0, n0, size. repeat split; assumption. }
  destruct (patch_loop_in_order e ds which_set Hm ps' 0%Z s0 (Z.le_refl 0) Hin0 Hcons Hready)
    as (s1 & Hloop & Hin1 & Hnil & Hcur & Hrows).
  assert (Hlast : last = last_image 0 ps').
  { unfold last. rewrite last_image_cons. now rewrite Hp. }
  rewrite <- Hlast in Hin1, Hcur, Hrows.
  destruct Hin1 as (Hnfi1 & Hl1 & Hf1 & a & n & size1 & Ha1 & Hn1 & _).
  apply is_ok_get in Hl1 as [l Hl1].
  destruct (file_name_available e ds last Hf1) as [filename Hfile].
  assert (Hcur1 : current_image_idx s1 = Some last).
  { destruct ps' as [|q ps'']; [|apply Hcur; discriminate].
    rewrite (Hnil eq_refl), Hlast. reflexivity. }
  assert (Hbatches :
    for_each (process_batch e ds which_set) (fst (data_of e which_set)) (round_start s)
    = (Ok tt, s1)).
  { rewrite (batches_items e ds which_set _ _ Hm). fold ps. rewrite Eps.
    cbn [items map for_each]. unfold seq_M. rewrite Hfirst. exact Hloop. }
  assert (Hfinal := finalise_last_image_spec e ds which_set last s1 a n l filename
                      Hm Ha1 Hn1 Hcur1 Hl1 Hfile).
  assert (Hrun : run_set e which_set s
                 = (print_means ;> ret true)
                     (finalised_state e which_set last ContinueTrue filename a n l s1)).
  { unfold run_set. fold ds.
    destruct (image_list ds) as [|name names] eqn:Elist; [congruence|]. cbn [length Nat.eqb].
    unfold seq_M at 1. unfold modify at 1.
    unfold seq_M at 1. unfold modify at 1.
    change (set_stats_dict [] (set_num_finished_images (-1) s)) with (round_start s).
    unfold seq_M at 1. rewrite Hbatches.
    unfold seq_M at 1. rewrite Hfinal. reflexivity. }
  exists s1, a, n, l, filename.
  split; [exact Hbatches|]. split; [exact Hnfi1|]. split; [exact Hcur1|].
  split; [exact Ha1|]. split; [exact Hn1|]. split; [exact Hl1|]. split; [exact Hfile|].
  split; [exact Hrows|]. split; [exact Hfinal|]. split.
  - replace last with (last + 1 - 1)%Z in Hl1, Hfile by lia.
    rewrite (finalise_at_boundary_spec e ds which_set (last + 1) s1 a n l filename
               Hm Ha1 Hn1 Hl1 Hfile).
    now replace (last + 1 - 1)%Z with last by lia.
  - split; [exact Hrun|]. rewrite Hrun.
    assert (Hle : (0 <= last)%Z) by (rewrite Hlast; now apply consecutive_last).
    unfold seq_M.
    pose proof (statistics_rows_print_means
                  (finalised_state e which_set last ContinueTrue filename a n l s1)) as Hpm.
    destruct (print_means (finalised_state e which_set last ContinueTrue filename a n l s1))
      as [[[]|err] s2]; cbn [snd] in *; unfold ret; cbn [snd];
      rewrite Hpm, statistics_rows_finalised, Hrows, <- app_assoc;
      now rewrite rows_between_snoc.
Qed.

Lemma last_image_is_finalised_after_the_stream_witness :
  statistics_rows (trace (snd (run_set ordered_experiment "val" initial_locals)))
  = [("val_summary.csv", 0%Z); ("val_summary.csv", 1%Z)].
Proof.
  assert (Himages : image_list (snd (data_of ordered_experiment "val")) <> [])
    by discriminate.
  assert (Hstream : concat (fst (data_of ordered_experiment "val")) <> [])
    by discriminate.
  destruct (last_image_is_finalised_after_the_stream ordered_experiment "val" initial_locals
              eq_refl Himages Hstream eq_refl eq_refl)
    as (s1 & a & n & l & filename & H).
  destruct H as (_ & _ & _ & _ & _ & _ & _ & _ & _ & _ & _ & Hrows).
  rewrite Hrows. reflexivity.
Defined.

(** ** The maps of an image in the loop, and the ordering check *)

(** Patches of the image in progress are applied to its maps one after the
    other: the loop computes [accumulate]. *)
Lemma same_image_loop e ds which_set ps : forall s a n a' n',
  ps <> [] ->
  Forall (fun p => p_image_idx p = num_finished_images s) ps ->
  anomaly_map s = Some a ->
  normalisation_map s = Some n ->
  accumulate (window_aggregation_method e) (map (window_of e) ps) a n = Ok (a', n') ->
  for_each (process_patch e ds which_set) (items e ps) s
  = (Ok tt,
     mkLocals (num_finished_images s) (Some (num_finished_images s)) (Some a') (Some n')
              (label_image s) (stats_dict s) (trace s)).
Proof.
  induction ps as [|p ps IH]; intros s a n a' n' Hne Hall Ha Hn Hacc; [congruence|].
  inversion Hall as [|p0 ps0 Hp Hps]; subst p0 ps0.
  cbn [map accumulate window_of w_rows w_cols w_score] in Hacc.
  destruct (update_maps (window_aggregation_method e) a n (p_rows p) (p_cols p) (score_of e p))
    as [[a1 n1]|err] eqn:Hup; [|discriminate].
  cbn [bind fst snd] in Hacc.
  cbn [items map for_each]. unfold seq_M.
  rewrite (process_patch_same_image e ds which_set p (score_of e p) s a n a1 n1
             (Logic.eq_sym Hp) Ha Hn Hup).
  rewrite Hp.
  destruct ps as [|q ps'].
  - cbn in Hacc. injection Hacc as <- <-. reflexivity.
  - fold (items e (q :: ps')).
    rewrite (IH _ a1 n1 a' n');
      [reflexivity|discriminate|exact Hps|reflexivity|reflexivity|exact Hacc].
Qed.

(** The assertion of line 462 fails exactly when the index of the patch is
    below the counter of begun images; the patch is then not applied. *)
Lemma assertion_fails_below_counter e ds which_set p score s :
  (p_image_idx p < num_finished_images s)%Z ->
  process_patch e ds which_set (p, score) s
  = (Raise AssertionError, set_current_image_idx (p_image_idx p) s).
Proof.
  intros Hlt. unfold process_patch. run_monad. cbn.
  replace (num_finished_images s <=? p_image_idx p)%Z with false
    by (symmetry; apply Z.leb_gt; lia).
  reflexivity.
Qed.

(** On a stream in image order the counter is the largest index seen, so a
    patch of an earlier image is caught before it is applied. *)
Lemma decrease_after_in_order_prefix e ds which_set ps q rest s :
  supported_measure (measure_of_anomaly e) = true ->
  ps <> [] ->
  in_image_order ps = true ->
  forallb (patch_ready e ds) ps = true ->
  (p_image_idx q < last_image 0 ps)%Z ->
  exists s1,
    for_each (process_patch e ds which_set) (items e ps) (round_start s) = (Ok tt, s1)
    /\ for_each (process_patch e ds which_set) (items e (ps ++ q :: rest)) (round_start s)
       = (Raise AssertionError, set_current_image_idx (p_image_idx q) s1).
Proof.
  intros Hm Hps Horder Hready Hlt.
  destruct ps as [|p ps']; [congruence|]. clear Hps.
  cbn [in_image_order] in Horder. apply andb_true_iff in Horder as [Hp Hcons].
  apply Z.eqb_eq in Hp.
  cbn [forallb] in Hready. apply andb_true_iff in Hready as [Hrp Hready].
  apply patch_ready_parts in Hrp as (Hlp & Hfp & size & Hsize & Hfit).
  rewrite Hp in Hlp, Hfp, Hsize.
  destruct (update_maps_pixel (window_aggregation_method e) _ _ (window_of e p)
              (zeros (snd (fst size)) (snd size)) (zeros (snd (fst size)) (snd size))
              eq_refl eq_refl eq_refl eq_refl Hfit)
    as (a0 & n0 & Hup & Hha & Hwa & Hhn & Hwn & _).
  cbn [window_of w_rows w_cols w_score] in Hup.
  pose proof (process_patch_first_image e ds which_set p (score_of e p) (round_start s)
                size a0 n0 eq_refl Hp Hsize Hup) as Hfirst.
  set (s0 := mkLocals 0 (Some 0%Z) (Some a0) (Some n0) (label_image (round_start s))
                      (stats_dict (round_start s)) (trace (round_start s))) in Hfirst.
  assert (Hin0 : in_progress e ds 0 s0).
  { unfold in_progress. split; [reflexivity|]. split; [exact Hlp|]. split; [exact Hfp|].
    exists a0, n0, size. repeat split; assumption. }
  destruct (patch_loop_in_order e ds which_set Hm ps' 0%Z s0 (Z.le_refl 0) Hin0 Hcons Hready)
    as (s1 & Hloop & Hin1 & _).
  rewrite last_image_cons, Hp in Hlt.
  destruct Hin1 as (Hnfi1 & _).
  assert (Hprefix : for_each (process_patch e ds which_set) (items e (p :: ps')) (round_start s)
                    = (Ok tt, s1)).
  { cbn [items map for_each]. unfold seq_M. rewrite Hfirst. exact Hloop. }
  exists s1. split; [exact Hprefix|].
  unfold items. rewrite map_app. fold (items e (p :: ps')). rewrite for_each_app.
  unfold seq_M at 1. rewrite Hprefix.
  cbn [map for_each]. unfold seq_M.
  rewrite assertion_fails_below_counter by (rewrite Hnfi1; exact Hlt). reflexivity.
Qed.

(** The scenario of three 2 x 2 patches on a 3 x 3 image with [mean]. *)
Example three_patches_on_three_by_three :
  match accumulate "mean"
          [mkWindow (mkSlice 0 2) (mkSlice 0 2) (full 2 2 1);
           mkWindow (mkSlice 0 2) (mkSlice 1 3) (full 2 2 2);
           mkWindow (mkSlice 1 3) (mkSlice 0 2) (full 2 2 3)]
          (zeros 3 3) (zeros 3 3) with
  | Ok (a, n) =>
      to_rows (normalise_anomaly_map a n) = [[1; 3 # 2; 2]; [2; 2; 2]; [3; 3; 0]]%Q
  | Raise _ => False
  end.
Proof. vm_compute. reflexivity. Qed.


(** ** The loop against the aggregation image by image *)

Lemma bind_Ok {A B : Type} (r : result A) (k : A -> result B) b :
  bind r k = Ok b -> exists a, r = Ok a /\ k a = Ok b.
Proof. destruct r as [a|err]; [|discriminate]. intros H. now exists a. Qed.

Lemma finalised_image_parts e ds which_set k mode a n s f :
  finalised_image e ds which_set k mode a n s = Ok f ->
  exists l filename,
    get_label_image ds k = Ok l
    /\ (save_anomaly_maps e = true -> py_index (image_list ds) k = Ok filename)
    /\ f = finalised_state e which_set k mode filename a n l s.
Proof.
  unfold finalised_image. intros H.
  apply bind_Ok in H as (l & Hl & H). apply bind_Ok in H as (filename & Hf & H).
  injection H as <-. exists l, filename. split; [exact Hl|]. split; [|reflexivity].
  intros Hs. now rewrite Hs in Hf.
Qed.

Lemma image_maps_parts e ds k p ps m :
  image_maps e ds k (p :: ps) = Ok m ->
  exists size a1 n1,
    py_index (image_sizes ds) k = Ok size
    /\ update_maps (window_aggregation_method e)
                   (zeros (snd (fst size)) (snd size)) (zeros (snd (fst size)) (snd size))
                   (p_rows p) (p_cols p) (score_of e p) = Ok (a1, n1)
    /\ accumulate (window_aggregation_method e) (map (window_of e) ps) a1 n1 = Ok m.
Proof.
  unfold image_maps. intros H. apply bind_Ok in H as (size & Hsize & H).
  cbn [map accumulate window_of w_rows w_cols w_score] in H.
  apply bind_Ok in H as ([a1 n1] & Hup & H).
  exists size, a1, n1. repeat split; assumption.
Qed.

(** The rest of a group after its first patch. *)
Lemma rest_of_group e ds which_set ps k a1 n1 m lbl stats tr :
  forallb (fun p => (p_image_idx p =? k)%Z) ps = true ->
  accumulate (window_aggregation_method e) (map (window_of e) ps) a1 n1 = Ok m ->
  for_each (process_patch e ds which_set) (items e ps)
           (mkLocals k (Some k) (Some a1) (Some n1) lbl stats tr)
  = (Ok tt, mkLocals k (Some k) (Some (fst m)) (Some (snd m)) lbl stats tr).
Proof.
  intros Hidx Hacc. destruct ps as [|q ps'].
  - cbn in Hacc. injection Hacc as <-. reflexivity.
  - destruct m as [a' n']. cbn [fst snd].
    apply (same_image_loop e ds which_set (q :: ps')
             (mkLocals k (Some k) (Some a1) (Some n1) lbl stats tr) a1 n1 a' n');
      [discriminate| |reflexivity|reflexivity|exact Hacc].
    apply Forall_forall. intros p Hp. cbn [num_finished_images].
    rewrite forallb_forall in Hidx. apply Z.eqb_eq. now apply Hidx.
Qed.

Lemma loop_groups e ds which_set :
  supported_measure (measure_of_anomaly e) = true ->
  forall gs k a n s s',
    (0 <= k)%Z ->
    indexed (k + 1) gs = true ->
    reference_from e ds which_set k a n s gs = Ok s' ->
    for_each (process_patch e ds which_set) (items e (concat gs))
             (mkLocals k (Some k) (Some a) (Some n)
                       (label_image s) (stats_dict s) (trace s))
    = (Ok tt, s').
Proof.
  intros Hm. induction gs as [|g gs IH]; intros k a n s s' Hk Hidx Href.
  - cbn in Href. injection Href as <-. reflexivity.
  - cbn [indexed] in Hidx. apply andb_true_iff in Hidx as [Hg Hidx].
    apply andb_true_iff in Hg as [Hne Hg].
    destruct g as [|p ps]; [discriminate|]. clear Hne.
    cbn [forallb] in Hg. apply andb_true_iff in Hg as [Hp Hps]. apply Z.eqb_eq in Hp.
    cbn [reference_from] in Href.
    apply bind_Ok in Href as (f & Hf & Href).
    apply bind_Ok in Href as (m & Himg & Href).
    apply finalised_image_parts in Hf as (l & filename & Hl & Hfile & ->).
    apply image_maps_parts in Himg as (size & a1 & n1 & Hsize & Hup & Hacc).
    cbn [concat]. unfold items. rewrite map_app. fold (items e (p :: ps)).
    fold (items e (concat gs)). rewrite for_each_app. unfold seq_M at 1.
    cbn [items map for_each]. unfold seq_M at 1.
    rewrite (process_patch_next_image e ds which_set p (score_of e p)
               (mkLocals k (Some k) (Some a) (Some n)
                         (label_image s) (stats_dict s) (trace s))
               k a n l filename
               size a1 n1 Hk eq_refl Hp Hm eq_refl eq_refl Hl Hfile Hsize Hup).
    cbv zeta. fold (items e ps).
    rewrite (rest_of_group e ds which_set ps (k + 1) a1 n1 m _ _ _ Hps Hacc).
    apply (IH (k + 1)%Z (fst m) (snd m)
              (finalised_state e which_set k IfExists filename a n l s) s');
      [lia|exact Hidx|exact Href].
Qed.

(** The loop over a stream that goes through the images 0, 1, ... in order
    computes what the aggregation image by image computes: each image but
    the last has been finalised from the maps accumulated from its own
    patches, and the maps of the last image are in progress. *)
Theorem stream_is_aggregated_image_by_image e ds which_set g gs s s' :
  supported_measure (measure_of_anomaly e) = true ->
  indexed 0 (g :: gs) = true ->
  reference e ds which_set g gs (round_start s) = Ok s' ->
  for_each (process_patch e ds which_set) (items e (concat (g :: gs))) (round_start s)
  = (Ok tt, s').
Proof.
  intros Hm Hidx Href.
  cbn [indexed] in Hidx. apply andb_true_iff in Hidx as [Hg Hidx].
  apply andb_true_iff in Hg as [Hne Hg].
  destruct g as [|p ps]; [discriminate|]. clear Hne.
  cbn [forallb] in Hg. apply andb_true_iff in Hg as [Hp Hps]. apply Z.eqb_eq in Hp.
  unfold reference in Href. apply bind_Ok in Href as (m & Himg & Href).
  apply image_maps_parts in Himg as (size & a1 & n1 & Hsize & Hup & Hacc).
  cbn [concat]. unfold items. rewrite map_app. fold (items e (p :: ps)).
  fold (items e (concat gs)). rewrite for_each_app. unfold seq_M at 1.
  cbn [items map for_each]. unfold seq_M at 1.
  rewrite (process_patch_first_image e ds which_set p (score_of e p) (round_start s)
             size a1 n1 eq_refl Hp Hsize Hup).
  fold (items e ps).
  rewrite (rest_of_group e ds which_set ps 0 a1 n1 m _ _ _ Hps Hacc).
  apply (loop_groups e ds which_set Hm gs 0%Z (fst m) (snd m) (round_start s) s');
    [lia|exact Hidx|exact Href].
Qed.

Example stream_is_aggregated_image_by_image_example :
  exists s',
    reference ordered_experiment two_image_dataset "val"
              [row_patch 0 5 6] [[row_patch 1 7 9]] (round_start initial_locals) = Ok s'
    /\ for_each (process_batch ordered_experiment two_image_dataset "val")
                (val_data_loader ordered_experiment) (round_start initial_locals)
       = (Ok tt, s')
    /\ saved_maps (trace s') = [("val", "a.png", [[5; 6]]%Q)]
    /\ option_map to_rows (anomaly_map s') = Some [[7; 9]]%Q.
Proof.
  destruct (reference ordered_experiment two_image_dataset "val"
              [row_patch 0 5 6] [[row_patch 1 7 9]] (round_start initial_locals))
    as [s'|err] eqn:Href; [|vm_compute in Href; discriminate].
  exists s'. split; [reflexivity|]. split.
  - rewrite batches_items by reflexivity.
    now apply (stream_is_aggregated_image_by_image ordered_experiment two_image_dataset "val"
                 [row_patch 0 5 6] [[row_patch 1 7 9]]).
  - vm_compute in Href. injection Href as <-. split; reflexivity.
Qed.

(** ** What the saved and the evaluated map hold *)

(** Without resizing the saved map is the normalised map ([mean]) or the
    accumulated map itself (any other method). *)
Lemma saved_map_without_resize e a n l :
  resize_anomaly_maps e = false ->
  saved_map e a n l
  = if String.eqb (window_aggregation_method e) "mean"
    then normalise_anomaly_map a n else a.
Proof. intros Hr. unfold saved_map, resized, mean_normalised. now rewrite Hr. Qed.

(** The margin crop removes [margins] pixels at both ends of both axes, from
    the map and from a label of the same shape alike. *)
Lemma margin_crop_shape e (m0 m1 : nat) a l :
  AD_margins e = Some (Z.of_nat m0, Z.of_nat m1) ->
  t_height l = t_height a -> t_width l = t_width a ->
  2 * m0 <= t_height a -> 2 * m1 <= t_width a ->
  t_height (margin_cropped e a a) = t_height a - 2 * m0
  /\ t_width (margin_cropped e a a) = t_width a - 2 * m1
  /\ t_height (margin_cropped e a l) = t_height (margin_cropped e a a)
  /\ t_width (margin_cropped e a l) = t_width (margin_cropped e a a)
  /\ forall i j,
      t_val (margin_cropped e a a) i j = t_val a (m0 + i) (m1 + j)
      /\ t_val (margin_cropped e a l) i j = t_val l (m0 + i) (m1 + j).
Proof.
  intros Hmargin Hh Hw Hm0 Hm1. unfold margin_cropped. rewrite Hmargin.
  unfold margin_slices, slice_view, slice_len, slice_lo, slice_index.
  cbn [fst snd sl_start sl_stop t_height t_width t_val]. rewrite Hh, Hw.
  assert (E0 : forall m n : nat, 2 * m <= n ->
            Z.to_nat (if (Z.of_nat m <? 0)%Z
                      then Z.max (Z.of_nat m + Z.of_nat n) 0
                      else Z.min (Z.of_nat m) (Z.of_nat n)) = m).
  { intros m k Hk. destruct (Z.ltb_spec (Z.of_nat m) 0); lia. }
  assert (E1 : forall m n : nat, 2 * m <= n ->
            Z.to_nat (if (Z.of_nat n - Z.of_nat m <? 0)%Z
                      then Z.max (Z.of_nat n - Z.of_nat m + Z.of_nat n) 0
                      else Z.min (Z.of_nat n - Z.of_nat m) (Z.of_nat n)) = n - m).
  { intros m k Hk. destruct (Z.ltb_spec (Z.of_nat k - Z.of_nat m) 0); lia. }
  rewrite !E0, !E1 by assumption.
  repeat split; lia.
Qed.

(** * Further properties of the anomaly-detection run *)

(** ** A round against the computation image by image *)

Lemma reference_from_in_progress e ds which_set gs : forall k a n s s',
  reference_from e ds which_set k a n s gs = Ok s' ->
  exists k' a' n',
    current_image_idx s' = Some k' /\ anomaly_map s' = Some a'
    /\ normalisation_map s' = Some n'
    /\ k' = (k + Z.of_nat (length gs))%Z.
Proof.
  induction gs as [|g gs IH]; intros k a n s s' Href.
  - cbn in Href. injection Href as <-. exists k, a, n. cbn. repeat split. lia.
  - cbn [reference_from] in Href.
    apply bind_Ok in Href as (f & _ & Href).
    apply bind_Ok in Href as (m & _ & Href).
    destruct (IH _ _ _ _ _ Href) as (k' & a' & n' & Hk & Ha & Hn & ->).
    exists (k + 1 + Z.of_nat (length gs))%Z, a', n'. repeat split; try assumption.
    cbn [length]. lia.
Qed.

Lemma round_is_computed_image_by_image_helper
    (e : experiment) (which_set : string) (g : list patch) (gs : list (list patch))
    (s s2 : locals) :
  supported_measure (measure_of_anomaly e) = true ->
  image_list (snd (data_of e which_set)) <> [] ->
  concat (fst (data_of e which_set)) = concat (g :: gs) ->
  indexed 0 (g :: gs) = true ->
  reference_round e (snd (data_of e which_set)) which_set g gs s = Ok s2 ->
  run_set e which_set s = (print_means ;> ret true) s2.
Proof.
  intros Hm Himages Hstream Hidx Href.
  unfold reference_round in Href. apply bind_Ok in Href as (s1 & Hs1 & Hlast).
  pose proof Hs1 as Hshape. unfold reference in Hshape.
  apply bind_Ok in Hshape as (m & _ & Hshape).
  apply reference_from_in_progress in Hshape as (k & a & n & Hk & Ha & Hn & _).
  rewrite Hk, Ha, Hn in Hlast.
  apply finalised_image_parts in Hlast as (l & filename & Hl & Hf & ->).
  unfold run_set.
  destruct (image_list (snd (data_of e which_set))) as [|name names] eqn:Elist;
    [congruence|]. cbn [length Nat.eqb].
  unfold seq_M at 1. unfold modify at 1.
  unfold seq_M at 1. unfold modify at 1.
  change (set_stats_dict [] (set_num_finished_images (-1) s)) with (round_start s).
  unfold seq_M at 1.
  rewrite (batches_items e _ which_set _ _ Hm), Hstream.
  rewrite (stream_is_aggregated_image_by_image e _ which_set g gs s s1 Hm Hidx Hs1).
  unfold seq_M at 1.
  rewrite <- Elist in Hf.
  now rewrite (finalise_last_image_spec e _ which_set k s1 a n l filename Hm Ha Hn Hk Hl Hf).
Qed.

(** X1. When the stream delivers the patches of the images 0, 1, ... group
    by group, a round of [run_experiment] computes what the computation
    image by image computes: every image is finalised from the maps
    accumulated from its own patches, the last one after the loop, and then
    the mean is printed. *)
Theorem round_is_computed_image_by_image
    (e : experiment) (which_set : string) (g : list patch) (gs : list (list patch))
    (s s2 : locals) :
  supported_measure (measure_of_anomaly e) = true ->
  image_list (snd (data_of e which_set)) <> [] ->
  concat (fst (data_of e which_set)) = concat (g :: gs) ->
  indexed 0 (g :: gs) = true ->
  reference_round e (snd (data_of e which_set)) which_set g gs s = Ok s2 ->
  run_set e which_set s = (print_means ;> ret true) s2.
Proof.
  apply round_is_computed_image_by_image_helper.
Qed.

Lemma round_is_computed_image_by_image_witness :
  exists s2,
    reference_round ordered_experiment two_image_dataset "val"
                    [row_patch 0 5 6] [[row_patch 1 7 9]] initial_locals = Ok s2
    /\ run_set ordered_experiment "val" initial_locals = (print_means ;> ret true) s2
    /\ saved_maps (trace s2)
       = [("val", "a.png", [[5; 6]]%Q); ("val", "b.png", [[7; 9]]%Q)].
Proof.
  destruct (reference_round ordered_experiment two_image_dataset "val"
              [row_patch 0 5 6] [[row_patch 1 7 9]] initial_locals)
    as [s2|err] eqn:Href; [|vm_compute in Href; discriminate].
  exists s2. split; [reflexivity|]. split.
  - assert (Himages : image_list (snd (data_of ordered_experiment "val")) <> [])
      by discriminate.
    exact (round_is_computed_image_by_image ordered_experiment "val"
             [row_patch 0 5 6] [[row_patch 1 7 9]] initial_locals s2
             eq_refl Himages eq_refl eq_refl Href).
  - vm_compute in Href. injection Href as <-. reflexivity.
Defined.

(** ** Labels of one class throughout *)

Lemma slice_index_le k n : slice_index k n <= n.
Proof. unfold slice_index. destruct (Z.ltb_spec k 0); lia. Qed.

Lemma constant_label_slice_view l rs cs c :
  constant_label l c -> constant_label (slice_view l rs cs) c.
Proof.
  intros Hc i j Hi Hj. cbn [slice_view t_height t_width t_val] in *.
  unfold slice_len, slice_lo in *.
  pose proof (slice_index_le (sl_stop rs) (t_height l)).
  pose proof (slice_index_le (sl_stop cs) (t_width l)).
  apply Hc; lia.
Qed.

Lemma evaluated_label_one_class e a n l :
  constant_label l 0 \/ constant_label l 1 ->
  constant_label (evaluated_label e a n l) 0 \/ constant_label (evaluated_label e a n l) 1.
Proof.
  unfold evaluated_label, margin_cropped. destruct (AD_margins e) as [margins|]; [|tauto].
  intros [H|H]; [left|right]; now apply constant_label_slice_view.
Qed.

Lemma non_nan_snoc_undefined stats : non_nan (stats ++ [None]) = non_nan stats.
Proof. unfold non_nan. rewrite flat_map_app. cbn. now rewrite app_nil_r. Qed.

Lemma finalised_image_undefined e ds which_set k mode a n s f :
  (forall i l, get_label_image ds i = Ok l -> constant_label l 0 \/ constant_label l 1) ->
  finalised_image e ds which_set k mode a n s = Ok f ->
  non_nan (stats_dict f) = non_nan (stats_dict s).
Proof.
  intros Hone Hf. apply finalised_image_parts in Hf as (l & filename & Hl & _ & ->).
  unfold finalised_state. cbn [stats_dict].
  rewrite (get_aucroc_single_class _ _ (evaluated_label_one_class e a n l (Hone _ _ Hl))).
  apply non_nan_snoc_undefined.
Qed.

Lemma reference_from_undefined e ds which_set gs : forall k a n s s',
  (forall i l, get_label_image ds i = Ok l -> constant_label l 0 \/ constant_label l 1) ->
  reference_from e ds which_set k a n s gs = Ok s' ->
  non_nan (stats_dict s') = non_nan (stats_dict s).
Proof.
  induction gs as [|g gs IH]; intros k a n s s' Hone Href.
  - cbn in Href. now injection Href as <-.
  - cbn [reference_from] in Href.
    apply bind_Ok in Href as (f & Hf & Href).
    apply bind_Ok in Href as (m & _ & Href).
    rewrite (IH _ _ _ _ _ Hone Href).
    exact (finalised_image_undefined e ds which_set k IfExists a n s f Hone Hf).
Qed.

(** X2. When no label of the set holds both classes, every image is still
    aggregated, saved and given its statistics row, and then the mean over
    the defined agreement values divides by zero: the round ends in a
    [ZeroDivisionError]. *)
Theorem one_class_labels_end_in_division_by_zero
    (e : experiment) (which_set : string) (g : list patch) (gs : list (list patch))
    (s s2 : locals) :
  supported_measure (measure_of_anomaly e) = true ->
  image_list (snd (data_of e which_set)) <> [] ->
  concat (fst (data_of e which_set)) = concat (g :: gs) ->
  indexed 0 (g :: gs) = true ->
  reference_round e (snd (data_of e which_set)) which_set g gs s = Ok s2 ->
  (forall i l, get_label_image (snd (data_of e which_set)) i = Ok l ->
               constant_label l 0 \/ constant_label l 1) ->
  run_set e which_set s = (Raise ZeroDivisionError, s2)
  /\ length (stats_dict s2) = S (length gs)
  /\ non_nan (stats_dict s2) = [].
Proof.
  intros Hm Himages Hstream Hidx Href Hone.
  assert (Hnan : non_nan (stats_dict s2) = []).
  { unfold reference_round in Href. apply bind_Ok in Href as (s1 & Hs1 & Hlast).
    destruct (current_image_idx s1) as [k|]; [|discriminate].
    destruct (anomaly_map s1) as [a|]; [|discriminate].
    destruct (normalisation_map s1) as [n|]; [|discriminate].
    rewrite (finalised_image_undefined _ _ _ _ _ _ _ _ _ Hone Hlast).
    unfold reference in Hs1. apply bind_Ok in Hs1 as (m & _ & Hs1).
    now rewrite (reference_from_undefined _ _ _ _ _ _ _ _ _ Hone Hs1). }
  assert (Hlen : length (stats_dict s2) = S (length gs)).
  { unfold reference_round in Href. apply bind_Ok in Href as (s1 & Hs1 & Hlast).
    destruct (current_image_idx s1) as [k|]; [|discriminate].
    destruct (anomaly_map s1) as [a|]; [|discriminate].
    destruct (normalisation_map s1) as [n|]; [|discriminate].
    apply finalised_image_parts in Hlast as (l & filename & _ & _ & ->).
    unfold finalised_state. cbn [stats_dict]. rewrite length_app. cbn [length].
    unfold reference in Hs1. apply bind_Ok in Hs1 as (m & _ & Hs1).
    assert (Hgen : forall gs k a n s s', reference_from e (snd (data_of e which_set))
                     which_set k a n s gs = Ok s' ->
                   length (stats_dict s') = length (stats_dict s) + length gs).
    { clear. induction gs as [|g' gs IH]; intros k a n s s' Href.
      - cbn in Href. injection Href as <-. cbn. lia.
      - cbn [reference_from] in Href.
        apply bind_Ok in Href as (f & Hf & Href).
        apply bind_Ok in Href as (m & _ & Href).
        rewrite (IH _ _ _ _ _ Href).
        apply finalised_image_parts in Hf as (l & filename & _ & _ & ->).
        unfold finalised_state. cbn [stats_dict length]. rewrite length_app. cbn. lia. }
    rewrite (Hgen _ _ _ _ _ _ Hs1). cbn. lia. }
  split; [|split; assumption].
  rewrite (round_is_computed_image_by_image_helper e which_set g gs s s2
             Hm Himages Hstream Hidx Href).
  unfold seq_M. now rewrite (print_means_all_undefined s2 Hnan).
Qed.

Lemma one_class_labels_end_in_division_by_zero_witness :
  exists s2,
    run_set normal_only_experiment "val" initial_locals = (Raise ZeroDivisionError, s2)
    /\ saved_maps (trace s2)
       = [("val", "a.png", [[5; 6]]%Q); ("val", "b.png", [[7; 9]]%Q)]
    /\ stats_dict s2 = [None; None].
Proof.
  destruct (reference_round normal_only_experiment normal_only_dataset "val"
              [row_patch 0 5 6] [[row_patch 1 7 9]] initial_locals)
    as [s2|err] eqn:Href; [|vm_compute in Href; discriminate].
  exists s2.
  assert (Himages : image_list (snd (data_of normal_only_experiment "val")) <> [])
    by discriminate.
  assert (Hone : forall i l,
            get_label_image (snd (data_of normal_only_experiment "val")) i = Ok l ->
            constant_label l 0 \/ constant_label l 1).
  { intros i l. cbn. unfold py_index. cbn [length].
    destruct (i <? 0)%Z; destruct (_ <? 0)%Z; try discriminate;
      (destruct (Z.to_nat _) as [|[|[|k]]]; cbn; intros Hl; try discriminate;
       injection Hl as <-; [left|right]; intros [|[|r]] [|[|[|c]]] Hr Hc;
       cbn in *; try lia; reflexivity). }
  destruct (one_class_labels_end_in_division_by_zero normal_only_experiment "val"
              [row_patch 0 5 6] [[row_patch 1 7 9]] initial_locals s2
              eq_refl Himages eq_refl eq_refl Href Hone) as (Hrun & _ & _).
  split; [exact Hrun|].
  vm_compute in Href. injection Href as <-. split; reflexivity.
Defined.

(** ** Empty inputs *)

(** X3. A set without images ends the whole run at once (the [return] of
    line 451): when the validation set has no images the test set is not
    looked at, whatever it holds. *)
Theorem empty_validation_set_ends_the_run (e : experiment) (s : locals) :
  image_list (val_dataset e) = [] ->
  run_experiment e s = (Ok tt, add_event PrintNoImages (round_start s))
  /\ saved_maps (trace (snd (run_experiment e s))) = saved_maps (trace s)
  /\ statistics_rows (trace (snd (run_experiment e s))) = statistics_rows (trace s).
Proof.
  intros Hempty.
  assert (Hrun : run_experiment e s = (Ok tt, add_event PrintNoImages (round_start s))).
  { unfold run_experiment, run_set, data_of. cbn [String.eqb Ascii.eqb Bool.eqb fst snd].
    rewrite Hempty. reflexivity. }
  split; [exact Hrun|]. rewrite Hrun. cbn [snd add_event round_start trace].
  unfold saved_maps, statistics_rows. rewrite !flat_map_app. cbn.
  now rewrite !app_nil_r.
Qed.

Lemma empty_validation_set_ends_the_run_witness :
  run_experiment test_only_experiment initial_locals
  = (Ok tt, add_event PrintNoImages (round_start initial_locals)).
Proof.
  exact (proj1 (empty_validation_set_ends_the_run test_only_experiment initial_locals
                  eq_refl)).
Defined.

(** X4. A set with images but without a single batch: in the first round
    no map and no image index has been bound when the passage for the last
    image starts, and the run ends in an [UnboundLocalError] before anything
    is written. *)
Theorem no_batches_raise_unbound_local (e : experiment) (which_set : string) (s : locals) :
  fst (data_of e which_set) = [] ->
  image_list (snd (data_of e which_set)) <> [] ->
  anomaly_map s = None ->
  current_image_idx s = None ->
  run_set e which_set s = (Raise UnboundLocalError, round_start s).
Proof.
  intros Hloader Himages Ha Hc. unfold run_set. rewrite Hloader.
  destruct (image_list (snd (data_of e which_set))) as [|name names]; [congruence|].
  cbn [length Nat.eqb for_each].
  unfold finalise_last_image, normalise_step.
  destruct (String.eqb (window_aggregation_method e) "mean");
    unfold round_start; run_monad; cbn; rewrite ?Ha, ?Hc; reflexivity.
Qed.

Lemma no_batches_raise_unbound_local_witness :
  run_set no_batches_experiment "val" initial_locals
  = (Raise UnboundLocalError, round_start initial_locals).
Proof.
  assert (Himages : image_list (snd (data_of no_batches_experiment "val")) <> [])
    by discriminate.
  exact (no_batches_raise_unbound_local no_batches_experiment "val" initial_locals
           eq_refl Himages eq_refl eq_refl).
Defined.

(** ** The order of the patches of an image *)

Lemma filter_permutation {A : Type} (f : A -> bool) l1 l2 :
  Permutation l1 l2 -> Permutation (List.filter f l1) (List.filter f l2).
Proof.
  induction 1 as [|x l1 l2 _ IH|x y l|l1 l2 l3 _ IH1 _ IH2]; cbn.
  - constructor.
  - destruct (f x); [now constructor|exact IH].
  - destruct (f x), (f y); try reflexivity. apply perm_swap.
  - now transitivity (List.filter f l2).
Qed.

Lemma contributions_permutation H W ws ws' i j :
  Permutation ws ws' ->
  Permutation (contributions H W ws i j) (contributions H W ws' i j).
Proof.
  intros Hp. unfold contributions. apply Permutation_map. now apply filter_permutation.
Qed.

Lemma fold_left_Qmax_permutation l1 l2 acc :
  Permutation l1 l2 -> (fold_left Qmax l1 acc == fold_left Qmax l2 acc)%Q.
Proof.
  intros Hp.
  destruct (fold_left_Qmax_greatest l1 acc) as [Hge1 (x1 & Hin1 & Hx1)].
  destruct (fold_left_Qmax_greatest l2 acc) as [Hge2 (x2 & Hin2 & Hx2)].
  assert (Hin : forall x, In x (acc :: l1) <-> In x (acc :: l2)).
  { intros x. cbn. split; intros [E|Hx]; auto; right.
    - now apply (Permutation_in _ Hp).
    - now apply (Permutation_in _ (Permutation_sym Hp)). }
  apply Qle_antisym.
  - rewrite Hx1. apply Hge2. now apply Hin.
  - rewrite Hx2. apply Hge1. now apply Hin.
Qed.

Lemma pixel_fold_min_permutation l1 l2 :
  Permutation l1 l2 ->
  (fst (pixel_fold "min" 0 0 l1) == fst (pixel_fold "min" 0 0 l2))%Q.
Proof.
  intros Hp. destruct l1 as [|c1 l1], l2 as [|c2 l2].
  - reflexivity.
  - now apply Permutation_nil in Hp.
  - now apply Permutation_sym, Permutation_nil in Hp.
  - rewrite !pixel_fold_min_first.
    destruct (fold_left_Qmin_least l1 c1) as [Hle1 (x1 & Hin1 & Hx1)].
    destruct (fold_left_Qmin_least l2 c2) as [Hle2 (x2 & Hin2 & Hx2)].
    apply Qle_antisym.
    + rewrite Hx2. apply Hle1. now apply (Permutation_in _ (Permutation_sym Hp)).
    + rewrite Hx1. apply Hle2. now apply (Permutation_in _ Hp).
Qed.

Lemma all_fit_permutation H W ws ws' :
  Permutation ws ws' -> all_fit H W ws = true -> all_fit H W ws' = true.
Proof.
  intros Hp. unfold all_fit. rewrite !forallb_forall. intros Hall w Hw.
  apply Hall. now apply (Permutation_in _ (Permutation_sym Hp)).
Qed.

(** X5. With [min] and with [max] the maps of an image do not depend on
    the order in which its patches arrive: delivered in any other order,
    the same windows give the same score at every pixel.  The count is the
    same under every method.  (With [mean] the scores of the patches are
    added in the order of the stream in 32-bit floating point, whose
    rounding is not modelled: nothing is said of that sum.) *)
Theorem min_and_max_are_order_independent
    (method : string) (H W : nat) (ws ws' : list window) :
  Permutation ws ws' ->
  all_fit H W ws = true ->
  exists a n a' n',
    accumulate method ws (zeros H W) (zeros H W) = Ok (a, n)
    /\ accumulate method ws' (zeros H W) (zeros H W) = Ok (a', n')
    /\ forall i j,
        (t_val n i j == t_val n' i j)%Q
        /\ (method = "min" \/ method = "max" -> (t_val a i j == t_val a' i j)%Q).
Proof.
  intros Hp Hfit.
  pose proof (all_fit_permutation H W ws ws' Hp Hfit) as Hfit'.
  destruct (zeros_accumulate_pixel method H W ws (or_intror Hfit))
    as (a & n & Hacc & _ & _ & Hval).
  destruct (zeros_accumulate_pixel method H W ws' (or_intror Hfit'))
    as (a' & n' & Hacc' & _ & _ & Hval').
  exists a, n, a', n'. split; [exact Hacc|]. split; [exact Hacc'|].
  intros i j.
  pose proof (contributions_permutation H W ws ws' i j Hp) as Hcs.
  split.
  - rewrite (coverage_count method H W ws a n (or_intror Hfit) Hacc i j).
    rewrite (coverage_count method H W ws' a' n' (or_intror Hfit') Hacc' i j).
    now rewrite (Permutation_length Hcs).
  - intros Hmethod.
    change (t_val a i j) with (fst (t_val a i j, t_val n i j)).
    change (t_val a' i j) with (fst (t_val a' i j, t_val n' i j)).
    rewrite Hval, Hval'. destruct Hmethod as [->| ->].
    + now apply pixel_fold_min_permutation.
    + rewrite !pixel_fold_max. now apply fold_left_Qmax_permutation.
Qed.

Lemma min_and_max_are_order_independent_witness :
  (exists a n a' n',
      accumulate "min" corner_windows (zeros 2 2) (zeros 2 2) = Ok (a, n)
      /\ accumulate "min" (rev corner_windows) (zeros 2 2) (zeros 2 2) = Ok (a', n')
      /\ forall i j, (t_val n i j == t_val n' i j)%Q /\ (t_val a i j == t_val a' i j)%Q)
  /\ (exists a n a' n',
         accumulate "max" corner_windows (zeros 2 2) (zeros 2 2) = Ok (a, n)
         /\ accumulate "max" (rev corner_windows) (zeros 2 2) (zeros 2 2) = Ok (a', n')
         /\ forall i j, (t_val n i j == t_val n' i j)%Q /\ (t_val a i j == t_val a' i j)%Q).
Proof.
  split.
  - destruct (min_and_max_are_order_independent "min" 2 2 corner_windows
                (rev corner_windows) (Permutation_rev _) eq_refl)
      as (a & n & a' & n' & Hacc & Hacc' & Hpix).
    exists a, n, a', n'. split; [exact Hacc|]. split; [exact Hacc'|].
    intros i j. destruct (Hpix i j) as [Hn Ha]. split; [exact Hn|]. apply Ha. now left.
  - destruct (min_and_max_are_order_independent "max" 2 2 corner_windows
                (rev corner_windows) (Permutation_rev _) eq_refl)
      as (a & n & a' & n' & Hacc & Hacc' & Hpix).
    exists a, n, a', n'. split; [exact Hacc|]. split; [exact Hacc'|].
    intros i j. destruct (Hpix i j) as [Hn Ha]. split; [exact Hn|]. apply Ha. now right.
Defined.

(** ** Patches that reach beyond the image *)

Lemma overhang_does_not_fit (sl : pyslice) (extent len other other_len : nat) :
  overhangs sl extent len ->
  ((len =? slice_len sl extent) || (len =? 1)) = false.
Proof.
  intros (Hstart & Hstop & Hlen).
  unfold slice_len, slice_index.
  destruct (Z.ltb_spec (sl_stop sl) 0); [lia|].
  destruct (Z.ltb_spec (sl_start sl) 0); [lia|].
  apply orb_false_iff. split; apply Nat.eqb_neq; lia.
Qed.

(** X6. A patch whose placement starts inside the image and ends beyond
    its last row or column is not cropped to the image: the slice is
    shorter than the score map, and with [mean], [min] or [max] the update
    raises a [RuntimeError]. *)
Theorem patch_beyond_the_image_raises
    (method : string) (a n : tensor) (rs cs : pyslice) (p : tensor) :
  supported_method method = true ->
  overhangs rs (t_height a) (t_height p) \/ overhangs cs (t_width a) (t_width p) ->
  update_maps method a n rs cs p = Raise RuntimeError.
Proof.
  intros Hm Hover.
  assert (Hfit : broadcastable p (slice_len rs (t_height a)) (slice_len cs (t_width a))
                 = false).
  { unfold broadcastable. destruct Hover as [Hr|Hc].
    - now rewrite (overhang_does_not_fit rs _ _ 0 0 Hr).
    - rewrite (overhang_does_not_fit cs _ _ 0 0 Hc). apply andb_false_r. }
  unfold update_maps, aggregate_patch. cbn [slice_view t_height t_width].
  rewrite Hfit. unfold supported_method in Hm.
  destruct (String.eqb method "mean"); [reflexivity|].
  destruct (String.eqb method "min"); [reflexivity|].
  destruct (String.eqb method "max"); [reflexivity|discriminate].
Qed.

Lemma patch_beyond_the_image_raises_witness :
  update_maps "mean" (zeros 3 3) (zeros 3 3) (mkSlice 2 4) (mkSlice 0 2) (full 2 2 1)
  = Raise RuntimeError.
Proof.
  apply patch_beyond_the_image_raises; [reflexivity|].
  left. unfold overhangs, zeros, full. cbn. lia.
Defined.

(** ** The pair handed to the agreement computation *)

(** X7. When the maps are resized, the map and the label handed to the
    agreement computation have the same shape, whatever the margins are and
    whatever size the accumulated map had. *)
Theorem resized_map_and_label_have_one_shape (e : experiment) (a n l : tensor) :
  resize_anomaly_maps e = true ->
  t_height (evaluated_map e a n l) = t_height (evaluated_label e a n l)
  /\ t_width (evaluated_map e a n l) = t_width (evaluated_label e a n l)
  /\ length (flatten (evaluated_map e a n l)) = length (flatten (evaluated_label e a n l)).
Proof.
  intros Hr.
  assert (Hshape : t_height (evaluated_map e a n l) = t_height (evaluated_label e a n l)
                   /\ t_width (evaluated_map e a n l) = t_width (evaluated_label e a n l)).
  { unfold evaluated_map, evaluated_label, saved_map, resized, margin_cropped.
    rewrite Hr. destruct (AD_margins e) as [margins|]; cbn; split; reflexivity. }
  destruct Hshape as [Hh Hw]. split; [exact Hh|]. split; [exact Hw|].
  assert (Hlen : forall t, length (flatten t) = t_height t * t_width t).
  { intros t. unfold flatten.
    assert (Hrows : forall rows : list nat,
              length (concat (map (fun i => map (fun j => t_val t i j) (seq 0 (t_width t)))
                                  rows))
              = length rows * t_width t).
    { induction rows as [|r rows IH]; [reflexivity|].
      cbn [map concat length]. rewrite length_app, length_map, length_seq, IH. lia. }
    now rewrite Hrows, length_seq. }
  rewrite !Hlen. now rewrite Hh, Hw.
Qed.

Lemma resized_map_and_label_have_one_shape_witness :
  t_height (evaluated_map resizing_experiment (full 2 2 4) (full 2 2 1) margin_label)
  = t_height (evaluated_label resizing_experiment (full 2 2 4) (full 2 2 1) margin_label)
  /\ t_width (evaluated_map resizing_experiment (full 2 2 4) (full 2 2 1) margin_label)
     = t_width (evaluated_label resizing_experiment (full 2 2 4) (full 2 2 1) margin_label)
  /\ length (flatten (evaluated_map resizing_experiment (full 2 2 4) (full 2 2 1)
                        margin_label))
     = length (flatten (evaluated_label resizing_experiment (full 2 2 4) (full 2 2 1)
                          margin_label)).
Proof.
  exact (resized_map_and_label_have_one_shape resizing_experiment (full 2 2 4) (full 2 2 1)
           margin_label eq_refl).
Defined.

(** ** A patch of an earlier image *)

(** X8. When the stream has gone through the images in order and a patch
    of an image before the current one follows, the round ends in an
    [AssertionError] at that patch: the images completed so far have their
    statistics row, the image in progress has none, and nothing of the rest
    of the stream is processed. *)
Theorem earlier_image_after_in_order_prefix_aborts
    (e : experiment) (which_set : string) (ps : list patch) (q : patch)
    (rest : list patch) (s : locals) :
  supported_measure (measure_of_anomaly e) = true ->
  image_list (snd (data_of e which_set)) <> [] ->
  concat (fst (data_of e which_set)) = ps ++ q :: rest ->
  ps <> [] ->
  in_image_order ps = true ->
  forallb (patch_ready e (snd (data_of e which_set))) ps = true ->
  (p_image_idx q < last_image 0 ps)%Z ->
  exists s1,
    run_set e which_set s = (Raise AssertionError, s1)
    /\ num_finished_images s1 = last_image 0 ps
    /\ current_image_idx s1 = Some (p_image_idx q)
    /\ statistics_rows (trace s1)
       = statistics_rows (trace s) ++ rows_between which_set 0 (last_image 0 ps).
Proof.
  intros Hm Himages Hloader Hps Horder Hready Hlt.
  set (ds := snd (data_of e which_set)) in *.
  destruct ps as [|p ps']; [congruence|]. clear Hps.
  cbn [in_image_order] in Horder. apply andb_true_iff in Horder as [Hp Hcons].
  apply Z.eqb_eq in Hp.
  cbn [forallb] in Hready. apply andb_true_iff in Hready as [Hrp Hready].
  apply patch_ready_parts in Hrp as (Hlp & Hfp & size & Hsize & Hfit).
  rewrite Hp in Hlp, Hfp, Hsize.
  destruct (update_maps_pixel (window_aggregation_method e) _ _ (window_of e p)
              (zeros (snd (fst size)) (snd size)) (zeros (snd (fst size)) (snd size))
              eq_refl eq_refl eq_refl eq_refl Hfit)
    as (a0 & n0 & Hup & Hha & Hwa & Hhn & Hwn & _).
  cbn [window_of w_rows w_cols w_score] in Hup.
  pose proof (process_patch_first_image e ds which_set p (score_of e p) (round_start s)
                size a0 n0 eq_refl Hp Hsize Hup) as Hfirst.
  set (s0 := mkLocals 0 (Some 0%Z) (Some a0) (Some n0) (label_image (round_start s))
                      (stats_dict (round_start s)) (trace (round_start s))) in Hfirst.
  assert (Hin0 : in_progress e ds 0 s0).
  { unfold in_progress. split; [reflexivity|]. split; [exact Hlp|]. split; [exact Hfp|].
    exists a0, n0, size. repeat split; assumption. }
  destruct (patch_loop_in_order e ds which_set Hm ps' 0%Z s0 (Z.le_refl 0) Hin0 Hcons Hready)
    as (s1 & Hloop & Hin1 & _ & _ & Hrows).
  rewrite last_image_cons, Hp in Hlt |- *.
  destruct Hin1 as (Hnfi1 & _).
  exists (set_current_image_idx (p_image_idx q) s1).
  split; [|split; [exact Hnfi1|split; [reflexivity|exact Hrows]]].
  unfold run_set. fold ds.
  destruct (image_list ds) as [|name names]; [congruence|].
  cbn [length Nat.eqb].
  change (modify (set_num_finished_images (-1)) ;> modify (set_stats_dict []) ;>
          for_each (process_batch e ds which_set) (fst (data_of e which_set)) ;>
          finalise_last_image e ds which_set ;> print_means ;> ret true)
    with (fun s => (for_each (process_batch e ds which_set) (fst (data_of e which_set)) ;>
                    finalise_last_image e ds which_set ;> print_means ;> ret true)
                     (round_start s)).
  cbn beta. unfold seq_M at 1.
  rewrite (batches_items e ds which_set _ (round_start s) Hm), Hloader.
  unfold items. rewrite map_app. fold (items e (p :: ps')). rewrite for_each_app.
  cbn [items map for_each]. unfold seq_M. rewrite Hfirst.
  fold (items e ps'). rewrite Hloop.
  rewrite assertion_fails_below_counter by (rewrite Hnfi1; exact Hlt). reflexivity.
Qed.

Lemma earlier_image_after_in_order_prefix_aborts_witness :
  exists s1,
    run_set revisiting_experiment "val" initial_locals = (Raise AssertionError, s1)
    /\ num_finished_images s1 = 1%Z
    /\ current_image_idx s1 = Some 0%Z
    /\ statistics_rows (trace s1) = [("val_summary.csv", 0%Z)].
Proof.
  assert (Himages : image_list (snd (data_of revisiting_experiment "val")) <> [])
    by discriminate.
  assert (Hps : [row_patch 0 5 6; row_patch 1 7 9] <> []) by discriminate.
  exact (earlier_image_after_in_order_prefix_aborts revisiting_experiment "val"
           [row_patch 0 5 6; row_patch 1 7 9] (row_patch 0 1 2) [] initial_locals
           eq_refl Himages eq_refl Hps eq_refl eq_refl eq_refl).
Defined.

(** ** An image without patches *)

(** X16. When the index of a patch is more than one above the counter of
    begun images, because an image has no patch in the stream, the maps
    accumulated so far are finalised as the image just before the new
    index: saved under its file name, scored against its label and entered
    under its number.  The counter goes up by one only and stays below the
    index, so the next patch is taken for the start of a new image again. *)
Theorem skipped_image_gets_the_maps_of_the_image_before
    (e : experiment) (ds : dataset) (which_set : string) (p : patch) (score : tensor)
    (s : locals) (k j : Z) (a n l : tensor) (filename : string)
    (size : nat * nat * nat) (a' n' : tensor) :
  (0 <= k)%Z ->
  num_finished_images s = k ->
  p_image_idx p = j ->
  (k + 1 < j)%Z ->
  supported_measure (measure_of_anomaly e) = true ->
  anomaly_map s = Some a ->
  normalisation_map s = Some n ->
  get_label_image ds (j - 1) = Ok l ->
  (save_anomaly_maps e = true -> py_index (image_list ds) (j - 1) = Ok filename) ->
  py_index (image_sizes ds) j = Ok size ->
  update_maps (window_aggregation_method e)
              (zeros (snd (fst size)) (snd size)) (zeros (snd (fst size)) (snd size))
              (p_rows p) (p_cols p) score = Ok (a', n') ->
  process_patch e ds which_set (p, score) s
  = (Ok tt,
     let f := finalised_state e which_set (j - 1) IfExists filename a n l s in
     mkLocals (k + 1) (Some j) (Some a') (Some n') (label_image f) (stats_dict f) (trace f)).
Proof.
  intros Hk0 Hk Hp Hjump Hm Ha Hn Hl Hf Hsize Hup.
  apply update_maps_as_steps in Hup as [-> Hagg].
  unfold process_patch. cbn [fst snd]. rewrite Hp. run_monad. cbn.
  rewrite Hk.
  replace (k <=? j)%Z with true by (symmetry; apply Z.leb_le; lia).
  replace (j >? k)%Z with true by (symmetry; apply Z.gtb_lt; lia).
  replace (k + 1 >? 0)%Z with true by (symmetry; apply Z.gtb_lt; lia).
  cbn.
  rewrite (finalise_at_boundary_spec e ds which_set j
             (mkLocals (k + 1) (Some j) (anomaly_map s) (normalisation_map s)
                       (label_image s) (stats_dict s) (trace s))
             a n l filename Hm Ha Hn Hl Hf).
  run_monad. unfold finalised_state. cbn. rewrite Hsize. cbn.
  destruct (supported_method (window_aggregation_method e)).
  - cbn. rewrite Hagg. reflexivity.
  - subst a'. reflexivity.
Qed.

Lemma skipped_image_gets_the_maps_of_the_image_before_witness :
  exists s',
    process_patch skipping_experiment three_image_dataset "val"
                  (row_patch 2 7 9, of_rows [[7; 9]]%Q) first_image_in_progress
    = (Ok tt, s')
    /\ num_finished_images s' = 1%Z
    /\ current_image_idx s' = Some 2%Z
    /\ saved_maps (trace s') = [("val", "b.png", [[5; 6]]%Q)]
    /\ statistics_rows (trace s') = [("val_summary.csv", 1%Z)].
Proof.
  assert (Hk : (0 <= 0)%Z) by lia.
  assert (Hjump : (0 + 1 < 2)%Z) by lia.
  assert (Hup : exists a' n',
             update_maps "max" (zeros 1 2) (zeros 1 2) (mkSlice 0 1) (mkSlice 0 2)
                         (of_rows [[7; 9]]%Q) = Ok (a', n'))
    by (eexists; eexists; reflexivity).
  destruct Hup as (a' & n' & Hup).
  eexists. split.
  - exact (skipped_image_gets_the_maps_of_the_image_before
             skipping_experiment three_image_dataset "val" (row_patch 2 7 9)
             (of_rows [[7; 9]]%Q) first_image_in_progress 0 2
             (of_rows [[5; 6]]%Q) (of_rows [[1; 1]]%Q) (of_rows [[1; 0]]%Q) "b.png"
             (1, 1, 2) a' n'
             Hk eq_refl eq_refl Hjump eq_refl eq_refl eq_refl eq_refl
             (fun _ => eq_refl) eq_refl Hup).
  - repeat split; reflexivity.
Defined.

(** * Properties of [ExperimentBuilder] *)

Import ExperimentBuilder.

(** ** Dictionaries *)

Lemma dict_has_keys {V W : Type} (d : dict V) (d' : dict W) key :
  keys d' = keys d -> dict_has d' key = dict_has d key.
Proof.
  unfold keys, dict_has. revert d'.
  induction d as [|[k v] d IH]; intros [|[k' v'] d'] Hk; try discriminate; [reflexivity|].
  cbn in Hk |- *. injection Hk as -> Hk. now rewrite (IH d' Hk).
Qed.

Lemma has_metrics_keys {V W : Type} task (d : dict V) (d' : dict W) ds :
  keys d' = keys d -> has_metrics task d' ds = has_metrics task d ds.
Proof. intros Hk. unfold has_metrics. now rewrite !(dict_has_keys d d' _ Hk). Qed.

Lemma dict_append_keys {V : Type} (d : dict V) key v :
  dict_has d key = true ->
  exists d', dict_append d key v = Ok d' /\ keys d' = keys d.
Proof.
  intros Hhas. unfold dict_append. rewrite Hhas. eexists. split; [reflexivity|].
  unfold keys. rewrite map_map. apply map_ext. intros [k l]. cbn.
  now destruct (String.eqb k key).
Qed.

Lemma supported_loss_cases task loss :
  supported_loss task loss = true ->
  (task = "classification" /\ loss = "cross_entropy")
  \/ (task = "regression" /\ loss = "L2").
Proof.
  unfold supported_loss. intros H. apply orb_true_iff in H as [H|H];
    apply andb_true_iff in H as [Ht Hl];
    apply String.eqb_eq in Ht; apply String.eqb_eq in Hl; auto.
Qed.

Lemma update_current_epoch_stats_keys task loss d ds l a m :
  supported_loss task loss = true ->
  has_metrics task d ds = true ->
  exists d', update_current_epoch_stats task d ds l a m = Ok d' /\ keys d' = keys d.
Proof.
  intros Hs Hm. unfold update_current_epoch_stats, has_metrics in *.
  destruct (supported_loss_cases _ _ Hs) as [[-> _]|[-> _]]; cbn [String.eqb] in *.
  - apply andb_true_iff in Hm as [Hm H3]. apply andb_true_iff in Hm as [H1 H2].
    destruct (dict_append_keys d _ l H1) as (d1 & -> & K1). cbn [bind].
    rewrite <- (dict_has_keys d d1 _ K1) in H2. rewrite <- (dict_has_keys d d1 _ K1) in H3.
    destruct (dict_append_keys d1 _ a H2) as (d2 & -> & K2). cbn [bind].
    rewrite <- (dict_has_keys d1 d2 _ K2) in H3.
    destruct (dict_append_keys d2 _ m H3) as (d3 & -> & K3).
    exists d3. split; [reflexivity|]. now rewrite K3, K2.
  - change (String.eqb "regression" "classification") with false in *. cbn iota in *.
    change (String.eqb "regression" "regression") with true in *. cbn iota in *.
    exact (dict_append_keys d _ l Hm).
Qed.

Lemma forward_prop_and_loss_supported {X Y O L : Type}
    (forward : X -> O) (cross_entropy mse_loss : O -> Y -> L)
    (task loss : string) (x : X) (y : Y) :
  supported_loss task loss = true ->
  exists l, snd (forward_prop_and_loss forward cross_entropy mse_loss task loss x y)
            = Ok (forward x, l).
Proof.
  intros Hs. destruct (supported_loss_cases _ _ Hs) as [[-> ->]|[-> ->]];
    eexists; reflexivity.
Qed.

(** ** The paths of the checkpoints *)

Lemma string_app_assoc (a b c : string) : (a +:+ b) +:+ c = a +:+ b +:+ c.
Proof.
  induction a as [|x a IH]; [reflexivity|].
  change (String x a +:+ b) with (String x (a +:+ b)).
  change (String x (a +:+ b) +:+ c) with (String x ((a +:+ b) +:+ c)).
  now rewrite IH.
Qed.

Lemma model_path_prefix dir :
  exists prefix, forall i, model_path dir "train_model" i = prefix +:+ str i.
Proof.
  exists ((if String.eqb dir "" || ends_with_slash dir then dir else dir +:+ "/")
          +:+ "train_model_").
  intros i. unfold model_path, path_join.
  change ("train_model" +:+ "_" +:+ str i) with (String "t" ("rain_model_" +:+ str i)).
  cbn match. change (Ascii.eqb "t" "/") with false. cbn match.
  change (String "t" ("rain_model_" +:+ str i)) with ("train_model_" +:+ str i).
  destruct (String.eqb dir "" || ends_with_slash dir).
  - now rewrite string_app_assoc.
  - now rewrite !string_app_assoc.
Qed.

Lemma pretty_N_go_not_latest x s : s <> "latest" -> pretty_N_go x s <> "latest".
Proof.
  revert s. induction (N.lt_wf_0 x) as [x _ IH]. intros s Hs.
  assert (x = 0 \/ 0 < x)%N as [->|Hx] by lia.
  - now rewrite pretty_N_go_0.
  - rewrite pretty_N_go_step by exact Hx. apply IH.
    + now apply N.div_lt.
    + unfold pretty_N_char. repeat case_match; discriminate.
Qed.

Lemma pretty_Z_not_latest (z : Z) : pretty z <> "latest".
Proof.
  destruct z as [|p|p]; try discriminate.
  unfold pretty, pretty_Z, pretty, pretty_positive, pretty, pretty_N.
  case_decide; [discriminate|]. now apply pretty_N_go_not_latest.
Qed.

Lemma model_path_inj dir e e' :
  model_path dir "train_model" (Epoch e) = model_path dir "train_model" (Epoch e') ->
  e = e'.
Proof.
  destruct (model_path_prefix dir) as (prefix & Hp). rewrite !Hp. intros H.
  apply (inj (String.app prefix)) in H. cbn [str] in H. now apply (inj pretty) in H.
Qed.

Lemma model_path_latest dir e :
  model_path dir "train_model" Latest <> model_path dir "train_model" (Epoch e).
Proof.
  destruct (model_path_prefix dir) as (prefix & Hp). rewrite !Hp. intros H.
  apply (inj (String.app prefix)) in H. cbn [str] in H.
  symmetry in H. now apply pretty_Z_not_latest in H.
Qed.

Lemma app_best_ne (s : string) : s +:+ "_best" <> s.
Proof.
  intros H. apply (f_equal String.length) in H.
  assert (Hlen : forall a b, String.length (a +:+ b) = String.length a + String.length b).
  { induction a as [|c a IH]; intros b0; cbn; [reflexivity|]. now rewrite <- IH. }
  rewrite Hlen in H. cbn in H. lia.
Qed.

(** ** The checkpoint of an epoch *)

Lemma save_epoch_spec b fs dir e :
  exists st,
    save_epoch b fs dir e
    = (mkBuilder (network b) (best_val_model_idx b) (best_val_model_measure b) st,
       <[model_path dir "train_model" Latest := st]>
         (<[model_path dir "train_model" (Epoch e) := st]> fs))
    /\ st !! "network" = Some (VStateDict (network b))
    /\ st !! "current_epoch_idx" = Some (VInt e)
    /\ st !! "best_val_model_idx" = Some (VInt (best_val_model_idx b))
    /\ st !! "best_val_model_measure" = Some (VFloat (best_val_model_measure b)).
Proof.
  set (st3 := <["best_val_model_idx" := VInt (best_val_model_idx b)]>
                (<["best_val_model_measure" := VFloat (best_val_model_measure b)]>
                   (<["current_epoch_idx" := VInt e]> (state b)))).
  set (st4 := <["network" := VStateDict (network b)]> st3).
  assert (Hst : <["network" := VStateDict (network b)]> st4 = st4)
    by (unfold st4; apply insert_insert_eq).
  exists st4. split.
  - unfold save_epoch, save_model. fold st3. fold st4. now rewrite Hst.
  - unfold st4, st3. split; [apply lookup_insert_eq|].
    split; [|split].
    + rewrite !lookup_insert_ne by discriminate. apply lookup_insert_eq.
    + rewrite lookup_insert_ne by discriminate. apply lookup_insert_eq.
    + rewrite !lookup_insert_ne by discriminate. apply lookup_insert_eq.
Qed.

Lemma loadable_save_epoch b fs dir e :
  loadable (snd (save_epoch b fs dir e)) (model_path dir "train_model" (Epoch e))
           (shapes (network b)).
Proof.
  destruct (save_epoch_spec b fs dir e) as (st & -> & Hnet & _ & Hidx & Hmeasure).
  cbn [snd]. exists st, (network b).
  rewrite lookup_insert_ne by apply model_path_latest. rewrite lookup_insert_eq.
  rewrite Hidx, Hmeasure. repeat split; eauto.
Qed.

Lemma loadable_kept b fs dir e path :
  loadable fs path (shapes (network b)) ->
  loadable (snd (save_epoch b fs dir e)) path (shapes (network b)).
Proof.
  intros Hl.
  destruct (save_epoch_spec b fs dir e) as (st & -> & Hnet & _ & Hidx & Hmeasure).
  cbn [snd].
  assert (Hst : forall fs', loadable (<[path := st]> fs') path (shapes (network b))).
  { intros fs'. exists st, (network b). rewrite lookup_insert_eq, Hidx, Hmeasure.
    repeat split; eauto. }
  destruct (decide (model_path dir "train_model" Latest = path)) as [<-|Hne1];
    [apply Hst|].
  destruct (decide (model_path dir "train_model" (Epoch e) = path)) as [<-|Hne2].
  - destruct (Hst fs) as (st' & sd & Hf & Hrest).
    exists st', sd. rewrite lookup_insert_ne by exact Hne1. now split.
  - destruct Hl as (st' & sd & Hf & Hrest).
    exists st', sd. rewrite !lookup_insert_ne by assumption. now split.
Qed.

Lemma stamped_save_epoch b fs dir e :
  best_val_model_idx b = e ->
  stamped (snd (save_epoch b fs dir e)) dir e (best_val_model_measure b).
Proof.
  intros Hb.
  destruct (save_epoch_spec b fs dir e) as (st & -> & _ & Hepoch & Hidx & Hmeasure).
  cbn [snd]. exists st.
  rewrite lookup_insert_ne by apply model_path_latest. rewrite lookup_insert_eq.
  rewrite Hb in Hidx. repeat split; assumption.
Qed.

Lemma stamped_kept b fs dir e best measure :
  best <> e ->
  stamped fs dir best measure ->
  stamped (snd (save_epoch b fs dir e)) dir best measure.
Proof.
  intros Hne (st' & Hf & Hrest).
  destruct (save_epoch_spec b fs dir e) as (st & -> & _).
  cbn [snd]. exists st'.
  rewrite lookup_insert_ne by apply model_path_latest.
  rewrite lookup_insert_ne; [now split|].
  intros H. apply model_path_inj in H. congruence.
Qed.

Lemma best_after_cases i q e m :
  best_after (i, q) (e, m) = (i, q)
  \/ exists v, m = Some v /\ is_better (Some v) q = true /\ best_after (i, q) (e, m) = (e, v).
Proof.
  unfold best_after. cbn [fst snd]. destruct m as [v|]; [|now left].
  destruct (is_better (Some v) q) eqn:E; [right; now exists v|now left].
Qed.

(** ** The choice of the best epoch *)

Lemma is_better_lt v q : is_better (Some v) q = true -> (v < q)%Q.
Proof.
  unfold is_better. intros H. apply negb_true_iff in H.
  apply Qnot_le_lt. intros Hle. apply Qle_bool_iff in Hle. congruence.
Qed.

Lemma is_better_le v q : is_better (Some v) q = false -> (q <= v)%Q.
Proof.
  unfold is_better. intros H. apply negb_false_iff in H. now apply Qle_bool_iff.
Qed.

(** Folding [best_after] over the epochs gives the first epoch whose mean
    validation loss is below the measure at the start and below or equal to
    all others. *)
Lemma best_after_fold rows i0 m0 :
  let r := fold_left best_after rows (i0, m0) in
  (snd r <= m0)%Q
  /\ (forall e m, In (e, Some m) rows -> (snd r <= m)%Q)
  /\ (r = (i0, m0)
      \/ exists rows1 rows2,
           rows = rows1 ++ (fst r, Some (snd r)) :: rows2
           /\ (snd r < m0)%Q
           /\ forall e m, In (e, Some m) rows1 -> (snd r < m)%Q).
Proof.
  induction rows as [|[e m] rows IH] using rev_ind; cbn zeta.
  - cbn. split; [apply Qle_refl|]. split; [tauto|now left].
  - rewrite fold_left_app. cbn [fold_left].
    cbn zeta in IH. destruct (fold_left best_after rows (i0, m0)) as [i q].
    cbn [fst snd] in IH. destruct IH as (Hle0 & Hall & Hfirst).
    assert (Hkeep : (forall e' m', In (e', Some m') rows -> (q <= m')%Q)
                    /\ ((i, q) = (i0, m0)
                        \/ exists rows1 rows2,
                             rows ++ [(e, m)] = rows1 ++ (i, Some q) :: rows2
                             /\ (q < m0)%Q
                             /\ forall e' m', In (e', Some m') rows1 -> (q < m')%Q)).
    { split; [exact Hall|].
      destruct Hfirst as [Hinit|(rows1 & rows2 & -> & Hlt & Hbefore)]; [now left|].
      right. exists rows1, (rows2 ++ [(e, m)]). rewrite <- app_assoc. now split. }
    destruct Hkeep as (Hall' & Hfirst').
    unfold best_after. cbn [fst snd]. destruct m as [v|].
    + destruct (is_better (Some v) q) eqn:Hb; cbn [fst snd].
      * apply is_better_lt in Hb.
        split; [apply Qlt_le_weak, Qlt_le_trans with q; assumption|].
        split.
        -- intros e' m' Hin. apply in_app_or in Hin as [Hin|[Heq|[]]].
           ++ apply Qlt_le_weak, Qlt_le_trans with q; [exact Hb|now apply (Hall e')].
           ++ injection Heq as -> ->. apply Qle_refl.
        -- right. exists rows, []. split; [reflexivity|].
           split; [apply Qlt_le_trans with q; assumption|].
           intros e' m' Hin. apply Qlt_le_trans with q; [exact Hb|now apply (Hall e')].
      * apply is_better_le in Hb.
        split; [exact Hle0|]. split; [|exact Hfirst'].
        intros e' m' Hin. apply in_app_or in Hin as [Hin|[Heq|[]]]; [now apply (Hall e')|].
        injection Heq as -> ->. exact Hb.
    + cbn [fst snd]. split; [exact Hle0|]. split; [|exact Hfirst'].
      intros e' m' Hin. apply in_app_or in Hin as [Hin|[Heq|[]]]; [now apply (Hall e')|].
      discriminate.
Qed.

Section TrainingProperties.
Context {X Y O L Opt : Type} {torch : Torch X Y O L Opt}.
Local Open Scope train_scope.

(** A step of the optimiser and a forward pass change the values of the
    parameters and buffers, not their names or shapes. *)
Hypothesis step_shape :
  forall net opt l, shapes (fst (optimizer_step net opt l)) = shapes net.
Hypothesis buffers_shape :
  forall net x, shapes (running_statistics net x) = shapes net.

Lemma iterated_refl (w : world Opt) : iterated w w.
Proof. unfold iterated. repeat split. Qed.

Lemma iterated_trans (w1 w2 w3 : world Opt) :
  iterated w1 w2 -> iterated w2 w3 -> iterated w1 w3.
Proof.
  unfold iterated. intros (A1 & A2 & A3 & A4 & A5 & A6 & A7) (B1 & B2 & B3 & B4 & B5 & B6 & B7).
  repeat split; congruence.
Qed.

Lemma run_train_iter_ok (c : settings X Y) x y (w : world Opt) :
  supported_loss (task c) (loss c) = true ->
  exists m w',
    run_train_iter c x y w = (Ok m, w')
    /\ iterated w w'
    /\ current_epoch_losses w' = current_epoch_losses w.
Proof.
  intros Hs. unfold run_train_iter.
  destruct (forward_prop_and_loss_supported (forward (network (self w)) true) cross_entropy
              mse_loss (task c) (loss c) x y Hs) as (l & ->).
  eexists. eexists. split; [reflexivity|]. split; [|reflexivity].
  unfold iterated. cbn. repeat split.
  now rewrite step_shape, buffers_shape.
Qed.

Lemma run_evaluation_iter_ok (c : settings X Y) x y (w : world Opt) :
  supported_loss (task c) (loss c) = true ->
  exists m, run_evaluation_iter c x y w = (Ok m, w).
Proof.
  intros Hs. unfold run_evaluation_iter.
  destruct (forward_prop_and_loss_supported (forward (network (self w)) false) cross_entropy
              mse_loss (task c) (loss c) x y Hs) as (l & ->).
  eexists. reflexivity.
Qed.

(** A loop over the batches completes, and changes nothing but the
    parameters, the optimiser and the lists of the epoch. *)
Lemma batches_ok (c : settings X Y) (iter : settings X Y -> X -> Y -> T Opt metrics) ds :
  supported_loss (task c) (loss c) = true ->
  (forall x y w, exists m w',
      iter c x y w = (Ok m, w') /\ iterated w w'
      /\ current_epoch_losses w' = current_epoch_losses w) ->
  forall batches (w : world Opt) d,
    current_epoch_losses w = Some d ->
    has_metrics (task c) d ds = true ->
    exists w' d',
      for_each_St (batch_step c iter ds) batches w = (Ok tt, w')
      /\ iterated w w'
      /\ current_epoch_losses w' = Some d'
      /\ keys d' = keys d.
Proof.
  intros Hs Hiter. induction batches as [|[x y] batches IH]; intros w d Hd Hm.
  - exists w, d. split; [reflexivity|]. split; [apply iterated_refl|]. now split.
  - destruct (Hiter x y w) as (m & w1 & Hrun & Hit & Hcel).
    destruct (update_current_epoch_stats_keys (task c) (loss c) d ds
                (fst (fst m)) (snd (fst m)) (snd m) Hs Hm) as (d1 & Hup & Hk1).
    assert (Hstep : batch_step c iter ds (x, y) w
                    = (Ok tt, set_current_epoch_losses (Some d1) w1)).
    { unfold batch_step. cbn [fst snd].
      assert (Hrec : (do m <- iter c x y;
                      do d <- local_St current_epoch_losses;
                      do d' <- lift_St (update_current_epoch_stats (task c) d ds
                                          (fst (fst m)) (snd (fst m)) (snd m));
                      modify_St (set_current_epoch_losses (Some d'))) w
                     = (Ok tt, set_current_epoch_losses (Some d1) w1)).
      { unfold bind_St, local_St, lift_St, modify_St. rewrite Hrun, Hcel, Hd, Hup.
        reflexivity. }
      pose proof (supported_loss_cases _ _ Hs) as Hc.
      destruct (String.eqb_spec (task c) "classification"); [exact Hrec|].
      destruct (String.eqb_spec (task c) "regression"); [exact Hrec|].
      destruct Hc as [[? _]|[? _]]; contradiction. }
    destruct (IH (set_current_epoch_losses (Some d1) w1) d1 eq_refl) as (w' & d' & Hloop & Hit' & Hcel' & Hk').
    { now rewrite (has_metrics_keys _ d d1 _ Hk1). }
    exists w', d'. split.
    + cbn [for_each_St]. unfold bind_St at 1. rewrite Hstep. exact Hloop.
    + split; [|split; [exact Hcel'|congruence]].
      apply (iterated_trans w w1 w'); [exact Hit|].
      apply (iterated_trans w1 (set_current_epoch_losses (Some d1) w1) w');
        [unfold iterated; cbn; repeat split|exact Hit'].
Qed.

Lemma dict_item_keys {V : Type} (d : dict V) key :
  In key (keys d) -> exists l, dict_item d key = Ok l.
Proof.
  unfold keys, dict_item. induction d as [|[k v] d IH]; cbn; [tauto|].
  intros [->|Hin].
  - rewrite String.eqb_refl. now eexists.
  - destruct (String.eqb k key); [now eexists|]. now apply IH.
Qed.

Ltac explicit_dict H :=
  repeat match type of H with
         | keys ?d = _ :: _ =>
             let k := fresh "k" in
             let v := fresh "v" in
             destruct d as [|[k v] d]; [discriminate H|];
             unfold keys in H; cbn [map fst] in H; fold (keys d) in H;
             injection H as -> H
         | keys ?d = [] =>
             destruct d as [|[? ?] d]; [clear H|discriminate H]
         end.

(** One epoch completes: the parameters keep their shapes, the mean
    validation loss of the epoch decides the best epoch, every column gets
    its entry, and the checkpoint of the epoch is written. *)
Lemma run_epoch_ok (c : settings X Y) (i e : Z) (w : world Opt) total t0 :
  supported_loss (task c) (loss c) = true ->
  total_losses w = Some total ->
  new_total_losses (task c) = Some t0 ->
  keys total = keys t0 ->
  exists w' b m total',
    run_epoch c (i, e) w = (Ok tt, w')
    /\ self w' = fst (save_epoch b (files w) (experiment_saved_models c) e)
    /\ files w' = snd (save_epoch b (files w) (experiment_saved_models c) e)
    /\ total_losses w' = Some total'
    /\ keys total' = keys total
    /\ column total' "val_loss" = column total "val_loss" ++ [Mean m]
    /\ column total' "curr_epoch" = column total "curr_epoch" ++ [EpochIdx e]
    /\ shapes (network b) = shapes (network (self w))
    /\ state b = state (self w)
    /\ (best_val_model_idx b, best_val_model_measure b)
       = best_after (best_val_model_idx (self w), best_val_model_measure (self w)) (e, m).
Proof.
  intros Hs Htotal Ht0 Hkeys.
  assert (Heval : forall x y w, exists m w',
             run_evaluation_iter c x y w = (Ok m, w') /\ iterated w w'
             /\ current_epoch_losses w' = current_epoch_losses w).
  { intros x y w0. destruct (run_evaluation_iter_ok c x y w0 Hs) as (m & Hm).
    exists m, w0. split; [exact Hm|]. split; [apply iterated_refl|reflexivity]. }
  assert (Htrain : forall x y w, exists m w',
             run_train_iter c x y w = (Ok m, w') /\ iterated w w'
             /\ current_epoch_losses w' = current_epoch_losses w)
    by (intros; now apply run_train_iter_ok).
  assert (Hd0 : exists d0, new_epoch_losses (task c) = Some d0
                           /\ has_metrics (task c) d0 "train" = true
                           /\ has_metrics (task c) d0 "val" = true
                           /\ keys t0 = keys d0 ++ ["curr_epoch"]
                           /\ In "val_loss" (keys d0)).
  { unfold new_epoch_losses, new_total_losses in *.
    destruct (supported_loss_cases _ _ Hs) as [[E _]|[E _]]; rewrite E in *;
      injection Ht0 as <-; eexists; (split; [reflexivity|]); cbn; tauto. }
  destruct Hd0 as (d0 & Hnew & Hmt & Hmv & Hkt & Hval).
  set (w0 := set_current_epoch_losses (Some d0) w).
  destruct (batches_ok c run_train_iter "train" Hs Htrain (train_data c e) w0 d0 eq_refl Hmt)
    as (w1 & d1 & Hloop1 & Hit1 & Hcel1 & Hk1).
  destruct (batches_ok c run_evaluation_iter "val" Hs Heval (val_data c e) w1 d1 Hcel1)
    as (w2 & d2 & Hloop2 & Hit2 & Hcel2 & Hk2).
  { now rewrite (has_metrics_keys _ d0 d1 _ Hk1). }
  pose proof (iterated_trans _ _ _ Hit1 Hit2) as (Hf & Hst & Htl & Hbi & Hbm & Hbs & Hsh).
  cbn in Hf, Hst, Htl, Hbi, Hbm, Hbs, Hsh.
  rewrite Hk1 in Hk2.
  destruct (dict_item_keys d2 "val_loss") as (vl & Hvl); [now rewrite Hk2|].
  set (m := np_mean vl).
  set (b := if is_better m (best_val_model_measure (self w2))
            then match m with
                 | Some v => mkBuilder (network (self w2)) e v (state (self w2))
                 | None => self w2
                 end
            else self w2).
  assert (Hbest : update_best_epoch_measure (task c) (self w2) d2 e = Ok b).
  { unfold update_best_epoch_measure. rewrite Hvl. cbn [bind]. fold m. fold b.
    destruct (supported_loss_cases _ _ Hs) as [[E _]|[E _]]; rewrite E; reflexivity. }
  assert (Happ : exists total' total'',
             append_means total d2 = Ok total'
             /\ dict_append total' "curr_epoch" (EpochIdx e) = Ok total''
             /\ keys total'' = keys total
             /\ column total'' "val_loss" = column total "val_loss" ++ [Mean m]
             /\ column total'' "curr_epoch" = column total "curr_epoch" ++ [EpochIdx e]).
  { rewrite Hkt in Hkeys. unfold new_epoch_losses in Hnew. unfold m. clear - Hkeys Hnew Hk2 Hvl Hs.
    destruct (supported_loss_cases _ _ Hs) as [[E _]|[E _]]; rewrite E in Hnew;
      injection Hnew as <-; unfold keys at 2 in Hkeys; unfold keys at 2 in Hk2;
      cbn [map fst app] in Hkeys, Hk2;
      explicit_dict Hk2; explicit_dict Hkeys;
      cbn in Hvl; injection Hvl as <-;
      eexists; eexists; repeat split; reflexivity. }
  destruct Happ as (total' & total'' & Happ & Hcurr & Hkeys'' & Hcolv & Hcole).
  exists (set_files (snd (save_epoch b (files w) (experiment_saved_models c) e))
            (set_self (fst (save_epoch b (files w) (experiment_saved_models c) e))
               (save_statistics
                  (SaveSummary "summary.csv" total'' i
                               (negb (starting_epoch c =? 0)%Z || (0 <? i)%Z))
                  (set_total_losses (Some total'') (set_self b w2))))),
         b, m, total''.
  split.
  - unfold run_epoch. cbn [fst snd]. rewrite Hnew.
    unfold bind_St at 1. unfold modify_St at 1. fold w0.
    unfold bind_St at 1. rewrite Hloop1.
    unfold bind_St at 1. rewrite Hloop2.
    unfold bind_St, local_St, gets_St, lift_St, modify_St.
    rewrite Hcel2, Hbest. cbn [total_losses set_self]. rewrite Htl, Htotal, Happ, Hcurr.
    cbn [self files set_self set_total_losses save_statistics]. rewrite Hf. reflexivity.
  - split; [reflexivity|]. split; [reflexivity|]. split; [reflexivity|].
    split; [exact Hkeys''|]. split; [exact Hcolv|]. split; [exact Hcole|].
    unfold b, best_after. cbn [fst snd]. rewrite <- Hbi, <- Hbm, <- Hbs, <- Hsh.
    destruct m as [v|]; [|now destruct (is_better None _)].
    destruct (is_better (Some v) (best_val_model_measure (self w2))); repeat split.
Qed.

(** The loop over the epochs completes.  Afterwards every column has one
    more entry per epoch, the best epoch is the one [best_after] selects
    from the mean validation losses, its checkpoint can be loaded, and,
    when an epoch of the loop became the best one, the file is the one
    written at the end of that epoch. *)
Lemma epochs_ok (c : settings X Y) t0 sh i0 m0 :
  supported_loss (task c) (loss c) = true ->
  new_total_losses (task c) = Some t0 ->
  forall l (w : world Opt) total,
    NoDup (map snd l) ->
    total_losses w = Some total ->
    keys total = keys t0 ->
    shapes (network (self w)) = sh ->
    (loadable (files w)
              (model_path (experiment_saved_models c) "train_model"
                          (Epoch (best_val_model_idx (self w)))) sh
     \/ In (best_val_model_idx (self w)) (map snd l)) ->
    ((stamped (files w) (experiment_saved_models c) (best_val_model_idx (self w))
              (best_val_model_measure (self w))
      /\ ~ In (best_val_model_idx (self w)) (map snd l))
     \/ (best_val_model_idx (self w), best_val_model_measure (self w)) = (i0, m0)) ->
    exists w' total' means,
      for_each_St (run_epoch c) l w = (Ok tt, w')
      /\ total_losses w' = Some total'
      /\ keys total' = keys t0
      /\ column total' "val_loss" = column total "val_loss" ++ map Mean means
      /\ column total' "curr_epoch" = column total "curr_epoch" ++ map EpochIdx (map snd l)
      /\ length means = length l
      /\ (best_val_model_idx (self w'), best_val_model_measure (self w'))
         = fold_left best_after (combine (map snd l) means)
                     (best_val_model_idx (self w), best_val_model_measure (self w))
      /\ shapes (network (self w')) = sh
      /\ loadable (files w')
                  (model_path (experiment_saved_models c) "train_model"
                              (Epoch (best_val_model_idx (self w')))) sh
      /\ (stamped (files w') (experiment_saved_models c) (best_val_model_idx (self w'))
                  (best_val_model_measure (self w'))
          \/ (best_val_model_idx (self w'), best_val_model_measure (self w')) = (i0, m0)).
Proof.
  intros Hs Ht0. induction l as [|[i e] l IH]; intros w total Hnd Htotal Hkeys Hsh Hload Hstamp.
  - exists w, total, []. cbn [map app]. rewrite !app_nil_r.
    split; [reflexivity|]. split; [exact Htotal|]. split; [exact Hkeys|].
    split; [reflexivity|]. split; [reflexivity|]. split; [reflexivity|].
    split; [reflexivity|]. split; [exact Hsh|].
    split; [destruct Hload as [Hl|[]]; exact Hl|].
    destruct Hstamp as [[Hst _]|Hinit]; [now left|now right].
  - cbn [map snd] in Hnd, Hload, Hstamp. assert (Hnotin : ~ In e (map snd l)) by (inversion Hnd; assumption).
    assert (Hnd' : NoDup (map snd l)) by (inversion Hnd; assumption).
    clear Hnd. rename Hnd' into Hnd.
    destruct (run_epoch_ok c i e w total t0 Hs Htotal Ht0 Hkeys)
      as (w1 & b & m & total1 & Hrun & Hself & Hfiles & Htotal1 & Hkeys1 & Hcolv & Hcole
          & Hshb & _ & Hbest).
    set (dir := experiment_saved_models c) in *.
    destruct (save_epoch_spec b (files w) dir e) as (st & Hsave & _).
    assert (Hb1 : best_val_model_idx (self w1) = best_val_model_idx b
                  /\ best_val_model_measure (self w1) = best_val_model_measure b
                  /\ network (self w1) = network b).
    { rewrite Hself, Hsave. repeat split. }
    destruct Hb1 as (Hidx1 & Hmeasure1 & Hnet1).
    assert (Hshb' : shapes (network b) = sh) by congruence.
    destruct (IH w1 total1 Hnd Htotal1) as (w' & total' & means & Hloop & Htotal' & Hkeys'
                                            & Hcolv' & Hcole' & Hlen & Hfold & Hsh' & Hload'
                                            & Hstamp').
    + congruence.
    + now rewrite Hnet1.
    + rewrite Hidx1, Hfiles. rewrite <- Hshb'.
      destruct (best_after_cases (best_val_model_idx (self w))
                  (best_val_model_measure (self w)) e m) as [Hsame|(v & _ & _ & Hnew)];
        rewrite <- Hbest in *.
      * injection Hsame as Hi _. rewrite Hi.
        destruct Hload as [Hl|[He|Hin]].
        -- left. apply loadable_kept. rewrite Hshb'. exact Hl.
        -- left. rewrite <- He. apply loadable_save_epoch.
        -- now right.
      * injection Hnew as Hi _. rewrite Hi. left. apply loadable_save_epoch.
    + rewrite Hidx1, Hmeasure1, Hfiles.
      destruct (best_after_cases (best_val_model_idx (self w))
                  (best_val_model_measure (self w)) e m) as [Hsame|(v & _ & _ & Hnew)];
        rewrite <- Hbest in *.
      * injection Hsame as Hi Hq. rewrite Hi, Hq.
        destruct Hstamp as [[Hst Hno]|Hinit]; [left|now right].
        split; [|intros Hin; apply Hno; now right].
        apply stamped_kept; [|exact Hst]. intros He. apply Hno. now left.
      * injection Hnew as Hi Hq. left. split.
        -- rewrite Hi at 1. apply stamped_save_epoch. exact Hi.
        -- now rewrite Hi.
    + exists w', total', (m :: means).
      split; [cbn [for_each_St]; unfold bind_St at 1; rewrite Hrun; exact Hloop|].
      split; [exact Htotal'|]. split; [exact Hkeys'|].
      split; [rewrite Hcolv', Hcolv, <- app_assoc; reflexivity|].
      split; [rewrite Hcole', Hcole, <- app_assoc; reflexivity|].
      split; [cbn [length]; now rewrite Hlen|].
      split; [|split; [exact Hsh'|split; [exact Hload'|exact Hstamp']]].
      cbn [map snd combine fold_left]. rewrite <- Hbest, <- Hidx1, <- Hmeasure1. exact Hfold.
Qed.

Lemma load_model_loadable (b : builder) fs dir i :
  loadable fs (model_path dir "train_model" i) (shapes (network b)) ->
  exists st sd r,
    fs !! model_path dir "train_model" i = Some st
    /\ st !! "network" = Some (VStateDict sd)
    /\ load_model b fs dir "train_model" i
       = Ok (mkBuilder sd (best_val_model_idx b) (best_val_model_measure b) (state b), r).
Proof.
  intros (st & sd & Hf & Hnet & Hsh & [idx Hidx] & [measure Hmeasure]).
  exists st, sd, (idx, measure, st). split; [exact Hf|]. split; [exact Hnet|].
  unfold load_model. rewrite Hf. cbn [bind]. unfold dict_get. rewrite Hnet. cbn [bind].
  unfold load_state_dict. rewrite bool_decide_eq_true_2 by exact Hsh. cbn [bind].
  rewrite Hidx, Hmeasure. reflexivity.
Qed.

(** A loop of evaluation iterations changes the lists of the epoch only,
    and what it appends depends on the parameters only. *)
Lemma evaluation_batches (c : settings X Y) ds net :
  supported_loss (task c) (loss c) = true ->
  forall batches d,
    has_metrics (task c) d ds = true ->
    exists d',
      keys d' = keys d
      /\ forall w : world Opt,
          network (self w) = net ->
          for_each_St (batch_step c run_evaluation_iter ds) batches
                      (set_current_epoch_losses (Some d) w)
          = (Ok tt, set_current_epoch_losses (Some d') w).
Proof.
  intros Hs. induction batches as [|[x y] batches IH]; intros d Hm.
  - exists d. split; reflexivity.
  - destruct (forward_prop_and_loss_supported (forward net false) cross_entropy mse_loss
                (task c) (loss c) x y Hs) as (l & Hl).
    destruct (update_current_epoch_stats_keys (task c) (loss c) d ds
                (loss_value l) (accuracy_of (forward net false x) y)
                (map_mse_range11_of (forward net false x) y) Hs Hm) as (d1 & Hup & Hk1).
    destruct (IH d1) as (d' & Hk' & Hloop); [now rewrite (has_metrics_keys _ d d1 _ Hk1)|].
    exists d'. split; [congruence|]. intros w Hnet.
    assert (Hstep : batch_step c run_evaluation_iter ds (x, y)
                      (set_current_epoch_losses (Some d) w)
                    = (Ok tt, set_current_epoch_losses (Some d1) w)).
    { assert (Hrec : (do m <- run_evaluation_iter c x y;
                      do d <- local_St current_epoch_losses;
                      do d' <- lift_St (update_current_epoch_stats (task c) d ds
                                          (fst (fst m)) (snd (fst m)) (snd m));
                      modify_St (set_current_epoch_losses (Some d')))
                       (set_current_epoch_losses (Some d) w)
                     = (Ok tt, set_current_epoch_losses (Some d1) w)).
      { unfold bind_St, local_St, lift_St, modify_St, run_evaluation_iter.
        cbn [self set_current_epoch_losses]. rewrite Hnet, Hl.
        cbn [current_epoch_losses set_current_epoch_losses fst snd]. rewrite Hup.
        reflexivity. }
      unfold batch_step. cbn [fst snd].
      pose proof (supported_loss_cases _ _ Hs) as Hc.
      destruct (String.eqb_spec (task c) "classification"); [exact Hrec|].
      destruct (String.eqb_spec (task c) "regression"); [exact Hrec|].
      destruct Hc as [[? _]|[? _]]; contradiction. }
    cbn [for_each_St]. unfold bind_St at 1. rewrite Hstep. now apply Hloop.
Qed.

Lemma enumerate_range_epochs start stop :
  map snd (enumerate_range start stop) = seqZ start (stop - start).
Proof.
  unfold enumerate_range. rewrite map_map. cbn [snd]. apply map_id.
Qed.

(** [run_experiment] completes when the task and the loss go together and
    the checkpoint of the best epoch so far exists or will be written. *)
Lemma run_experiment_ok (c : settings X Y) (w : world Opt) :
  supported_loss (task c) (loss c) = true ->
  loadable (files w)
           (model_path (experiment_saved_models c) "train_model"
                       (Epoch (best_val_model_idx (self w))))
           (shapes (network (self w)))
  \/ (starting_epoch c <= best_val_model_idx (self w) < num_epochs c)%Z ->
  exists total test w' means st dtest,
    run_experiment c w = (Ok (total, test), w')
    /\ column total "curr_epoch"
       = map EpochIdx (seqZ (starting_epoch c) (num_epochs c - starting_epoch c))
    /\ column total "val_loss" = map Mean means
    /\ length means = length (seqZ (starting_epoch c) (num_epochs c - starting_epoch c))
    /\ (best_val_model_idx (self w'), best_val_model_measure (self w'))
       = fold_left best_after
                   (combine (seqZ (starting_epoch c) (num_epochs c - starting_epoch c)) means)
                   (best_val_model_idx (self w), best_val_model_measure (self w))
    /\ files w' !! (model_path (experiment_saved_models c) "train_model"
                               (Epoch (best_val_model_idx (self w'))) +:+ "_best")
       = Some st
    /\ files w' !! model_path (experiment_saved_models c) "train_model"
                              (Epoch (best_val_model_idx (self w')))
       = None
    /\ st !! "network" = Some (VStateDict (network (self w')))
    /\ ((st !! "current_epoch_idx" = Some (VInt (best_val_model_idx (self w')))
         /\ st !! "best_val_model_idx" = Some (VInt (best_val_model_idx (self w')))
         /\ st !! "best_val_model_measure"
            = Some (VFloat (best_val_model_measure (self w'))))
        \/ (best_val_model_idx (self w'), best_val_model_measure (self w'))
           = (best_val_model_idx (self w), best_val_model_measure (self w)))
    /\ current_epoch_losses w' = Some dtest
    /\ test = map (fun kv => (fst kv, [Mean (np_mean (snd kv))])) dtest
    /\ for_each_St (batch_step c run_evaluation_iter "test") (test_data c)
                   (set_current_epoch_losses (new_test_losses (task c)) w')
       = (Ok tt, w')
    /\ exists w1,
        for_each_St (run_epoch c) (enumerate_range (starting_epoch c) (num_epochs c))
                    (set_total_losses (new_total_losses (task c))
                                      (set_current_epoch_losses None w))
        = (Ok tt, w1)
        /\ best_val_model_idx (self w1) = best_val_model_idx (self w')
        /\ best_val_model_measure (self w1) = best_val_model_measure (self w')
        /\ files w1 !! model_path (experiment_saved_models c) "train_model"
                                  (Epoch (best_val_model_idx (self w')))
           = Some st.
Proof.
  intros Hs Hload.
  set (dir := experiment_saved_models c) in *.
  set (epochs := seqZ (starting_epoch c) (num_epochs c - starting_epoch c)).
  assert (Ht0 : exists t0 dt0, new_total_losses (task c) = Some t0
                               /\ column t0 "val_loss" = [] /\ column t0 "curr_epoch" = []
                               /\ new_test_losses (task c) = Some dt0
                               /\ has_metrics (task c) dt0 "test" = true).
  { unfold new_total_losses, new_test_losses.
    destruct (supported_loss_cases _ _ Hs) as [[E _]|[E _]]; rewrite E;
      eexists; eexists; repeat split; reflexivity. }
  destruct Ht0 as (t0 & dt0 & Ht0 & Hcv0 & Hce0 & Hdt0 & Hmt).
  set (w0 := set_total_losses (Some t0)
               (set_current_epoch_losses None (set_total_losses None w))).
  destruct (epochs_ok c t0 (shapes (network (self w))) (best_val_model_idx (self w))
              (best_val_model_measure (self w)) Hs Ht0
              (enumerate_range (starting_epoch c) (num_epochs c)) w0 t0)
    as (w1 & total & means & Hloop & Htotal & _ & Hcolv & Hcole & Hlen & Hfold & Hsh
        & Hload1 & Hstamp1).
  { rewrite enumerate_range_epochs. apply NoDup_ListNoDup, NoDup_seqZ. }
  { reflexivity. }
  { reflexivity. }
  { reflexivity. }
  { rewrite enumerate_range_epochs. destruct Hload as [Hl|Hin]; [now left|right].
    cbn [w0 self set_total_losses set_current_epoch_losses]. apply list_elem_of_In.
    apply elem_of_seqZ. lia. }
  { now right. }
  rewrite enumerate_range_epochs in Hcole, Hfold. fold epochs in Hcole, Hfold.
  rewrite Hcv0 in Hcolv. rewrite Hce0 in Hcole. cbn [app] in Hcolv, Hcole.
  unfold enumerate_range in Hlen. rewrite length_map in Hlen. fold epochs in Hlen.
  cbn [w0 self set_total_losses set_current_epoch_losses] in Hfold.
  set (best := best_val_model_idx (self w1)) in *.
  rewrite <- Hsh in Hload1.
  destruct (load_model_loadable (self w1) (files w1) dir (Epoch best) Hload1)
    as (st & sd & r & Hfile & Hnet & Hloaded).
  set (b2 := mkBuilder sd (best_val_model_idx (self w1)) (best_val_model_measure (self w1))
                       (state (self w1))) in *.
  destruct (evaluation_batches c "test" sd Hs (test_data c) dt0 Hmt) as (dtest & _ & Htest).
  set (test := map (fun kv : string * list Q => (fst kv, [Mean (np_mean (snd kv))])) dtest).
  set (w3 := save_statistics (SaveSummary "test_summary.csv" test 0 false)
               (set_current_epoch_losses (Some dtest) (set_self b2 w1))).
  set (path_best := model_path dir "train_model" (Epoch best)).
  set (w4 := set_files (<[path_best +:+ "_best" := st]> (delete path_best (files w1))) w3).
  exists total, test, w4, means, st, dtest.
  split.
  - unfold run_experiment. rewrite Ht0, Hdt0.
    unfold bind_St at 1. unfold modify_St at 1.
    unfold bind_St at 1. unfold modify_St at 1.
    unfold bind_St at 1. unfold modify_St at 1. fold w0.
    unfold bind_St at 1. rewrite Hloop.
    unfold bind_St at 1. unfold gets_St at 1.
    unfold bind_St at 1. unfold load_model_St at 1. fold dir. fold best. rewrite Hloaded.
    fold b2.
    unfold bind_St at 1. unfold modify_St at 1.
    unfold bind_St at 1.
    change (set_current_epoch_losses (Some dt0) (set_self b2 w1))
      with (set_current_epoch_losses (Some dt0) (set_self b2 w1)).
    rewrite (Htest (set_self b2 w1) eq_refl).
    unfold bind_St, local_St, modify_St, gets_St, os_replace, unit_St.
    cbn [current_epoch_losses set_current_epoch_losses save_statistics self set_self files
         best_val_model_idx total_losses].
    change (best_val_model_idx b2) with best. rewrite Hfile.
    cbn [total_losses set_files save_statistics set_current_epoch_losses set_self].
    rewrite Htotal. reflexivity.
  - split; [exact Hcole|]. split; [exact Hcolv|]. split; [exact Hlen|].
    split; [exact Hfold|].
    change (best_val_model_idx (self w4)) with best.
    change (best_val_model_measure (self w4)) with (best_val_model_measure (self w1)).
    fold path_best.
    split; [apply lookup_insert_eq|].
    split; [cbn [w4 files set_files];
            rewrite lookup_insert_ne by apply app_best_ne; apply lookup_delete_eq|].
    split; [exact Hnet|].
    split.
    { destruct Hstamp1 as [(st' & Hf' & Hstamped)|Hinit]; [left|right; exact Hinit].
      fold dir in Hf'. fold best in Hf'. fold path_best in Hfile, Hf'.
      rewrite Hfile in Hf'. injection Hf' as <-. exact Hstamped. }
    split; [reflexivity|]. split; [reflexivity|].
    split; [rewrite Hdt0; exact (Htest w4 eq_refl)|].
    exists w1. rewrite Ht0. split; [exact Hloop|].
    split; [reflexivity|]. split; [reflexivity|]. exact Hfile.
Qed.

(** ** The run as a whole *)

(** X10. The best epoch of a completed run is the earliest epoch whose
    mean validation loss is the lowest, provided that loss is below the
    measure the run started with; otherwise the best epoch and its measure
    stay what they were.  An epoch without validation batches has no mean
    and is never chosen. *)
Theorem best_epoch_is_the_earliest_with_the_lowest_validation_loss
    (c : settings X Y) (w : world Opt) :
  supported_loss (task c) (loss c) = true ->
  loadable (files w)
           (model_path (experiment_saved_models c) "train_model"
                       (Epoch (best_val_model_idx (self w))))
           (shapes (network (self w)))
  \/ (starting_epoch c <= best_val_model_idx (self w) < num_epochs c)%Z ->
  exists total test w' means,
    run_experiment c w = (Ok (total, test), w')
    /\ column total "curr_epoch"
       = map EpochIdx (seqZ (starting_epoch c) (num_epochs c - starting_epoch c))
    /\ column total "val_loss" = map Mean means
    /\ length means = length (seqZ (starting_epoch c) (num_epochs c - starting_epoch c))
    /\ let rows := combine (seqZ (starting_epoch c) (num_epochs c - starting_epoch c))
                           means in
       let best := best_val_model_idx (self w') in
       let measure := best_val_model_measure (self w') in
       (measure <= best_val_model_measure (self w))%Q
       /\ (forall e m, In (e, Some m) rows -> (measure <= m)%Q)
       /\ ((best, measure) = (best_val_model_idx (self w), best_val_model_measure (self w))
           \/ exists rows1 rows2,
                rows = rows1 ++ (best, Some measure) :: rows2
                /\ (measure < best_val_model_measure (self w))%Q
                /\ forall e m, In (e, Some m) rows1 -> (measure < m)%Q).
Proof.
  intros Hs Hload.
  destruct (run_experiment_ok c w Hs Hload)
    as (total & test & w' & means & st & dtest & Hrun & Hcole & Hcolv & Hlen & Hfold & _).
  exists total, test, w', means.
  split; [exact Hrun|]. split; [exact Hcole|]. split; [exact Hcolv|]. split; [exact Hlen|].
  cbn zeta.
  pose proof (best_after_fold
                (combine (seqZ (starting_epoch c) (num_epochs c - starting_epoch c)) means)
                (best_val_model_idx (self w)) (best_val_model_measure (self w))) as Hspec.
  cbn zeta in Hspec. rewrite <- Hfold in Hspec. cbn [fst snd] in Hspec. exact Hspec.
Qed.

(** X11. When a run has completed, the checkpoint of its best epoch is
    no longer under the name of the epoch: constructing an experiment that
    continues from that epoch fails with [FileNotFoundError]. *)
Theorem finished_run_cannot_continue_from_its_best_epoch
    (c : settings X Y) (w : world Opt) (args : arguments)
    (train val : Z -> list (X * Y)) (test : list (X * Y)) (network_model : state_dict) :
  supported_loss (task c) (loss c) = true ->
  loadable (files w)
           (model_path (experiment_saved_models c) "train_model"
                       (Epoch (best_val_model_idx (self w))))
           (shapes (network (self w)))
  \/ (starting_epoch c <= best_val_model_idx (self w) < num_epochs c)%Z ->
  (0 <= starting_epoch c)%Z ->
  (0 <= best_val_model_idx (self w))%Z ->
  exists r w',
    run_experiment c w = (Ok r, w')
    /\ files w' !! model_path (experiment_saved_models c) "train_model"
                              (Epoch (best_val_model_idx (self w')))
       = None
    /\ (continue_from_epoch args = best_val_model_idx (self w') ->
        init args (experiment_saved_models c) train val test network_model (files w')
        = Some (Raise FileNotFoundError)).
Proof.
  intros Hs Hload Hstart Hbest0.
  destruct (run_experiment_ok c w Hs Hload)
    as (total & tst & w' & means & st & dtest & Hrun & _ & _ & _ & Hfold & _ & Hgone & _).
  exists (total, tst), w'. split; [exact Hrun|]. split; [exact Hgone|].
  intros Hargs.
  assert (Hnonneg : (0 <= best_val_model_idx (self w'))%Z).
  { pose proof (best_after_fold
                  (combine (seqZ (starting_epoch c) (num_epochs c - starting_epoch c)) means)
                  (best_val_model_idx (self w)) (best_val_model_measure (self w)))
      as (_ & _ & Hfirst).
    cbn zeta in Hfirst. rewrite <- Hfold in Hfirst. cbn [fst snd] in Hfirst.
    destruct Hfirst as [Hinit|(rows1 & rows2 & Hrows & _)].
    - injection Hinit as -> _. exact Hbest0.
    - assert (Hin : In (best_val_model_idx (self w'),
                        Some (best_val_model_measure (self w')))
                       (combine (seqZ (starting_epoch c) (num_epochs c - starting_epoch c))
                                means)).
      { rewrite Hrows. apply in_or_app. right. now left. }
      apply in_combine_l, list_elem_of_In, elem_of_seqZ in Hin. lia. }
  unfold init. rewrite Hargs.
  replace (best_val_model_idx (self w') =? -2)%Z with false by (symmetry; apply Z.eqb_neq; lia).
  replace (best_val_model_idx (self w') =? -1)%Z with false by (symmetry; apply Z.eqb_neq; lia).
  cbn [negb]. unfold load_model_St, load_model. cbn [self files]. rewrite Hgone.
  reflexivity.
Qed.

(** X12. Construction without a checkpoint: asked to continue from the
    latest epoch it starts from scratch, with re-initialised parameters and
    epoch 0; asked to continue from a given epoch it fails with
    [FileNotFoundError]. *)
Theorem missing_checkpoint_at_construction
    (args : arguments) (dir : string) (train val : Z -> list (X * Y))
    (test : list (X * Y)) (network_model : state_dict) (fs : filesystem) :
  (continue_from_epoch args = (-2)%Z ->
   fs !! model_path dir "train_model" Latest = None ->
   init args dir train val test network_model fs
   = Some (Ok (mkSettings (arg_task args) (arg_loss args) (arg_num_epochs args) 0 dir
                          train val test,
               mkWorld (mkBuilder (reset_parameters network_model) 0 1000000000 ∅)
                       (Adam (reset_parameters network_model)) fs [] None None)))
  /\ (continue_from_epoch args <> (-2)%Z ->
      continue_from_epoch args <> (-1)%Z ->
      fs !! model_path dir "train_model" (Epoch (continue_from_epoch args)) = None ->
      init args dir train val test network_model fs = Some (Raise FileNotFoundError)).
Proof.
  split.
  - intros Hargs Hnone. unfold init. rewrite Hargs. cbn [Z.eqb Pos.eqb].
    unfold load_model_St, load_model. cbn [self files]. rewrite Hnone. reflexivity.
  - intros Hne2 Hne1 Hnone. unfold init.
    replace (continue_from_epoch args =? -2)%Z with false
      by (symmetry; now apply Z.eqb_neq).
    replace (continue_from_epoch args =? -1)%Z with false
      by (symmetry; now apply Z.eqb_neq).
    cbn [negb]. unfold load_model_St, load_model. cbn [self files]. rewrite Hnone.
    reflexivity.
Qed.

(** X13. Continuing from the checkpoint written at the end of epoch [e],
    by its index or as the latest one, restores the parameters, the best
    epoch and its measure, and starts at [e] itself: the epoch that had been
    completed is run again. *)
Theorem continuing_runs_the_saved_epoch_again
    (args : arguments) (dir : string) (train val : Z -> list (X * Y))
    (test : list (X * Y)) (network_model : state_dict) (b : builder) (fs : filesystem)
    (e : Z) :
  (continue_from_epoch args = e /\ e <> (-2)%Z /\ e <> (-1)%Z)
  \/ continue_from_epoch args = (-2)%Z ->
  shapes (network b) = shapes (reset_parameters network_model) ->
  exists c w,
    init args dir train val test network_model (snd (save_epoch b fs dir e))
    = Some (Ok (c, w))
    /\ starting_epoch c = e
    /\ network (self w) = network b
    /\ best_val_model_idx (self w) = best_val_model_idx b
    /\ best_val_model_measure (self w) = best_val_model_measure b
    /\ ((e < arg_num_epochs args)%Z ->
        exists rest, enumerate_range (starting_epoch c) (num_epochs c) = (0%Z, e) :: rest).
Proof.
  intros Hargs Hshape.
  destruct (save_epoch_spec b fs dir e) as (st & Hsave & Hnet & Hepoch & Hidx & Hmeasure).
  rewrite Hsave. cbn [snd].
  set (fs' := <[model_path dir "train_model" Latest := st]>
                (<[model_path dir "train_model" (Epoch e) := st]> fs)).
  set (b0 := mkBuilder (reset_parameters network_model) 0 1000000000 ∅).
  assert (Hload : forall i, i = Epoch e \/ i = Latest ->
            load_model b0 fs' dir "train_model" i
            = Ok (mkBuilder (network b) 0 1000000000 ∅,
                  (VInt (best_val_model_idx b), VFloat (best_val_model_measure b), st))).
  { intros i Hi.
    assert (Hfile : fs' !! model_path dir "train_model" i = Some st).
    { unfold fs'. destruct Hi as [-> | ->]; [|apply lookup_insert_eq].
      rewrite lookup_insert_ne by apply model_path_latest. apply lookup_insert_eq. }
    unfold load_model. rewrite Hfile. cbn [bind]. unfold dict_get. rewrite Hnet. cbn [bind].
    unfold load_state_dict. rewrite bool_decide_eq_true_2 by exact Hshape. cbn [bind].
    rewrite Hidx, Hmeasure. reflexivity. }
  set (c := mkSettings (arg_task args) (arg_loss args) (arg_num_epochs args) e dir
                       train val test).
  set (w := mkWorld (mkBuilder (network b) (best_val_model_idx b) (best_val_model_measure b)
                               st)
                    (Adam (reset_parameters network_model)) fs' [] None None).
  exists c, w. split.
  - unfold init. fold b0.
    destruct Hargs as [(Hcfe & Hne2 & Hne1)| Hcfe]; rewrite Hcfe.
    + replace (e =? -2)%Z with false by (symmetry; now apply Z.eqb_neq).
      replace (e =? -1)%Z with false by (symmetry; now apply Z.eqb_neq).
      cbn [negb]. unfold load_model_St. cbn [self files].
      rewrite (Hload (Epoch e)) by now left.
      unfold restored. cbn [fst snd as_index as_number]. unfold dict_get. rewrite Hepoch.
      reflexivity.
    + cbn [Z.eqb Pos.eqb]. unfold load_model_St. cbn [self files].
      rewrite (Hload Latest) by now right.
      unfold restored. cbn [fst snd as_index as_number]. unfold dict_get. rewrite Hepoch.
      reflexivity.
  - split; [reflexivity|]. split; [reflexivity|]. split; [reflexivity|].
    split; [reflexivity|]. intros Hlt. cbn [c starting_epoch num_epochs].
    unfold enumerate_range. rewrite seqZ_cons by lia. cbn [map].
    rewrite Z.sub_diag. eexists. reflexivity.
Qed.

(** The loop over the epochs writes the files of its epochs and the latest
    one, and no other. *)
Lemma epochs_leave_other_files (c : settings X Y) t0 :
  supported_loss (task c) (loss c) = true ->
  new_total_losses (task c) = Some t0 ->
  forall l (w : world Opt) total,
    total_losses w = Some total ->
    keys total = keys t0 ->
    exists w',
      for_each_St (run_epoch c) l w = (Ok tt, w')
      /\ forall i, ~ In i (map snd l) ->
                   files w' !! model_path (experiment_saved_models c) "train_model" (Epoch i)
                   = files w !! model_path (experiment_saved_models c) "train_model" (Epoch i).
Proof.
  intros Hs Ht0. induction l as [|[i e] l IH]; intros w total Htotal Hkeys.
  - exists w. split; [reflexivity|]. reflexivity.
  - destruct (run_epoch_ok c i e w total t0 Hs Htotal Ht0 Hkeys)
      as (w1 & b & m & total1 & Hrun & _ & Hfiles & Htotal1 & Hkeys1 & _).
    destruct (IH w1 total1 Htotal1) as (w' & Hloop & Hother); [congruence|].
    exists w'. split.
    + cbn [for_each_St]. unfold bind_St at 1. rewrite Hrun. exact Hloop.
    + intros j Hj. cbn [map snd In] in Hj. rewrite Hother by tauto. rewrite Hfiles.
      destruct (save_epoch_spec b (files w) (experiment_saved_models c) e) as (st & -> & _).
      cbn [snd]. rewrite lookup_insert_ne by apply model_path_latest.
      rewrite lookup_insert_ne; [reflexivity|].
      intros H. apply model_path_inj in H. tauto.
Qed.

(** After the loop the file of every epoch of the loop holds the
    parameters the model had at the end of that epoch. *)
Lemma epoch_file_after_loop (c : settings X Y) t0 :
  supported_loss (task c) (loss c) = true ->
  new_total_losses (task c) = Some t0 ->
  forall l1 (w : world Opt) total i e l2,
    NoDup (map snd (l1 ++ (i, e) :: l2)) ->
    total_losses w = Some total ->
    keys total = keys t0 ->
    exists w' wb st,
      for_each_St (run_epoch c) (l1 ++ (i, e) :: l2) w = (Ok tt, w')
      /\ for_each_St (run_epoch c) (l1 ++ [(i, e)]) w = (Ok tt, wb)
      /\ files w' !! model_path (experiment_saved_models c) "train_model" (Epoch e)
         = Some st
      /\ st !! "network" = Some (VStateDict (network (self wb))).
Proof.
  intros Hs Ht0.
  induction l1 as [|[i0 e0] l1 IH]; intros w total i e l2 Hnd Htotal Hkeys.
  - cbn [app map snd] in Hnd.
    assert (Hnotin : ~ In e (map snd l2)) by (inversion Hnd; assumption).
    destruct (run_epoch_ok c i e w total t0 Hs Htotal Ht0 Hkeys)
      as (w1 & b & m & total1 & Hrun & Hself & Hfiles & Htotal1 & Hkeys1 & _).
    destruct (epochs_leave_other_files c t0 Hs Ht0 l2 w1 total1 Htotal1)
      as (w' & Hloop & Hother); [congruence|].
    destruct (save_epoch_spec b (files w) (experiment_saved_models c) e)
      as (st & Hsave & Hnet & _).
    exists w', w1, st.
    split; [cbn [app for_each_St]; unfold bind_St at 1; rewrite Hrun; exact Hloop|].
    split; [cbn [app for_each_St]; unfold bind_St, unit_St; now rewrite Hrun|].
    split.
    + rewrite (Hother e Hnotin), Hfiles, Hsave. cbn [snd].
      rewrite lookup_insert_ne by apply model_path_latest. apply lookup_insert_eq.
    + rewrite Hself, Hsave. cbn [fst network]. exact Hnet.
  - cbn [app map snd] in Hnd.
    assert (Hnd' : NoDup (map snd (l1 ++ (i, e) :: l2))) by (inversion Hnd; assumption).
    destruct (run_epoch_ok c i0 e0 w total t0 Hs Htotal Ht0 Hkeys)
      as (w1 & b & m & total1 & Hrun & _ & _ & Htotal1 & Hkeys1 & _).
    destruct (IH w1 total1 i e l2 Hnd' Htotal1) as (w' & wb & st & Hloop & Hpre & Hfile & Hnet);
      [congruence|].
    exists w', wb, st.
    split; [cbn [app for_each_St]; unfold bind_St at 1; rewrite Hrun; exact Hloop|].
    split; [cbn [app for_each_St]; unfold bind_St at 1; rewrite Hrun; exact Hpre|].
    split; assumption.
Qed.

(** When an epoch of the loop becomes the best one, it is the best one
    at its own end, with the measure the loop ends with, and its file
    holds the parameters of that moment. *)
Lemma epochs_best_network (c : settings X Y) t0 :
  supported_loss (task c) (loss c) = true ->
  new_total_losses (task c) = Some t0 ->
  forall l (w : world Opt) total,
    NoDup (map snd l) ->
    total_losses w = Some total ->
    keys total = keys t0 ->
    exists w',
      for_each_St (run_epoch c) l w = (Ok tt, w')
      /\ ((best_val_model_idx (self w'), best_val_model_measure (self w'))
          = (best_val_model_idx (self w), best_val_model_measure (self w))
          \/ exists l1 l2 i wb st,
               l = l1 ++ (i, best_val_model_idx (self w')) :: l2
               /\ for_each_St (run_epoch c) (l1 ++ [(i, best_val_model_idx (self w'))]) w
                  = (Ok tt, wb)
               /\ best_val_model_idx (self wb) = best_val_model_idx (self w')
               /\ best_val_model_measure (self wb) = best_val_model_measure (self w')
               /\ (best_val_model_measure (self w') < best_val_model_measure (self w))%Q
               /\ files w' !! model_path (experiment_saved_models c) "train_model"
                                         (Epoch (best_val_model_idx (self w')))
                  = Some st
               /\ st !! "network" = Some (VStateDict (network (self wb)))).
Proof.
  intros Hs Ht0. induction l as [|[i e] l IH]; intros w total Hnd Htotal Hkeys.
  - exists w. split; [reflexivity|now left].
  - destruct (run_epoch_ok c i e w total t0 Hs Htotal Ht0 Hkeys)
      as (w1 & b & m & total1 & Hrun & Hself & Hfiles & Htotal1 & Hkeys1 & _ & _ & _ & _
          & Hbest).
    assert (Hnd' : NoDup (map snd l)) by (inversion Hnd; assumption).
    destruct (IH w1 total1 Hnd' Htotal1) as (w' & Hloop & Hcase); [congruence|].
    assert (Hall : for_each_St (run_epoch c) ((i, e) :: l) w = (Ok tt, w')).
    { cbn [for_each_St]. unfold bind_St at 1. rewrite Hrun. exact Hloop. }
    exists w'. split; [exact Hall|].
    destruct (save_epoch_spec b (files w) (experiment_saved_models c) e) as (st0 & Hsave & _).
    assert (Hb1 : best_val_model_idx (self w1) = best_val_model_idx b
                  /\ best_val_model_measure (self w1) = best_val_model_measure b).
    { rewrite Hself, Hsave. split; reflexivity. }
    destruct Hb1 as (Hidx1 & Hmeasure1).
    destruct (best_after_cases (best_val_model_idx (self w))
                (best_val_model_measure (self w)) e m) as [Hsame|(v & _ & Hbetter & Hnew)];
      rewrite <- Hbest in *.
    + injection Hsame as Hi Hq.
      destruct Hcase as [Hkeep|(l1 & l2 & i' & wb & st & Hl & Hpre & Hidx & Hm & Hlt & Hfile
                                & Hnet)].
      * left. rewrite Hkeep, Hidx1, Hmeasure1, Hi, Hq. reflexivity.
      * right. exists ((i, e) :: l1), l2, i', wb, st.
        split; [cbn [app]; now rewrite Hl|].
        split; [cbn [app for_each_St]; unfold bind_St at 1; rewrite Hrun; exact Hpre|].
        split; [exact Hidx|]. split; [exact Hm|].
        split; [now rewrite <- Hq, <- Hmeasure1|]. split; assumption.
    + injection Hnew as Hi Hq. apply is_better_lt in Hbetter.
      destruct Hcase as [Hkeep|(l1 & l2 & i' & wb & st & Hl & Hpre & Hidx & Hm & Hlt & Hfile
                                & Hnet)].
      * injection Hkeep as Hki Hkm. right.
        destruct (epoch_file_after_loop c t0 Hs Ht0 [] w total i e l Hnd Htotal Hkeys)
          as (w'' & wb & st & Hloop' & Hpre & Hfile & Hnet).
        cbn [app] in Hloop', Hpre. rewrite Hall in Hloop'. injection Hloop' as <-.
        assert (Hwb : wb = w1).
        { cbn [for_each_St] in Hpre. unfold bind_St, unit_St in Hpre. rewrite Hrun in Hpre.
          now injection Hpre. }
        subst wb.
        assert (Hbest' : best_val_model_idx (self w') = e) by congruence.
        exists [], l, i, w1, st. rewrite Hbest'.
        split; [reflexivity|].
        split; [cbn [app for_each_St]; unfold bind_St, unit_St; now rewrite Hrun|].
        split; [congruence|]. split; [congruence|].
        split; [rewrite Hkm, Hmeasure1, Hq; exact Hbetter|]. split; assumption.
      * right. exists ((i, e) :: l1), l2, i', wb, st.
        split; [cbn [app]; now rewrite Hl|].
        split; [cbn [app for_each_St]; unfold bind_St at 1; rewrite Hrun; exact Hpre|].
        split; [exact Hidx|]. split; [exact Hm|].
        split; [|split; assumption].
        apply Qlt_trans with (best_val_model_measure (self w1)); [exact Hlt|].
        rewrite Hmeasure1, Hq. exact Hbetter.
Qed.

(** X9. A run on a task with its loss completes, and the model it leaves
    in memory is the one of the checkpoint named after the best epoch,
    which is by then stored under the name ending in [_best]: the test
    metrics it returns are the means over the test batches evaluated with
    these parameters.  When an epoch of the run had a mean validation loss
    below the measure the run started with, they are the parameters the
    model had at the end of the best epoch, the epoch whose mean validation
    loss is the final measure.  Otherwise the best epoch and its measure
    are the ones the run started with. *)
Theorem test_set_is_evaluated_with_the_parameters_of_the_best_epoch
    (c : settings X Y) (w : world Opt) :
  supported_loss (task c) (loss c) = true ->
  loadable (files w)
           (model_path (experiment_saved_models c) "train_model"
                       (Epoch (best_val_model_idx (self w))))
           (shapes (network (self w)))
  \/ (starting_epoch c <= best_val_model_idx (self w) < num_epochs c)%Z ->
  exists total test w' st dtest means,
    run_experiment c w = (Ok (total, test), w')
    /\ files w' !! (model_path (experiment_saved_models c) "train_model"
                               (Epoch (best_val_model_idx (self w'))) +:+ "_best")
       = Some st
    /\ st !! "network" = Some (VStateDict (network (self w')))
    /\ for_each_St (batch_step c run_evaluation_iter "test") (test_data c)
                   (set_current_epoch_losses (new_test_losses (task c)) w')
       = (Ok tt, w')
    /\ current_epoch_losses w' = Some dtest
    /\ test = map (fun kv => (fst kv, [Mean (np_mean (snd kv))])) dtest
    /\ column total "val_loss" = map Mean means
    /\ ((best_val_model_idx (self w'), best_val_model_measure (self w'))
        = (best_val_model_idx (self w), best_val_model_measure (self w))
        \/ exists before after i wb,
             enumerate_range (starting_epoch c) (num_epochs c)
             = before ++ (i, best_val_model_idx (self w')) :: after
             /\ for_each_St (run_epoch c) (before ++ [(i, best_val_model_idx (self w'))])
                            (set_total_losses (new_total_losses (task c))
                                              (set_current_epoch_losses None w))
                = (Ok tt, wb)
             /\ network (self w') = network (self wb)
             /\ best_val_model_idx (self wb) = best_val_model_idx (self w')
             /\ best_val_model_measure (self wb) = best_val_model_measure (self w')
             /\ (best_val_model_measure (self w') < best_val_model_measure (self w))%Q
             /\ In (best_val_model_idx (self w'), Some (best_val_model_measure (self w')))
                   (combine (seqZ (starting_epoch c) (num_epochs c - starting_epoch c))
                            means)).
Proof.
  intros Hs Hload.
  destruct (run_experiment_ok c w Hs Hload)
    as (total & test & w' & means & st & dtest & Hrun & _ & Hcolv & _ & Hfold & Hbest & _
        & Hnet & _ & Hcel & Htest & Hagain & w1 & Hloop & Hidx1 & Hm1 & Hfile1).
  exists total, test, w', st, dtest, means.
  repeat (split; [assumption|]).
  assert (Ht0 : exists t0, new_total_losses (task c) = Some t0).
  { unfold new_total_losses.
    destruct (supported_loss_cases _ _ Hs) as [[E _]|[E _]]; rewrite E; eexists; reflexivity. }
  destruct Ht0 as (t0 & Ht0).
  destruct (epochs_best_network c t0 Hs Ht0
              (enumerate_range (starting_epoch c) (num_epochs c))
              (set_total_losses (new_total_losses (task c))
                                (set_current_epoch_losses None w)) t0)
    as (w1' & Hloop' & Hcase).
  { rewrite enumerate_range_epochs. apply NoDup_ListNoDup, NoDup_seqZ. }
  { rewrite Ht0. reflexivity. }
  { reflexivity. }
  rewrite Hloop in Hloop'. injection Hloop' as <-.
  rewrite Hidx1, Hm1 in Hcase. cbn [self set_total_losses set_current_epoch_losses] in Hcase.
  destruct Hcase as [Hkeep|(l1 & l2 & i & wb & st' & Hl & Hpre & Hidx & Hm & Hlt & Hfile
                            & Hnet')]; [now left|right].
  exists l1, l2, i, wb.
  split; [exact Hl|]. split; [exact Hpre|].
  split; [rewrite Hfile1 in Hfile; injection Hfile as <-; congruence|].
  split; [exact Hidx|]. split; [exact Hm|]. split; [exact Hlt|].
  pose proof (best_after_fold
                (combine (seqZ (starting_epoch c) (num_epochs c - starting_epoch c)) means)
                (best_val_model_idx (self w)) (best_val_model_measure (self w))) as Hf.
  cbn zeta in Hf. rewrite <- Hfold in Hf. cbn [fst snd] in Hf.
  destruct Hf as (_ & _ & [Hinit|(rows1 & rows2 & Hrows & _)]).
  - injection Hinit as _ Hq. rewrite Hq in Hlt. now apply Qlt_irrefl in Hlt.
  - rewrite Hrows. apply in_or_app. right. now left.
Qed.

(** X21. A run that continues from the checkpoint of the epoch that is
    its best one so far trains that epoch again (X13) and overwrites its
    file.  When no epoch of the run then has a mean validation loss below
    the restored measure, the best epoch stays the restored one, and the
    test set is evaluated with the parameters the model has after the
    second training of that epoch. *)
Theorem continuing_from_the_best_epoch_tests_retrained_parameters
    (c : settings X Y) (w : world Opt) :
  supported_loss (task c) (loss c) = true ->
  best_val_model_idx (self w) = starting_epoch c ->
  (starting_epoch c < num_epochs c)%Z ->
  exists total test w' wb,
    run_experiment c w = (Ok (total, test), w')
    /\ run_epoch c (0%Z, starting_epoch c)
                 (set_total_losses (new_total_losses (task c))
                                   (set_current_epoch_losses None w))
       = (Ok tt, wb)
    /\ for_each_St (batch_step c run_evaluation_iter "test") (test_data c)
                   (set_current_epoch_losses (new_test_losses (task c)) w')
       = (Ok tt, w')
    /\ (best_val_model_measure (self w') = best_val_model_measure (self w) ->
        best_val_model_idx (self w') = starting_epoch c
        /\ network (self w') = network (self wb)).
Proof.
  intros Hs Hstart Hlt.
  assert (Hload : loadable (files w)
                           (model_path (experiment_saved_models c) "train_model"
                                       (Epoch (best_val_model_idx (self w))))
                           (shapes (network (self w)))
                  \/ (starting_epoch c <= best_val_model_idx (self w) < num_epochs c)%Z)
    by (right; lia).
  destruct (run_experiment_ok c w Hs Hload)
    as (total & test & w' & means & st & dtest & Hrun & _ & _ & _ & Hfold & _ & _
        & Hnet & _ & _ & _ & Hagain & w1 & Hloop & Hidx1 & Hm1 & Hfile1).
  assert (Ht0 : exists t0, new_total_losses (task c) = Some t0).
  { unfold new_total_losses.
    destruct (supported_loss_cases _ _ Hs) as [[E _]|[E _]]; rewrite E; eexists; reflexivity. }
  destruct Ht0 as (t0 & Ht0).
  assert (Hrange : exists rest,
             enumerate_range (starting_epoch c) (num_epochs c)
             = (0%Z, starting_epoch c) :: rest).
  { unfold enumerate_range. rewrite seqZ_cons by lia. cbn [map].
    rewrite Z.sub_diag. eexists. reflexivity. }
  destruct Hrange as (rest & Hrange).
  destruct (epoch_file_after_loop c t0 Hs Ht0 [] 
              (set_total_losses (new_total_losses (task c))
                                (set_current_epoch_losses None w)) t0
              0%Z (starting_epoch c) rest)
    as (w1' & wb & st' & Hloop' & Hpre & Hfile & Hnet').
  { cbn [app]. rewrite <- Hrange, enumerate_range_epochs.
    apply NoDup_ListNoDup, NoDup_seqZ. }
  { rewrite Ht0. reflexivity. }
  { reflexivity. }
  cbn [app] in Hloop', Hpre. rewrite <- Hrange, Hloop in Hloop'. injection Hloop' as <-.
  destruct (run_epoch c (0%Z, starting_epoch c)
              (set_total_losses (new_total_losses (task c))
                                (set_current_epoch_losses None w)))
    as [r wb'] eqn:Hepoch.
  cbn [for_each_St] in Hpre. unfold bind_St, unit_St in Hpre. rewrite Hepoch in Hpre.
  destruct r as [[]|err]; [|discriminate]. injection Hpre as ->.
  exists total, test, w', wb.
  split; [exact Hrun|]. split; [reflexivity|]. split; [exact Hagain|].
  intros Hsame.
  assert (Hidx : best_val_model_idx (self w') = starting_epoch c).
  { pose proof (best_after_fold
                  (combine (seqZ (starting_epoch c) (num_epochs c - starting_epoch c)) means)
                  (best_val_model_idx (self w)) (best_val_model_measure (self w))) as Hf.
    cbn zeta in Hf. rewrite <- Hfold in Hf. cbn [fst snd] in Hf.
    destruct Hf as (_ & _ & [Hinit|(rows1 & rows2 & _ & Hless & _)]).
    - injection Hinit as Hi _. now rewrite Hi.
    - rewrite Hsame in Hless. now apply Qlt_irrefl in Hless. }
  split; [exact Hidx|].
  rewrite Hidx in Hfile1. rewrite Hfile1 in Hfile. injection Hfile as <-. congruence.
Qed.

(** X15. A run whose best epoch so far has no file under its index, as
    after a completed run, and whose epochs do not include it: all epochs
    are trained and saved, and unless one of them becomes the best epoch the
    run then fails with [FileNotFoundError], before the test set is
    evaluated. *)
Theorem continued_run_without_a_better_epoch_fails (c : settings X Y) (w : world Opt) :
  supported_loss (task c) (loss c) = true ->
  files w !! model_path (experiment_saved_models c) "train_model"
                        (Epoch (best_val_model_idx (self w)))
  = None ->
  ~ (starting_epoch c <= best_val_model_idx (self w) < num_epochs c)%Z ->
  exists w1,
    for_each_St (run_epoch c) (enumerate_range (starting_epoch c) (num_epochs c))
                (set_total_losses (new_total_losses (task c))
                                  (set_current_epoch_losses None w))
    = (Ok tt, w1)
    /\ (best_val_model_idx (self w1) = best_val_model_idx (self w) ->
        run_experiment c w = (Raise FileNotFoundError, w1)).
Proof.
  intros Hs Hnone Hout.
  assert (Ht0 : exists t0, new_total_losses (task c) = Some t0).
  { unfold new_total_losses.
    destruct (supported_loss_cases _ _ Hs) as [[E _]|[E _]]; rewrite E; eexists; reflexivity. }
  destruct Ht0 as (t0 & Ht0).
  destruct (epochs_leave_other_files c t0 Hs Ht0
              (enumerate_range (starting_epoch c) (num_epochs c))
              (set_total_losses (Some t0) (set_current_epoch_losses None w)) t0
              eq_refl eq_refl) as (w1 & Hloop & Hother).
  exists w1. rewrite Ht0. split; [exact Hloop|]. intros Hbest.
  assert (Hgone : files w1 !! model_path (experiment_saved_models c) "train_model"
                                         (Epoch (best_val_model_idx (self w1))) = None).
  { rewrite Hbest, Hother; [exact Hnone|].
    rewrite enumerate_range_epochs. intros Hin.
    apply list_elem_of_In, elem_of_seqZ in Hin. lia. }
  unfold run_experiment. rewrite Ht0.
  unfold bind_St at 1. unfold modify_St at 1.
  unfold bind_St at 1. unfold modify_St at 1.
  unfold bind_St at 1. unfold modify_St at 1.
  unfold bind_St at 1.
  change (set_total_losses (Some t0) (set_current_epoch_losses None (set_total_losses None w)))
    with (set_total_losses (Some t0) (set_current_epoch_losses None w)).
  rewrite Hloop.
  unfold bind_St at 1. unfold gets_St at 1.
  unfold bind_St at 1. unfold load_model_St at 1. unfold load_model. rewrite Hgone.
  reflexivity.
Qed.

Lemma batches_of_unknown_task (c : settings X Y) iter ds batches (w : world Opt) :
  String.eqb (task c) "classification" = false ->
  String.eqb (task c) "regression" = false ->
  for_each_St (batch_step c iter ds) batches w = (Ok tt, w).
Proof.
  intros Hc Hr. induction batches as [|xy batches IH]; [reflexivity|].
  cbn [for_each_St]. unfold bind_St at 1. unfold batch_step at 1. rewrite Hc, Hr.
  exact IH.
Qed.

(** X14. With a task that is neither [classification] nor [regression]
    a run of at least one epoch passes over the training and validation
    batches of the first epoch without a single iteration of the model, and
    then fails with [UnboundLocalError]: no parameter is changed and nothing
    is written. *)
Theorem unknown_task_trains_nothing (c : settings X Y) (w : world Opt) :
  String.eqb (task c) "classification" = false ->
  String.eqb (task c) "regression" = false ->
  (starting_epoch c < num_epochs c)%Z ->
  run_experiment c w
  = (Raise UnboundLocalError, set_current_epoch_losses None (set_total_losses None w)).
Proof.
  intros Hc Hr Hlt. unfold run_experiment, new_total_losses. rewrite Hc, Hr.
  unfold enumerate_range. rewrite seqZ_cons by lia. cbn [map for_each_St].
  unfold run_epoch at 1, new_epoch_losses. rewrite Hc, Hr. cbn [fst snd].
  unfold bind_St at 1. unfold modify_St at 1.
  unfold bind_St at 1. unfold modify_St at 1.
  unfold bind_St at 1. unfold unit_St at 1.
  unfold bind_St at 1. unfold bind_St at 1. unfold bind_St at 1. unfold unit_St at 1.
  unfold bind_St at 1. rewrite batches_of_unknown_task by assumption.
  unfold bind_St at 1. rewrite batches_of_unknown_task by assumption.
  unfold bind_St at 1. unfold local_St at 1. reflexivity.
Qed.

(** X17. A task with a loss that does not go with it (classification
    with L2, regression with cross_entropy, ...) is accepted at
    construction; the run fails with [UnboundLocalError] in the first
    training batch, after the forward pass and before the first step of the
    optimiser, and nothing has been written by then. *)
Theorem mismatched_loss_fails_at_the_first_training_batch
    (c : settings X Y) (w : world Opt) (x : X) (y : Y) (rest : list (X * Y)) :
  supported_loss (task c) (loss c) = false ->
  String.eqb (task c) "classification" || String.eqb (task c) "regression" = true ->
  (starting_epoch c < num_epochs c)%Z ->
  train_data c (starting_epoch c) = (x, y) :: rest ->
  exists w',
    run_experiment c w = (Raise UnboundLocalError, w')
    /\ network (self w') = running_statistics (network (self w)) x
    /\ optimizer w' = optimizer w
    /\ files w' = files w
    /\ statistics w' = statistics w.
Proof.
  intros Hs Htask Hlt Hdata.
  assert (Hiter : forall w0 : world Opt,
             run_train_iter c x y w0
             = (Raise UnboundLocalError,
                set_network (running_statistics (network (self w0)) x) w0)).
  { intros w0. unfold run_train_iter.
    now rewrite (forward_prop_and_loss_unsupported _ _ _ _ _ x y Hs). }
  assert (Hdicts : exists t0 d0, new_total_losses (task c) = Some t0
                                 /\ new_epoch_losses (task c) = Some d0).
  { unfold new_total_losses, new_epoch_losses.
    destruct (String.eqb (task c) "classification"); [eexists; eexists; split; reflexivity|].
    destruct (String.eqb (task c) "regression"); [eexists; eexists; split; reflexivity|].
    discriminate. }
  destruct Hdicts as (t0 & d0 & Ht0 & Hd0).
  set (w0 := set_current_epoch_losses (Some d0)
               (set_total_losses (Some t0)
                  (set_current_epoch_losses None (set_total_losses None w)))).
  assert (Hstep : batch_step c run_train_iter "train" (x, y) w0
                  = (Raise UnboundLocalError,
                     set_network (running_statistics (network (self w0)) x) w0)).
  { unfold batch_step. cbn [fst snd].
    assert (Hrec : (do m <- run_train_iter c x y;
                    do d <- local_St current_epoch_losses;
                    do d' <- lift_St (update_current_epoch_stats (task c) d "train"
                                        (fst (fst m)) (snd (fst m)) (snd m));
                    modify_St (set_current_epoch_losses (Some d'))) w0
                   = (Raise UnboundLocalError,
                      set_network (running_statistics (network (self w0)) x) w0)).
    { unfold bind_St at 1. now rewrite Hiter. }
    destruct (String.eqb (task c) "classification"); [exact Hrec|].
    destruct (String.eqb (task c) "regression"); [exact Hrec|discriminate]. }
  exists (set_network (running_statistics (network (self w0)) x) w0).
  split; [|repeat split].
  unfold run_experiment. rewrite Ht0.
  unfold enumerate_range. rewrite seqZ_cons by lia. cbn [map for_each_St].
  unfold run_epoch at 1. rewrite Hd0. cbn [fst snd]. rewrite Hdata. cbn [for_each_St].
  unfold bind_St at 1. unfold modify_St at 1.
  unfold bind_St at 1. unfold modify_St at 1.
  unfold bind_St at 1. unfold modify_St at 1.
  unfold bind_St at 1. unfold bind_St at 1. unfold bind_St at 1. unfold modify_St at 1.
  fold w0. unfold bind_St at 1. unfold bind_St at 1. rewrite Hstep. reflexivity.
Qed.

End TrainingProperties.

(** ** The run of the linear model *)

Lemma line_model_step_shape (net : state_dict) (opt : unit) (l : Q) :
  shapes (fst (optimizer_step (Torch := line_model) net opt l)) = shapes net.
Proof.
  unfold shapes. cbn [optimizer_step line_model fst].
  rewrite <- map_fmap_compose. apply map_fmap_ext. intros k ws _. apply length_map.
Qed.

Lemma line_model_buffers_shape (net : state_dict) (x : Q) :
  shapes (running_statistics (Torch := line_model) net x) = shapes net.
Proof. reflexivity. Qed.

Lemma test_set_is_evaluated_with_the_parameters_of_the_best_epoch_witness :
  exists total test w' st dtest means,
    run_experiment (torch := line_model) line_settings line_world = (Ok (total, test), w')
    /\ files w' !! (model_path "saved_models" "train_model"
                               (Epoch (best_val_model_idx (self w'))) +:+ "_best")
       = Some st
    /\ st !! "network" = Some (VStateDict (network (self w')))
    /\ for_each_St (batch_step line_settings (run_evaluation_iter (torch := line_model)) "test")
                   [(1, 0)%Q] (set_current_epoch_losses (Some [("test_loss", [])]) w')
       = (Ok tt, w')
    /\ current_epoch_losses w' = Some dtest
    /\ test = map (fun kv => (fst kv, [Mean (np_mean (snd kv))])) dtest
    /\ column total "val_loss" = map Mean means
    /\ ((best_val_model_idx (self w'), best_val_model_measure (self w'))
        = (0%Z, 1000000000%Q)
        \/ exists before after i wb,
             enumerate_range 0 4 = before ++ (i, best_val_model_idx (self w')) :: after
             /\ for_each_St (run_epoch (torch := line_model) line_settings)
                            (before ++ [(i, best_val_model_idx (self w'))])
                            (set_total_losses (Some [("train_loss", []); ("val_loss", []);
                                                     ("curr_epoch", [])])
                                              (set_current_epoch_losses None line_world))
                = (Ok tt, wb)
             /\ network (self w') = network (self wb)
             /\ best_val_model_idx (self wb) = best_val_model_idx (self w')
             /\ best_val_model_measure (self wb) = best_val_model_measure (self w')
             /\ (best_val_model_measure (self w') < 1000000000)%Q
             /\ In (best_val_model_idx (self w'), Some (best_val_model_measure (self w')))
                   (combine (seqZ 0 (4 - 0)) means)).
Proof.
  assert (Hrange : (0 <= 0 < 4)%Z) by lia.
  exact (test_set_is_evaluated_with_the_parameters_of_the_best_epoch (torch := line_model)
           line_model_step_shape line_model_buffers_shape line_settings line_world
           eq_refl (or_intror Hrange)).
Defined.

Lemma continuing_from_the_best_epoch_tests_retrained_parameters_witness :
  exists total test w' wb,
    run_experiment (torch := line_model) resumed_settings resumed_world
    = (Ok (total, test), w')
    /\ run_epoch (torch := line_model) resumed_settings (0%Z, 2%Z)
                 (set_total_losses (new_total_losses "regression")
                                   (set_current_epoch_losses None resumed_world))
       = (Ok tt, wb)
    /\ best_val_model_idx (self w') = 2%Z
    /\ best_val_model_measure (self w') = 0%Q
    /\ network (self w') = network (self wb)
    /\ weight (network (self resumed_world)) = 0%Q
    /\ weight (network (self w')) = (-1)%Q.
Proof.
  assert (Hlt : (2 < 4)%Z) by lia.
  destruct (continuing_from_the_best_epoch_tests_retrained_parameters (torch := line_model)
              line_model_step_shape line_model_buffers_shape
              resumed_settings resumed_world eq_refl eq_refl Hlt)
    as (total & test & w' & wb & Hrun & Hepoch & _ & Hsame).
  exists total, test, w', wb. split; [exact Hrun|]. split; [exact Hepoch|].
  assert (Hw : w' = snd (run_experiment (torch := line_model) resumed_settings
                                        resumed_world)) by now rewrite Hrun.
  assert (Hmeasure : best_val_model_measure (self w') = 0%Q)
    by (rewrite Hw; vm_compute; reflexivity).
  assert (Hweight : weight (network (self w')) = (-1)%Q)
    by (rewrite Hw; vm_compute; reflexivity).
  destruct (Hsame Hmeasure) as (Hidx & Hnet).
  split; [exact Hidx|]. split; [exact Hmeasure|]. split; [exact Hnet|].
  split; [reflexivity|exact Hweight].
Defined.

Lemma best_epoch_is_the_earliest_with_the_lowest_validation_loss_witness :
  exists total test w' means,
    run_experiment (torch := line_model) line_settings line_world = (Ok (total, test), w')
    /\ column total "curr_epoch" = map EpochIdx (seqZ 0 4)
    /\ column total "val_loss" = map Mean means
    /\ length means = 4
    /\ (best_val_model_measure (self w') <= 1000000000)%Q
    /\ (forall e m, In (e, Some m) (combine (seqZ 0 4) means) ->
                    (best_val_model_measure (self w') <= m)%Q)
    /\ ((best_val_model_idx (self w'), best_val_model_measure (self w'))
        = (0%Z, 1000000000%Q)
        \/ exists rows1 rows2,
             combine (seqZ 0 4) means
             = rows1 ++ (best_val_model_idx (self w'),
                         Some (best_val_model_measure (self w'))) :: rows2
             /\ (best_val_model_measure (self w') < 1000000000)%Q
             /\ forall e m, In (e, Some m) rows1 ->
                            (best_val_model_measure (self w') < m)%Q).
Proof.
  assert (Hrange : (0 <= 0 < 4)%Z) by lia.
  exact (best_epoch_is_the_earliest_with_the_lowest_validation_loss (torch := line_model)
           line_model_step_shape line_model_buffers_shape line_settings line_world
           eq_refl (or_intror Hrange)).
Defined.

Lemma finished_run_cannot_continue_from_its_best_epoch_witness :
  exists r w',
    run_experiment (torch := line_model) line_settings line_world = (Ok r, w')
    /\ files w' !! model_path "saved_models" "train_model"
                              (Epoch (best_val_model_idx (self w')))
       = None
    /\ (2%Z = best_val_model_idx (self w') ->
        init (torch := line_model) (mkArguments "regression" "L2" 8 2) "saved_models"
             (fun _ => [(1, 0)%Q]) (fun _ => [(1, 0)%Q]) [(1, 0)%Q] {["w" := [3%Q]]}
             (files w')
        = Some (Raise FileNotFoundError)).
Proof.
  assert (Hrange : (0 <= 0 < 4)%Z) by lia.
  assert (Hzero : (0 <= 0)%Z) by lia.
  exact (finished_run_cannot_continue_from_its_best_epoch (torch := line_model)
           line_model_step_shape line_model_buffers_shape line_settings line_world
           (mkArguments "regression" "L2" 8 2)
           (fun _ => [(1, 0)%Q]) (fun _ => [(1, 0)%Q]) [(1, 0)%Q] {["w" := [3%Q]]}
           eq_refl (or_intror Hrange) Hzero Hzero).
Defined.

Lemma missing_checkpoint_at_construction_witness :
  init (torch := line_model) (mkArguments "regression" "L2" 4 (-2)) "saved_models"
       (fun _ => [(1, 0)%Q]) (fun _ => [(1, 0)%Q]) [(1, 0)%Q] {["w" := [0%Q]]} ∅
  = Some (Ok (line_settings, line_world))
  /\ init (torch := line_model) (mkArguments "regression" "L2" 4 3) "saved_models"
          (fun _ => [(1, 0)%Q]) (fun _ => [(1, 0)%Q]) [(1, 0)%Q] {["w" := [0%Q]]} ∅
     = Some (Raise FileNotFoundError).
Proof.
  split.
  - exact (proj1 (missing_checkpoint_at_construction (torch := line_model)
                    (mkArguments "regression" "L2" 4 (-2)) "saved_models"
                    (fun _ => [(1, 0)%Q]) (fun _ => [(1, 0)%Q]) [(1, 0)%Q] {["w" := [0%Q]]} ∅)
                 eq_refl eq_refl).
  - apply (proj2 (missing_checkpoint_at_construction (torch := line_model)
                    (mkArguments "regression" "L2" 4 3) "saved_models"
                    (fun _ => [(1, 0)%Q]) (fun _ => [(1, 0)%Q]) [(1, 0)%Q] {["w" := [0%Q]]} ∅));
      [discriminate|discriminate|reflexivity].
Defined.

Lemma continuing_runs_the_saved_epoch_again_witness :
  exists c w,
    init (torch := line_model) (mkArguments "regression" "L2" 8 3) "saved_models"
         (fun _ => [(1, 0)%Q]) (fun _ => [(1, 0)%Q]) [(1, 0)%Q] {["model.weight" := [0; 0]%Q]}
         (snd (save_epoch trained_builder ∅ "saved_models" 3))
    = Some (Ok (c, w))
    /\ starting_epoch c = 3%Z
    /\ network (self w) = network trained_builder
    /\ best_val_model_idx (self w) = 2%Z
    /\ best_val_model_measure (self w) = (42 # 100)%Q
    /\ ((3 < 8)%Z ->
        exists rest, enumerate_range (starting_epoch c) (num_epochs c) = (0%Z, 3%Z) :: rest).
Proof.
  assert (Hargs : (3%Z = 3%Z /\ 3%Z <> (-2)%Z /\ 3%Z <> (-1)%Z)
                  \/ 3%Z = (-2)%Z) by (left; repeat split; discriminate).
  assert (Hshape : shapes (network trained_builder)
                   = shapes (reset_parameters (Torch := line_model)
                               {["model.weight" := [0; 0]%Q]})).
  { unfold shapes, trained_builder. cbn [network reset_parameters line_model].
    rewrite !map_fmap_singleton. reflexivity. }
  exact (continuing_runs_the_saved_epoch_again (torch := line_model)
           (mkArguments "regression" "L2" 8 3) "saved_models"
           (fun _ => [(1, 0)%Q]) (fun _ => [(1, 0)%Q]) [(1, 0)%Q]
           {["model.weight" := [0; 0]%Q]} trained_builder ∅ 3 Hargs Hshape).
Defined.

Lemma unknown_task_trains_nothing_witness :
  run_experiment (torch := line_model) ranking_settings line_world
  = (Raise UnboundLocalError, line_world).
Proof.
  assert (Hlt : (0 < 4)%Z) by lia.
  exact (unknown_task_trains_nothing (torch := line_model) ranking_settings line_world
           eq_refl eq_refl Hlt).
Defined.

Lemma continued_run_without_a_better_epoch_fails_witness :
  fst (run_experiment (torch := line_model) continued_settings finished_world)
  = Raise FileNotFoundError.
Proof.
  assert (Hout : ~ (3 <= 2 < 5)%Z) by lia.
  destruct (continued_run_without_a_better_epoch_fails (torch := line_model)
              line_model_step_shape line_model_buffers_shape
              continued_settings finished_world eq_refl eq_refl Hout)
    as (w1 & Hloop & Hfails).
  rewrite Hfails; [reflexivity|].
  vm_compute in Hloop. injection Hloop as <-. reflexivity.
Defined.

Lemma mismatched_loss_fails_at_the_first_training_batch_witness :
  exists w',
    run_experiment (torch := line_model) mismatched_settings line_world
    = (Raise UnboundLocalError, w')
    /\ network (self w') = network (self line_world)
    /\ optimizer w' = tt
    /\ files w' = ∅
    /\ statistics w' = [].
Proof.
  assert (Hlt : (0 < 4)%Z) by lia.
  exact (mismatched_loss_fails_at_the_first_training_batch (torch := line_model)
           mismatched_settings line_world 1%Q 0%Q [] eq_refl eq_refl Hlt eq_refl).
Defined.

(** * Properties of the context encoder *)

Import ContextEncoder.

Lemma and_then_built {A B : Type} (r : outcome A) (k : A -> outcome B) b :
  and_then r k = Built b -> exists a, r = Built a /\ k a = Built b.
Proof. destruct r as [a|e]; cbn; [intros H; now exists a|discriminate]. Qed.

Lemma for_range_app {S : Type} (body : S -> nat -> outcome S) l1 l2 st :
  for_range body (l1 ++ l2) st
  = and_then (for_range body l1 st) (for_range body l2).
Proof.
  revert st. induction l1 as [|i l1 IH]; intros st; [reflexivity|].
  cbn [for_range app]. destruct (body st i) as [st'|e]; cbn [and_then]; [apply IH|reflexivity].
Qed.

Lemma apply_layers_app training l1 l2 x :
  apply_layers training (l1 ++ l2) x
  = and_then (apply_layers training l1 x) (apply_layers training l2).
Proof.
  revert x. induction l1 as [|l l1 IH]; intros x; [reflexivity|].
  cbn [apply_layers app]. destruct (apply_layer training l x) as [x'|e]; cbn [and_then];
    [apply IH|reflexivity].
Qed.

Lemma add_layer_consistent x0 name l st st' :
  consistent x0 st -> add_layer name l st = Built st' -> consistent x0 st'.
Proof.
  unfold consistent, add_layer. intros Hc H.
  apply and_then_built in H as (out & Hout & H). injection H as <-.
  cbn [fst snd]. rewrite map_app, apply_layers_app, Hc. cbn [and_then map snd apply_layers].
  now rewrite Hout.
Qed.

Lemma encoder_step_consistent a x0 st i st' :
  consistent x0 st -> encoder_step a st i = Built st' -> consistent x0 st'.
Proof.
  unfold encoder_step. intros Hc H.
  apply and_then_built in H as (conv & _ & H).
  apply and_then_built in H as (st1 & H1 & H).
  apply and_then_built in H as (st2 & H2 & H).
  pose proof (add_layer_consistent _ _ _ _ _ Hc H1) as Hc1.
  assert (Hc2 : consistent x0 st2).
  { destruct (0 <? i); [exact (add_layer_consistent _ _ _ _ _ Hc1 H2)|].
    injection H2 as <-. exact Hc1. }
  exact (add_layer_consistent _ _ _ _ _ Hc2 H).
Qed.

Lemma decoder_step_consistent a x0 st i st' :
  consistent x0 st -> decoder_step a st i = Built st' -> consistent x0 st'.
Proof.
  unfold decoder_step. intros Hc H.
  apply and_then_built in H as (conv & _ & H).
  apply and_then_built in H as (st1 & H1 & H).
  apply and_then_built in H as (st2 & H2 & H).
  pose proof (add_layer_consistent _ _ _ _ _ Hc H1) as Hc1.
  destruct (Z.of_nat i <? Z.of_nat (num_layers_enc a + num_layers_dec a) - 1)%Z.
  - pose proof (add_layer_consistent _ _ _ _ _ Hc1 H2) as Hc2.
    exact (add_layer_consistent _ _ _ _ _ Hc2 H).
  - injection H2 as <-.
    destruct (negb (output_softmax a)); [exact (add_layer_consistent _ _ _ _ _ Hc1 H)|].
    injection H as <-. exact Hc1.
Qed.

Lemma for_range_consistent (body : state -> nat -> outcome state) x0 :
  (forall st i st', consistent x0 st -> body st i = Built st' -> consistent x0 st') ->
  forall indices st st',
    consistent x0 st -> for_range body indices st = Built st' -> consistent x0 st'.
Proof.
  intros Hbody. induction indices as [|i indices IH]; intros st st' Hc H.
  - injection H as <-. exact Hc.
  - cbn [for_range] in H. apply and_then_built in H as (st1 & H1 & H).
    exact (IH st1 st' (Hbody st i st1 Hc H1) H).
Qed.

Lemma apply_layers_evaluation layers : forall x y,
  apply_layers true layers x = Built y -> apply_layers false layers x = Built y.
Proof.
  induction layers as [|l layers IH]; intros x y H; [exact H|].
  cbn [apply_layers] in *. apply and_then_built in H as (x' & Hl & H).
  assert (Hl' : apply_layer false l x = Built x').
  { destruct l; cbn in Hl |- *; try exact Hl.
    destruct (negb (s_channels x =? num_features)%Z); [discriminate|].
    cbn [andb] in *. destruct (s_batch x * s_height x * s_width x =? 1)%Z;
      [discriminate|exact Hl]. }
  rewrite Hl'. cbn [and_then]. now apply IH.
Qed.

(** X18. When [build_module] succeeds, the shape it has computed for its
    dummy input is the shape the built layers give, one after the other,
    to a batch of the size of the arguments, in training mode and in
    evaluation mode alike; without the softmax output this is the shape
    [forward] returns. *)
Theorem forward_returns_the_shape_of_the_build
    (a : arguments) (layer_dict : list (string * layer)) (out : shape) :
  build_module a = Built (layer_dict, out) ->
  apply_layers true (map snd layer_dict) (input_shape a) = Built out
  /\ apply_layers false (map snd layer_dict) (input_shape a) = Built out
  /\ (output_softmax a = false ->
      forall training, forward a training layer_dict (input_shape a) = Built (Pixels out)).
Proof.
  intros Hbuild. unfold build_module in Hbuild.
  apply and_then_built in Hbuild as (encoded & Henc & Hdec).
  assert (Hc : consistent (input_shape a) (layer_dict, out)).
  { refine (for_range_consistent (decoder_step a) (input_shape a)
              (decoder_step_consistent a (input_shape a)) _ encoded _ _ Hdec).
    refine (for_range_consistent (encoder_step a) (input_shape a)
              (encoder_step_consistent a (input_shape a)) _ ([], input_shape a) _ _ Henc).
    reflexivity. }
  unfold consistent in Hc. cbn [fst snd] in Hc.
  pose proof (apply_layers_evaluation _ _ _ Hc) as Hc'.
  split; [exact Hc|]. split; [exact Hc'|].
  intros Hsoft training. unfold forward. rewrite Hsoft.
  destruct training; [rewrite Hc|rewrite Hc']; reflexivity.
Qed.

Lemma forward_returns_the_shape_of_the_build_witness :
  exists layer_dict,
    build_module base_arguments = Built (layer_dict, mkShape 2 3 64 64)
    /\ apply_layers false (map snd layer_dict) (mkShape 2 3 128 128)
       = Built (mkShape 2 3 64 64)
    /\ forward base_arguments false layer_dict (mkShape 2 3 128 128)
       = Built (Pixels (mkShape 2 3 64 64)).
Proof.
  assert (Hbuild : exists layer_dict,
             build_module base_arguments = Built (layer_dict, mkShape 2 3 64 64))
    by (eexists; vm_compute; reflexivity).
  destruct Hbuild as (layer_dict & Hbuild).
  destruct (forward_returns_the_shape_of_the_build base_arguments layer_dict
              (mkShape 2 3 64 64) Hbuild) as (_ & Heval & Hforward).
  exists layer_dict. split; [exact Hbuild|]. split; [exact Heval|].
  exact (Hforward eq_refl false).
Defined.

(** ** The sizes of the feature maps *)

Lemma halving_conv (h : Z) : conv2d_size h 4 2 1 = (h / 2)%Z.
Proof.
  unfold conv2d_size. replace (h + 2 * 1 - 4)%Z with (h + (-1) * 2)%Z by lia.
  rewrite Z.div_add by lia. lia.
Qed.

Lemma full_kernel_conv (h : Z) : conv2d_size h h 1 0 = 1%Z.
Proof.
  unfold conv2d_size. replace (h + 2 * 0 - h)%Z with 0%Z by lia. reflexivity.
Qed.

Lemma doubling_conv_transpose (h : Z) : conv_transpose2d_size h 4 2 1 = (2 * h)%Z.
Proof. unfold conv_transpose2d_size. lia. Qed.

Lemma half_at_least (H : Z) (m : nat) (q : Z) :
  (0 <= q)%Z -> (2 ^ Z.of_nat m * q <= H)%Z -> (q <= H / 2 ^ Z.of_nat m)%Z.
Proof.
  intros Hq Hle. apply Z.div_le_lower_bound; [|exact Hle].
  apply Z.pow_pos_nonneg; lia.
Qed.

Lemma half_again (H : Z) (m : nat) :
  (H / 2 ^ Z.of_nat m / 2 = H / 2 ^ Z.of_nat (S m))%Z.
Proof.
  rewrite Nat2Z.inj_succ, Z.pow_succ_r by lia.
  rewrite Z.div_div; [f_equal; lia| |lia].
  apply Z.pow_nonzero; lia.
Qed.

(** The first [m] layers of the encoder halve a square image [m] times. *)
Lemma encoder_halves (a : arguments) (m : nat) :
  kernel_size a = 4%positive ->
  image_width a = image_height a ->
  m < num_layers_enc a ->
  m <= length (num_channels_progression_enc a) ->
  (2 ^ Z.of_nat m <= Zpos (image_height a))%Z ->
  (2 <= Zpos (batch_size a))%Z \/ (2 ^ Z.of_nat m * 2 <= Zpos (image_height a))%Z ->
  exists layers c,
    for_range (encoder_step a) (seq 0 m) ([], input_shape a)
    = Built (layers,
             mkShape (Zpos (batch_size a)) c
                     (Zpos (image_height a) / 2 ^ Z.of_nat m)
                     (Zpos (image_height a) / 2 ^ Z.of_nat m)).
Proof.
  intros Hk Hsq. induction m as [|m IH]; intros Hm Hlen Hsize Hbn.
  - exists [], (Zpos (num_image_channels a)). cbn [seq for_range].
    unfold input_shape. rewrite Hsq. cbn [Z.of_nat Z.pow]. now rewrite Z.div_1_r.
  - assert (Hpow : (0 < 2 ^ Z.of_nat m)%Z) by (apply Z.pow_pos_nonneg; lia).
    assert (Hsucc : (2 ^ Z.of_nat (S m) = 2 ^ Z.of_nat m * 2)%Z)
      by (rewrite Nat2Z.inj_succ, Z.pow_succ_r by lia; lia).
    rewrite Hsucc in Hsize, Hbn.
    destruct IH as (layers & c & IH); [lia|lia|lia|right; lia|].
    rewrite seq_S, for_range_app, IH. cbn [and_then Nat.add for_range].
    set (h := (Zpos (image_height a) / 2 ^ Z.of_nat m)%Z).
    assert (Hh : (2 <= h)%Z) by (apply half_at_least; lia).
    assert (Hitem : exists p, nth_error (num_channels_progression_enc a) m = Some p).
    { destruct (nth_error (num_channels_progression_enc a) m) eqn:E; [now eexists|].
      apply nth_error_None in E. lia. }
    destruct Hitem as (p & Hitem).
    unfold encoder_step. cbn [snd fst s_channels s_height].
    replace (Z.of_nat m <? Z.of_nat (num_layers_enc a) - 1)%Z with true
      by (symmetry; apply Z.ltb_lt; lia).
    unfold list_item. rewrite Hitem, Hk. cbn [and_then].
    unfold add_layer at 1. cbn [snd fst apply_layer s_channels s_height s_width s_batch].
    rewrite Z.eqb_refl. cbn [negb].
    replace (h + 2 * 1 <? 4)%Z with false by (symmetry; apply Z.ltb_ge; lia).
    cbn [orb and_then]. rewrite halving_conv. unfold h. rewrite half_again.
    set (h' := (Zpos (image_height a) / 2 ^ Z.of_nat (S m))%Z).
    assert (Hh' : (1 <= h')%Z) by (unfold h'; apply half_at_least; lia).
    assert (Hbn' : (Zpos (batch_size a) * h' * h' =? 1)%Z = false).
    { apply Z.eqb_neq. destruct Hbn as [Hn|Hbig].
      - nia.
      - assert (2 <= h')%Z by (unfold h'; apply half_at_least; lia). nia. }
    destruct (0 <? m).
    + unfold add_layer. cbn [snd fst apply_layer s_channels s_height s_width s_batch and_then].
      rewrite Z.eqb_refl, Hbn'. cbn [negb andb and_then fst snd apply_layer].
      eexists. eexists. reflexivity.
    + unfold add_layer. cbn [and_then snd fst apply_layer]. eexists. eexists. reflexivity.
Qed.

(** The last layer of the encoder, whose kernel has the height of the
    feature map, on a square feature map. *)
Lemma bottleneck_layer (a : arguments) (m : nat) layers c h :
  num_layers_enc a = S m ->
  (1 <= h)%Z ->
  encoder_step a (layers, mkShape (Zpos (batch_size a)) c h h) m
  = if (0 <? m) && (Zpos (batch_size a) =? 1)%Z
    then Failed SingleValuePerChannel
    else Built (layers
                ++ [("conv_" +:+ pretty m,
                     Conv2d c (Zpos (num_channels_bottleneck a)) h 1 0)]
                ++ (if 0 <? m
                    then [("batch_norm_enc" +:+ pretty m,
                           BatchNorm2d (Zpos (num_channels_bottleneck a)))]
                    else [])
                ++ [("lReLU_" +:+ pretty m, LeakyReLU)],
                mkShape (Zpos (batch_size a)) (Zpos (num_channels_bottleneck a)) 1 1).
Proof.
  intros Henc Hh. unfold encoder_step. cbn [snd fst s_channels s_height]. rewrite Henc.
  replace (Z.of_nat m <? Z.of_nat (S m) - 1)%Z with false by (symmetry; apply Z.ltb_ge; lia).
  cbn [and_then]. unfold add_layer at 1.
  cbn [snd fst apply_layer s_channels s_height s_width s_batch].
  rewrite Z.eqb_refl. cbn [negb].
  replace (h + 2 * 0 <? h)%Z with false by (symmetry; apply Z.ltb_ge; lia).
  cbn [orb and_then]. rewrite full_kernel_conv.
  destruct (0 <? m); cbn [andb].
  - unfold add_layer at 1. cbn [snd fst apply_layer s_channels s_height s_width s_batch].
    rewrite Z.eqb_refl. cbn [negb andb].
    replace (Zpos (batch_size a) * 1 * 1)%Z with (Zpos (batch_size a)) by lia.
    destruct (Zpos (batch_size a) =? 1)%Z; cbn [and_then]; [reflexivity|].
    unfold add_layer. cbn [snd fst apply_layer and_then]. now rewrite <- !app_assoc.
  - unfold add_layer. cbn [snd fst apply_layer and_then]. now rewrite <- !app_assoc.
Qed.

(** The first [S j] layers of the decoder, none of them the last one, turn
    the single pixel of the bottleneck into [2 ^ (j + 2)] pixels each
    way. *)
Lemma decoder_doubles (a : arguments) layers0 c0 (j : nat) :
  kernel_size a = 4%positive ->
  S j < num_layers_dec a ->
  S j <= length (num_channels_progression_dec a) ->
  exists layers c,
    for_range (decoder_step a) (seq (num_layers_enc a) (S j))
              (layers0, mkShape (Zpos (batch_size a)) c0 1 1)
    = Built (layers,
             mkShape (Zpos (batch_size a)) c (2 ^ Z.of_nat (j + 2)) (2 ^ Z.of_nat (j + 2))).
Proof.
  intros Hk. induction j as [|j IH]; intros Hj Hlen.
  - cbn [seq for_range]. unfold decoder_step. cbn [snd fst s_channels].
    rewrite Nat.eqb_refl, Nat.sub_diag.
    destruct (nth_error (num_channels_progression_dec a) 0) as [p|] eqn:Hitem;
      [|apply nth_error_None in Hitem; lia].
    unfold list_item. rewrite Hitem, Hk. cbn [and_then].
    unfold add_layer at 1. cbn [snd fst apply_layer s_channels s_height s_width s_batch].
    rewrite Z.eqb_refl. cbn [negb].
    change (conv_transpose2d_size 1 4 1 0) with 4%Z.
    change (4 <? 1)%Z with false. cbn [orb and_then].
    replace (Z.of_nat (num_layers_enc a)
             <? Z.of_nat (num_layers_enc a + num_layers_dec a) - 1)%Z
      with true by (symmetry; apply Z.ltb_lt; lia).
    unfold add_layer. cbn [snd fst apply_layer s_channels s_height s_width s_batch and_then].
    rewrite Z.eqb_refl. cbn [negb andb].
    replace (Zpos (batch_size a) * 4 * 4 =? 1)%Z with false
      by (symmetry; apply Z.eqb_neq; lia).
    cbn [and_then snd fst apply_layer]. eexists. eexists. reflexivity.
  - destruct IH as (layers & c & IH); [lia|lia|].
    rewrite seq_S, for_range_app, IH. cbn [and_then for_range].
    set (s := (2 ^ Z.of_nat (j + 2))%Z).
    assert (Hs : (4 <= s)%Z).
    { unfold s. replace (Z.of_nat (j + 2)) with (Z.of_nat j + 2)%Z by lia.
      rewrite Z.pow_add_r by lia.
      assert (0 < 2 ^ Z.of_nat j)%Z by (apply Z.pow_pos_nonneg; lia). lia. }
    assert (Hnext : (2 ^ Z.of_nat (S j + 2) = 2 * s)%Z).
    { unfold s. replace (Z.of_nat (S j + 2)) with (Z.succ (Z.of_nat (j + 2))) by lia.
      rewrite Z.pow_succ_r by lia. reflexivity. }
    rewrite Hnext.
    unfold decoder_step. cbn [snd fst s_channels].
    replace (num_layers_enc a + S j =? num_layers_enc a) with false
      by (symmetry; apply Nat.eqb_neq; lia).
    replace (Z.of_nat (num_layers_enc a + S j)
             <? Z.of_nat (num_layers_enc a + num_layers_dec a) - 1)%Z
      with true by (symmetry; apply Z.ltb_lt; lia).
    replace (num_layers_enc a + S j - num_layers_enc a) with (S j) by lia.
    destruct (nth_error (num_channels_progression_dec a) (S j)) as [p|] eqn:Hitem;
      [|apply nth_error_None in Hitem; lia].
    unfold list_item. rewrite Hitem, Hk. cbn [and_then].
    unfold add_layer at 1. cbn [snd fst apply_layer s_channels s_height s_width s_batch].
    rewrite Z.eqb_refl. cbn [negb]. rewrite doubling_conv_transpose.
    replace (2 * s <? 1)%Z with false by (symmetry; apply Z.ltb_ge; lia).
    cbn [orb and_then].
    unfold add_layer. cbn [snd fst apply_layer s_channels s_height s_width s_batch and_then].
    rewrite Z.eqb_refl. cbn [negb andb].
    replace (Zpos (batch_size a) * (2 * s) * (2 * s) =? 1)%Z with false
      by (symmetry; apply Z.eqb_neq; nia).
    cbn [and_then snd fst apply_layer]. eexists. eexists. reflexivity.
Qed.

(** The last layer of a decoder of at least two layers doubles the size
    once more and gives the channels of the image, or 256 classes for each,
    and no batch normalisation follows it. *)
Lemma last_decoder_layer (a : arguments) layers c s (j : nat) :
  kernel_size a = 4%positive ->
  num_layers_dec a = S (S j) ->
  (1 <= s)%Z ->
  exists layers',
    decoder_step a (layers, mkShape (Zpos (batch_size a)) c s s) (num_layers_enc a + S j)
    = Built (layers',
             mkShape (Zpos (batch_size a))
                     (if output_softmax a then Zpos (num_image_channels a) * 256
                      else Zpos (num_image_channels a))
                     (2 * s) (2 * s)).
Proof.
  intros Hk Hdec Hs. unfold decoder_step. cbn [snd fst s_channels]. rewrite Hdec.
  replace (num_layers_enc a + S j =? num_layers_enc a) with false
    by (symmetry; apply Nat.eqb_neq; lia).
  replace (Z.of_nat (num_layers_enc a + S j)
           <? Z.of_nat (num_layers_enc a + S (S j)) - 1)%Z
    with false by (symmetry; apply Z.ltb_ge; lia).
  rewrite Hk. cbn [and_then].
  unfold add_layer at 1. cbn [snd fst apply_layer s_channels s_height s_width s_batch].
  rewrite Z.eqb_refl. cbn [negb]. rewrite doubling_conv_transpose.
  replace (2 * s <? 1)%Z with false by (symmetry; apply Z.ltb_ge; lia).
  cbn [orb and_then].
  destruct (output_softmax a); cbn [negb].
  - eexists. reflexivity.
  - unfold add_layer. cbn [snd fst apply_layer and_then]. eexists. reflexivity.
Qed.

(** X19. With kernels of four, a square image of at least
    [2 ^ (num_layers_enc - 1)] pixels, batches of at least two and enough
    entries in the two lists of channel multipliers, [build_module]
    succeeds, and the output has [2 ^ (num_layers_dec + 1)] pixels each way
    (64 for five layers, 32 for four), whatever the size of the image: the
    encoder ends in a bottleneck of one pixel and every layer of the decoder
    but the first doubles the size. *)
Theorem output_size_is_set_by_the_decoder (a : arguments) :
  kernel_size a = 4%positive ->
  image_width a = image_height a ->
  1 <= num_layers_enc a ->
  2 <= num_layers_dec a ->
  num_layers_enc a - 1 <= length (num_channels_progression_enc a) ->
  num_layers_dec a - 1 <= length (num_channels_progression_dec a) ->
  (2 ^ Z.of_nat (num_layers_enc a - 1) <= Zpos (image_height a))%Z ->
  (2 <= Zpos (batch_size a))%Z ->
  exists layer_dict,
    build_module a
    = Built (layer_dict,
             mkShape (Zpos (batch_size a))
                     (if output_softmax a then Zpos (num_image_channels a) * 256
                      else Zpos (num_image_channels a))
                     (2 ^ Z.of_nat (num_layers_dec a + 1))
                     (2 ^ Z.of_nat (num_layers_dec a + 1))).
Proof.
  intros Hk Hsq Henc Hdec Hlenc Hldec Hsize Hbatch.
  destruct (num_layers_enc a) as [|m] eqn:Em; [lia|].
  destruct (num_layers_dec a) as [|[|j]] eqn:Ed; [lia|lia|].
  replace (S m - 1) with m in Hlenc, Hsize by lia.
  replace (S (S j) - 1) with (S j) in Hldec by lia.
  destruct (encoder_halves a m Hk Hsq) as (layers1 & c1 & Hprefix);
    [lia|exact Hlenc|exact Hsize|now left|].
  assert (Hh : (1 <= Zpos (image_height a) / 2 ^ Z.of_nat m)%Z)
    by (apply half_at_least; lia).
  pose proof (bottleneck_layer a m layers1 c1 _ Em Hh) as Hlast.
  replace (Zpos (batch_size a) =? 1)%Z with false in Hlast
    by (symmetry; apply Z.eqb_neq; lia).
  rewrite andb_false_r in Hlast.
  destruct (decoder_doubles a
              (layers1
               ++ [("conv_" +:+ pretty m,
                    Conv2d c1 (Zpos (num_channels_bottleneck a))
                           (Zpos (image_height a) / 2 ^ Z.of_nat m) 1 0)]
               ++ (if 0 <? m
                   then [("batch_norm_enc" +:+ pretty m,
                          BatchNorm2d (Zpos (num_channels_bottleneck a)))]
                   else [])
               ++ [("lReLU_" +:+ pretty m, LeakyReLU)])
              (Zpos (num_channels_bottleneck a)) j Hk) as (layers2 & c2 & Hdecoder);
    [lia|lia|].
  rewrite Em in Hdecoder.
  assert (Hs : (1 <= 2 ^ Z.of_nat (j + 2))%Z).
  { assert (0 < 2 ^ Z.of_nat (j + 2))%Z by (apply Z.pow_pos_nonneg; lia). lia. }
  destruct (last_decoder_layer a layers2 c2 _ j Hk Ed Hs) as (layers3 & Hfinal).
  rewrite Em in Hfinal.
  exists layers3. unfold build_module. rewrite Em, Ed.
  rewrite seq_S, for_range_app, Hprefix. cbn [and_then Nat.add for_range].
  rewrite Hlast. cbn [and_then].
  rewrite (seq_S (S j) (S m)), for_range_app, Hdecoder. cbn [and_then for_range].
  rewrite Hfinal. cbn [and_then]. cbn [Nat.add].
  replace (Z.of_nat (S (S (j + 1)))) with (Z.succ (Z.of_nat (j + 2))) by lia.
  rewrite Z.pow_succ_r by lia. reflexivity.
Qed.

Lemma output_size_is_set_by_the_decoder_witness :
  exists layer_dict,
    build_module base_arguments = Built (layer_dict, mkShape 2 3 64 64).
Proof.
  assert (Hsize : (2 ^ Z.of_nat (6 - 1) <= 128)%Z) by (cbn; lia).
  assert (Hbatch : (2 <= 2)%Z) by lia.
  assert (H1 : 1 <= 6) by lia.
  assert (H2 : 2 <= 5) by lia.
  assert (H3 : 6 - 1 <= 5) by lia.
  assert (H4 : 5 - 1 <= 4) by lia.
  exact (output_size_is_set_by_the_decoder base_arguments eq_refl eq_refl H1 H2 H3 H4
           Hsize Hbatch).
Defined.

(** X20. On single images (a batch size of one) no context encoder with
    two or more encoder layers can be built: the bottleneck holds one value
    per channel, and the batch normalisation that follows it, in training
    mode as every new module, raises the [ValueError] of [torch]. *)
Theorem batch_of_one_cannot_be_built (a : arguments) :
  batch_size a = 1%positive ->
  kernel_size a = 4%positive ->
  image_width a = image_height a ->
  2 <= num_layers_enc a ->
  num_layers_enc a - 1 <= length (num_channels_progression_enc a) ->
  (2 ^ Z.of_nat (num_layers_enc a) <= Zpos (image_height a))%Z ->
  build_module a = Failed SingleValuePerChannel.
Proof.
  intros Hbatch Hk Hsq Henc Hlenc Hsize.
  destruct (num_layers_enc a) as [|[|m]] eqn:Em; [lia|lia|].
  replace (S (S m) - 1) with (S m) in Hlenc by lia.
  assert (Hpow : (2 ^ Z.of_nat (S (S m)) = 2 ^ Z.of_nat (S m) * 2)%Z)
    by (rewrite (Nat2Z.inj_succ (S m)), Z.pow_succ_r by lia; lia).
  assert (Hpos : (0 < 2 ^ Z.of_nat (S m))%Z) by (apply Z.pow_pos_nonneg; lia).
  destruct (encoder_halves a (S m) Hk Hsq) as (layers1 & c1 & Hprefix);
    [lia|exact Hlenc|lia|right; lia|].
  assert (Hh : (1 <= Zpos (image_height a) / 2 ^ Z.of_nat (S m))%Z)
    by (apply half_at_least; lia).
  pose proof (bottleneck_layer a (S m) layers1 c1 _ Em Hh) as Hlast.
  rewrite Hbatch in Hlast, Hprefix. cbn [Nat.ltb Nat.leb Z.eqb Pos.eqb andb] in Hlast.
  unfold build_module. rewrite Em.
  rewrite seq_S, for_range_app, Hprefix. cbn [and_then Nat.add for_range].
  rewrite Hlast. reflexivity.
Qed.

Lemma batch_of_one_cannot_be_built_witness :
  build_module single_image_arguments = Failed SingleValuePerChannel.
Proof.
  assert (Hsize : (2 ^ Z.of_nat 6 <= 128)%Z) by (cbn; lia).
  assert (H1 : 2 <= 6) by lia.
  assert (H2 : 6 - 1 <= 5) by lia.
  exact (batch_of_one_cannot_be_built single_image_arguments eq_refl eq_refl eq_refl
           H1 H2 Hsize).
Defined.
